(** * Telegram Bot API proxy worker: the forwarding handler

    A shallow embedding of the Cloudflare worker ([handleRequest],
    [corsHeaders] and [filterHeaders], the module the deploy scripts
    upload; its text is in [scripts/railway-deploy.js]) together with the
    parts of the JavaScript platform it calls: string methods, the
    token-extraction pattern, [JSON.stringify] on flat objects, the
    [Headers] class and the [Response] constructor.

    Strings are sequences of code units; the embedding covers the code
    units below 256, one [ascii] each. *)

From Stdlib Require Import Bool List Arith NArith Lia.
From Stdlib Require Import Ascii String.
From Stdlib Require Import Permutation.
From Stdlib Require DecimalString.
Import ListNotations.

Local Open Scope string_scope.
Local Open Scope list_scope.

(** ** JavaScript string methods *)

Module JsString.

Definition code (c : ascii) : nat := nat_of_ascii c.

Definition inRange (lo hi : nat) (c : ascii) : bool :=
  Nat.leb lo (code c) && Nat.leb (code c) hi.

(** [String.prototype.toLowerCase] on one code unit below 256: the
    letters A-Z and the Latin-1 capitals (U+00C0-U+00DE without the
    multiplication sign U+00D7) move up by 32, every other code unit
    is kept. *)
Definition toLowerCaseChar (c : ascii) : ascii :=
  if inRange 65 90 c || inRange 192 214 c || inRange 216 222 c
  then ascii_of_nat (code c + 32)
  else c.

Fixpoint toLowerCase (s : string) : string :=
  match s with
  | EmptyString => EmptyString
  | String c r => String (toLowerCaseChar c) (toLowerCase r)
  end.

(** [s.startsWith(p)] *)
Definition startsWith (s p : string) : bool := String.prefix p s.

(** The code units [String.prototype.trim] strips: ECMAScript
    WhiteSpace and LineTerminator, of which TAB, LF, VT, FF, CR,
    SPACE and NBSP lie below 256. *)
Definition isWhiteSpace (c : ascii) : bool :=
  inRange 9 13 c || Nat.eqb (code c) 32 || Nat.eqb (code c) 160.

Fixpoint trimStart (s : string) : string :=
  match s with
  | EmptyString => EmptyString
  | String c r => if isWhiteSpace c then trimStart r else s
  end.

Fixpoint trimEnd (s : string) : string :=
  match s with
  | EmptyString => EmptyString
  | String c r =>
      match trimEnd r with
      | EmptyString => if isWhiteSpace c then EmptyString else String c EmptyString
      | r' => String c r'
      end
  end.

Definition trim (s : string) : string := trimEnd (trimStart s).

(** What [trim] is about: a string of white space only, a string
    that starts with white space, a string that ends with it. *)
Fixpoint allWhiteSpace (s : string) : bool :=
  match s with
  | EmptyString => true
  | String c r => isWhiteSpace c && allWhiteSpace r
  end.

Definition startsWithWhiteSpace (s : string) : bool :=
  match s with
  | EmptyString => false
  | String c _ => isWhiteSpace c
  end.

Fixpoint endsWithWhiteSpace (s : string) : bool :=
  match s with
  | EmptyString => false
  | String c EmptyString => isWhiteSpace c
  | String _ r => endsWithWhiteSpace r
  end.

(** [s.split(sep)] for a one-character separator: the pieces between
    the separators, empty pieces included; never the empty array. *)
Fixpoint split (sep : ascii) (s : string) : list string :=
  match s with
  | EmptyString => [EmptyString]
  | String c r =>
      if Ascii.eqb c sep then EmptyString :: split sep r
      else match split sep r with
           | piece :: pieces => String c piece :: pieces
           | [] => [String c EmptyString]
           end
  end.

(** [array.includes(x)] on an array of strings. *)
Definition includes (l : list string) (x : string) : bool :=
  existsb (String.eqb x) l.

(** [s.includes(c)] for a one-character [c]. *)
Fixpoint includesChar (s : string) (c : ascii) : bool :=
  match s with
  | EmptyString => false
  | String d r => Ascii.eqb d c || includesChar r c
  end.

(** Code units below 128. *)
Definition isAsciiChar (c : ascii) : bool :=
  match c with Ascii _ _ _ _ _ _ _ b7 => negb b7 end.

Fixpoint isAscii (s : string) : bool :=
  match s with
  | EmptyString => true
  | String c r => isAsciiChar c && isAscii r
  end.

(** Truthiness of a string: every string but the empty one. *)
Definition truthy (s : string) : bool :=
  match s with EmptyString => false | _ => true end.

End JsString.

(** ** The token pattern

    [pathname.match(/^\/bot([^/]+)/)]: the literal [/bot] at the start
    of the path, then one or more code units other than [/], as many as
    there are (the quantifier is greedy and nothing follows it).  The
    result is the capture group, or [None] when the pattern does not
    match (JavaScript's [null]). *)

Module TokenPattern.

Definition slash : ascii := "/"%char.

Fixpoint stripPrefix (p s : string) : option string :=
  match p, s with
  | EmptyString, _ => Some s
  | String a p', String b s' => if Ascii.eqb a b then stripPrefix p' s' else None
  | String _ _, EmptyString => None
  end.

(** The longest run of code units other than [/] at the start of [s]:
    what [[^/]+] (or [[^/]*]) consumes. *)
Fixpoint segment (s : string) : string :=
  match s with
  | EmptyString => EmptyString
  | String c r => if Ascii.eqb c slash then EmptyString else String c (segment r)
  end.

Definition matchBotToken (pathname : string) : option string :=
  match stripPrefix "/bot" pathname with
  | Some rest =>
      match segment rest with
      | EmptyString => None
      | token => Some token
      end
  | None => None
  end.

End TokenPattern.

(** ** [JSON.stringify] on objects whose values are strings *)

Module JSON.

Definition dquote : ascii := "034"%char.
Definition backslash : ascii := "092"%char.

Definition hexDigit (n : nat) : ascii :=
  if Nat.ltb n 10 then ascii_of_nat (48 + n) else ascii_of_nat (87 + n).

(** QuoteJSONString on one code unit: the quotation mark and the
    backslash are escaped, the control characters have their short
    escapes or the [\u00xx] form (lowercase hexadecimal), everything
    else is copied. *)
Definition escapeChar (c : ascii) : string :=
  let n := nat_of_ascii c in
  if Nat.eqb n 34 then String backslash (String dquote EmptyString)
  else if Nat.eqb n 92 then String backslash (String backslash EmptyString)
  else if Nat.eqb n 8 then String backslash "b"
  else if Nat.eqb n 12 then String backslash "f"
  else if Nat.eqb n 10 then String backslash "n"
  else if Nat.eqb n 13 then String backslash "r"
  else if Nat.eqb n 9 then String backslash "t"
  else if Nat.ltb n 32 then
    String backslash
      (String "u" (String "0" (String "0"
        (String (hexDigit (n / 16)) (String (hexDigit (n mod 16)) EmptyString)))))
  else String c EmptyString.

Fixpoint escape (s : string) : string :=
  match s with
  | EmptyString => EmptyString
  | String c r => escapeChar c ++ escape r
  end.

Definition quote (s : string) : string :=
  String dquote (escape s ++ String dquote EmptyString).

Definition member (kv : string * string) : string :=
  quote (fst kv) ++ ":" ++ quote (snd kv).

(** [JSON.stringify(o)] for an object literal [o] given as its
    properties in insertion order. *)
Definition stringify (o : list (string * string)) : string :=
  "{" ++ String.concat "," (map member o) ++ "}".

(** Reading back: the grammar of JSON strings, on which the
    properties of the response bodies below are stated.  A [\u] escape
    is read when it names a code unit below 256. *)
Definition hexValue (c : ascii) : option nat :=
  let n := nat_of_ascii c in
  if Nat.leb 48 n && Nat.leb n 57 then Some (n - 48)
  else if Nat.leb 97 n && Nat.leb n 102 then Some (n - 87)
  else if Nat.leb 65 n && Nat.leb n 70 then Some (n - 55)
  else None.

Definition unescapeChar (c : ascii) : option ascii :=
  let n := nat_of_ascii c in
  if Nat.eqb n 34 then Some dquote
  else if Nat.eqb n 92 then Some backslash
  else if Nat.eqb n 47 then Some "/"%char
  else if Nat.eqb n 98 then Some "008"%char
  else if Nat.eqb n 102 then Some "012"%char
  else if Nat.eqb n 110 then Some "010"%char
  else if Nat.eqb n 114 then Some "013"%char
  else if Nat.eqb n 116 then Some "009"%char
  else None.

Definition consChar (c : ascii) (r : option (string * string))
  : option (string * string) :=
  match r with
  | Some (text, rest) => Some (String c text, rest)
  | None => None
  end.

(** The characters of a string up to its closing quotation mark, and
    the input after it. *)
Fixpoint readChars (s : string) : option (string * string) :=
  match s with
  | EmptyString => None
  | String c r =>
      if Ascii.eqb c dquote then Some (EmptyString, r)
      else if Ascii.eqb c backslash then
        match r with
        | String e r1 =>
            if Ascii.eqb e "u"%char then
              match r1 with
              | String h3 (String h2 (String h1 (String h0 r2))) =>
                  match hexValue h3, hexValue h2, hexValue h1, hexValue h0 with
                  | Some 0, Some 0, Some hi, Some lo =>
                      consChar (ascii_of_nat (16 * hi + lo)) (readChars r2)
                  | _, _, _, _ => None
                  end
              | _ => None
              end
            else
              match unescapeChar e with
              | Some d => consChar d (readChars r1)
              | None => None
              end
        | EmptyString => None
        end
      else if Nat.ltb (nat_of_ascii c) 32 then None
      else consChar c (readChars r)
  end.

Definition readString (s : string) : option (string * string) :=
  match s with
  | String c r => if Ascii.eqb c dquote then readChars r else None
  | EmptyString => None
  end.

Definition expect (c : ascii) (s : string) : option string :=
  match s with
  | String d r => if Ascii.eqb c d then Some r else None
  | EmptyString => None
  end.

(** The members of an object after its opening brace, at most [fuel]
    of them, up to the closing brace. *)
Fixpoint readMembers (fuel : nat) (s : string)
  : option (list (string * string) * string) :=
  match fuel with
  | O => None
  | S fuel' =>
      match readString s with
      | Some (key, s1) =>
          match expect ":"%char s1 with
          | Some s2 =>
              match readString s2 with
              | Some (value, s3) =>
                  match s3 with
                  | String d s4 =>
                      if Ascii.eqb d "}"%char then Some ([(key, value)], s4)
                      else if Ascii.eqb d ","%char then
                        match readMembers fuel' s4 with
                        | Some (o, rest) => Some ((key, value) :: o, rest)
                        | None => None
                        end
                      else None
                  | EmptyString => None
                  end
              | None => None
              end
          | None => None
          end
      | None => None
      end
  end.

(** [JSON.parse] on the text of an object whose values are strings
    and which is written without insignificant whitespace; [None]
    stands for every other input. *)
Definition parse (s : string) : option (list (string * string)) :=
  match s with
  | String c r =>
      if Ascii.eqb c "{"%char then
        match r with
        | String d EmptyString =>
            if Ascii.eqb d "}"%char then Some [] else None
        | _ =>
            match readMembers (String.length r) r with
            | Some (o, EmptyString) => Some o
            | _ => None
            end
        end
      else None
  | EmptyString => None
  end.

End JSON.

(** ** The [Headers] class

    A header list in the sense of the Fetch standard: names and values
    in insertion order, names compared without regard to the case of
    ASCII letters.  [set] and [append] normalise the value they are
    given: they strip the HTTP whitespace around it.  A value read
    back with [get] or met in an iteration is the combination of the
    values under a name and need not be normalised itself: the values
    [a] and the empty one combine to [a, ] with a space at the end. *)

Module Headers.

Definition t : Type := list (string * string).

Definition byteLowercaseChar (c : ascii) : ascii :=
  if JsString.inRange 65 90 c then ascii_of_nat (JsString.code c + 32) else c.

Fixpoint byteLowercase (s : string) : string :=
  match s with
  | EmptyString => EmptyString
  | String c r => String (byteLowercaseChar c) (byteLowercase r)
  end.

(** Byte-case-insensitive match of two header names. *)
Definition sameName (a b : string) : bool :=
  String.eqb (byteLowercase a) (byteLowercase b).

Definition named (name : string) (e : string * string) : bool :=
  sameName (fst e) name.

(** The values of the headers called [name], in list order. *)
Definition values (h : t) (name : string) : list string :=
  map snd (filter (named name) h).

Definition contains (h : t) (name : string) : bool :=
  existsb (named name) h.

(** [h.get(name)]: [null] when no header has the name, otherwise the
    values joined by a comma and a space. *)
Definition get (h : t) (name : string) : option string :=
  match values h name with
  | [] => None
  | vs => Some (String.concat ", " vs)
  end.

Definition remove (h : t) (name : string) : t :=
  filter (fun e => negb (named name e)) h.

(** HTTP whitespace: tab, line feed, carriage return and space. *)
Definition isHttpWhitespace (c : ascii) : bool :=
  Ascii.eqb c "009"%char || Ascii.eqb c "010"%char
  || Ascii.eqb c "013"%char || Ascii.eqb c " "%char.

Fixpoint stripLeading (s : string) : string :=
  match s with
  | EmptyString => EmptyString
  | String c r => if isHttpWhitespace c then stripLeading r else s
  end.

Fixpoint stripTrailing (s : string) : string :=
  match s with
  | EmptyString => EmptyString
  | String c r =>
      match stripTrailing r with
      | EmptyString => if isHttpWhitespace c then EmptyString else String c EmptyString
      | kept => String c kept
      end
  end.

(** A value normalised: without the HTTP whitespace before and after
    it. *)
Definition normalize (value : string) : string :=
  stripTrailing (stripLeading value).

(** [h.set(name, value)]: the first header of that name takes the
    normalised value and the others are removed; without one the header
    is added at the end. *)
Fixpoint set (h : t) (name value : string) : t :=
  match h with
  | [] => [(name, normalize value)]
  | e :: r =>
      if named name e then (fst e, normalize value) :: remove r name
      else e :: set r name value
  end.

(** [h.append(name, value)]: the normalised value is added at the end,
    under the name spelled like the first header of that name if there
    is one. *)
Definition append (h : t) (name value : string) : t :=
  let spelled :=
    match find (named name) h with
    | Some e => fst e
    | None => name
    end in
  h ++ [(spelled, normalize value)].

(** Iteration ([for (const [key, value] of h)], [h.entries()]): "sort
    and combine".  The names are lowercased, deduplicated and sorted by
    code unit; each name yields one pair with its combined value,
    except [set-cookie], which yields one pair per value. *)
Fixpoint insertSorted (x : string) (l : list string) : list string :=
  match l with
  | [] => [x]
  | y :: r => if String.leb x y then x :: l else y :: insertSorted x r
  end.

Definition sortNames (l : list string) : list string :=
  fold_right insertSorted [] l.

Definition lowercaseNames (h : t) : list string :=
  map (fun e => byteLowercase (fst e)) h.

Definition sortedLowercaseNames (h : t) : list string :=
  sortNames (nodup string_dec (lowercaseNames h)).

Definition entriesOf (h : t) (name : string) : list (string * string) :=
  if String.eqb name "set-cookie" then map (pair name) (values h name)
  else match get h name with
       | Some value => [(name, value)]
       | None => []
       end.

Definition entries (h : t) : list (string * string) :=
  flat_map (entriesOf h) (sortedLowercaseNames h).

(** [new Headers(init)] for an object literal, given as its properties
    in insertion order: every pair is appended.  [new Headers()] is
    [create []]. *)
Definition create (init : list (string * string)) : t :=
  fold_left (fun h kv => append h (fst kv) (snd kv)) init [].

(** [new Headers(h)] for a [Headers] object, also where one is given
    as the [headers] of a [Request] or [Response]: the worker runtime
    copies the list as it stands instead of filling the new one from
    the iteration of the old, so every header keeps its lines and no
    value is normalised a second time. *)
Definition copy (h : t) : t := h.

End Headers.

(** ** Requests, responses and the upstream call *)

Module URL.

(** The parts of [new URL(request.url)] the handler reads.  The URL of
    a request the platform delivers is absolute and without fragment,
    so that parsing it does not throw and [href] is the whole of it. *)
Record t : Type := { origin : string; pathname : string; search : string }.

Definition href (u : t) : string := origin u ++ pathname u ++ search u.

End URL.

(** The bytes a [ReadableStream] carries. *)
Definition Stream : Type := string.

Module Request.

(** A request, with its URL kept in parts. *)
Record t : Type := {
  method : string;
  url : URL.t;
  headers : Headers.t;
  body : option Stream
}.

End Request.

Module Response.

Record t : Type := {
  status : N;
  statusText : string;
  headers : Headers.t;
  body : option Stream
}.

(** The first argument of [new Response(body, init)]. *)
Inductive BodyInit : Type :=
| BodyNull
| BodyText (text : string)
| BodyStream (stream : option Stream).

(** [init.headers]: an object literal, or a [Headers] object. *)
Inductive HeadersInit : Type :=
| HeadersLiteral (props : list (string * string))
| HeadersObject (h : Headers.t).

(** The second argument; [None] is a property the caller leaves out. *)
Record Init : Type := {
  init_status : option N;
  init_statusText : option string;
  init_headers : HeadersInit
}.

(** The status text the worker runtime reads back from a response
    built without one: the reason phrase of the status.  Given for the
    statuses with which the handler leaves the status text out. *)
Definition reasonPhrase (status : N) : string :=
  match status with
  | 200%N => "OK"
  | 400%N => "Bad Request"
  | 403%N => "Forbidden"
  | 502%N => "Bad Gateway"
  | _ => EmptyString
  end.

(** [new Response(body, init)]: status 200 unless given, and the
    reason phrase of the status as status text unless one is given; the
    headers are filled from [init.headers]; a text body brings its own
    content type when the headers name none, a stream or [null] brings
    none.  The constructor's range checks are not modelled: the handler
    passes it literals, or the status, status text and body of a
    response the platform returned. *)
Definition create (b : BodyInit) (init : Init) : t :=
  let hs :=
    match init_headers init with
    | HeadersLiteral props => Headers.create props
    | HeadersObject h => Headers.copy h
    end in
  let code := match init_status init with Some s => s | None => 200%N end in
  {| status := code;
     statusText := match init_statusText init with Some s => s | None => reasonPhrase code end;
     headers :=
       match b with
       | BodyText _ =>
           if Headers.contains hs "Content-Type" then hs
           else Headers.append hs "Content-Type" "text/plain;charset=UTF-8"
       | _ => hs
       end;
     body :=
       match b with
       | BodyNull => None
       | BodyText text => Some text
       | BodyStream stream => stream
       end |}.

End Response.

(** A thrown [Error], of which the handler reads [error.message]. *)
Record Error : Type := { message : string }.

(** How the promise of [fetch(telegramRequest)] settles. *)
Inductive Settled : Type :=
| Fulfilled (response : Response.t)
| Rejected (error : Error).

(** An [async] function whose only suspension point is
    [await fetch(...)]: it returns, it throws (its promise rejects), or
    it issues one request and goes on with the way that promise
    settled. *)
Inductive Async (A : Type) : Type :=
| Return (a : A)
| Throw (error : Error)
| AwaitFetch (request : Request.t) (k : Settled -> Async A).

Arguments Return {A} a.
Arguments Throw {A} error.
Arguments AwaitFetch {A} request k.

(** How a call completes. *)
Inductive Completion (A : Type) : Type :=
| Returned (a : A)
| Thrown (error : Error).

Arguments Returned {A} a.
Arguments Thrown {A} error.

(** The worker's environment bindings; [None] is an unbound name. *)
Record Env : Type := { ALLOWED_TOKENS : option string }.

(** ** The worker *)

(** [corsHeaders()]: the object literal, properties in source order. *)
Definition corsHeaders : list (string * string) :=
  [ ("Access-Control-Allow-Origin", "*");
    ("Access-Control-Allow-Methods", "GET, POST, PUT, DELETE, OPTIONS");
    ("Access-Control-Allow-Headers", "Content-Type, Authorization");
    ("Access-Control-Max-Age", "86400") ].

(** [{ 'Content-Type': 'application/json', ...corsHeaders() }]: the
    spread adds four properties under names the literal does not have
    yet. *)
Definition jsonCorsHeaders : list (string * string) :=
  ("Content-Type", "application/json") :: corsHeaders.

Definition allowedHeaders : list string :=
  [ "content-type"; "accept"; "accept-language"; "content-length" ].

Definition filterHeaders (headers : Headers.t) : Headers.t :=
  fold_left
    (fun (filtered : Headers.t) (kv : string * string) =>
       let (key, value) := kv in
       if JsString.includes allowedHeaders (JsString.toLowerCase key)
       then Headers.set filtered key value
       else filtered)
    (Headers.entries headers)
    (Headers.create []).

(** The body of [handleRequest] from the construction of the Telegram
    URL on.  [telegramUrl] is the template string
    [https://api.telegram.org${url.pathname}${url.search}], kept in
    parts.  The [try] block awaits [fetch] once; its [catch] receives
    the rejection, and the constructors around the call ([Request],
    [Headers], [Response]) are total on what they are given here. *)
Definition forward (request : Request.t) : Async Response.t :=
  let url := Request.url request in
  let telegramUrl :=
    {| URL.origin := "https://api.telegram.org";
       URL.pathname := URL.pathname url;
       URL.search := URL.search url |} in
  let telegramRequest :=
    {| Request.method := Request.method request;
       Request.url := telegramUrl;
       Request.headers := filterHeaders (Request.headers request);
       Request.body :=
         if negb (String.eqb (Request.method request) "GET")
            && negb (String.eqb (Request.method request) "HEAD")
         then Request.body request
         else None |} in
  AwaitFetch telegramRequest (fun settled =>
    match settled with
    | Fulfilled response =>
        let responseHeaders :=
          fold_left
            (fun h kv => Headers.set h (fst kv) (snd kv))
            corsHeaders
            (Headers.copy (Response.headers response)) in
        Return
          (Response.create (Response.BodyStream (Response.body response))
             {| Response.init_status := Some (Response.status response);
                Response.init_statusText := Some (Response.statusText response);
                Response.init_headers := Response.HeadersObject responseHeaders |})
    | Rejected error =>
        Return
          (Response.create
             (Response.BodyText
                (JSON.stringify
                   [ ("error", "Failed to proxy request to Telegram");
                     ("message", message error) ]))
             {| Response.init_status := Some 502%N;
                Response.init_statusText := None;
                Response.init_headers := Response.HeadersLiteral jsonCorsHeaders |})
    end).

Definition handleRequest (request : Request.t) (env : Env) : Async Response.t :=
  let url := Request.url request in
  if String.eqb (Request.method request) "OPTIONS" then
    Return
      (Response.create Response.BodyNull
         {| Response.init_status := None;
            Response.init_statusText := None;
            Response.init_headers := Response.HeadersLiteral corsHeaders |})
  else if String.eqb (URL.pathname url) "/" || String.eqb (URL.pathname url) "/health" then
    Return
      (Response.create
         (Response.BodyText
            (JSON.stringify
               [ ("status", "ok");
                 ("service", "telegram-api-proxy");
                 ("usage", "Replace api.telegram.org with this worker URL") ]))
         {| Response.init_status := None;
            Response.init_statusText := None;
            Response.init_headers := Response.HeadersLiteral jsonCorsHeaders |})
  else if negb (JsString.startsWith (URL.pathname url) "/bot") then
    Return
      (Response.create
         (Response.BodyText
            (JSON.stringify
               [ ("error", "Invalid path. Expected /bot<token>/<method>");
                 ("example", "/botYOUR_TOKEN/sendMessage") ]))
         {| Response.init_status := Some 400%N;
            Response.init_statusText := None;
            Response.init_headers := Response.HeadersLiteral jsonCorsHeaders |})
  else
    match ALLOWED_TOKENS env with
    | Some allowed =>
        if JsString.truthy allowed then
          match TokenPattern.matchBotToken (URL.pathname url) with
          | Some token =>
              let allowedTokens :=
                map JsString.trim (JsString.split ","%char allowed) in
              if negb (JsString.includes allowedTokens token) then
                Return
                  (Response.create
                     (Response.BodyText
                        (JSON.stringify [ ("error", "Token not in allowlist") ]))
                     {| Response.init_status := Some 403%N;
                        Response.init_statusText := None;
                        Response.init_headers := Response.HeadersLiteral jsonCorsHeaders |})
              else forward request
          | None => forward request
          end
        else forward request
    | None => forward request
    end.

(** Running the handler against an upstream: the requests sent, in
    order, are recorded next to the result.  The upstream may answer
    differently from call to call, which its state [W] carries. *)
Section Run.

Variable W : Type.
Variable fetch : Request.t -> W -> Settled * W.

Fixpoint run {A : Type} (p : Async A) (w : W) (sent : list Request.t)
  : Completion A * list Request.t * W :=
  match p with
  | Return a => (Returned a, sent, w)
  | Throw error => (Thrown error, sent, w)
  | AwaitFetch request k =>
      let (settled, w') := fetch request w in
      run (k settled) w' (sent ++ [request])
  end.

End Run.

Arguments run {W} fetch {A} p w sent.

(** ** The specification's vocabulary

    The definitions of this part follow the text of the specification,
    not the source: the response bodies of its section 6, the terminal
    outcomes and the ordered checks of its section 4.1.  The theorems
    compare the worker with them. *)

Module Spec.

(** A text written with an apostrophe wherever it has a quotation
    mark. *)
Fixpoint text (s : string) : string :=
  match s with
  | EmptyString => EmptyString
  | String c r =>
      String (if Ascii.eqb c "'"%char then JSON.dquote else c) (text r)
  end.

Definition healthBody : string :=
  text "{'status':'ok','service':'telegram-api-proxy','usage':'Replace api.telegram.org with this worker URL'}".

Definition pathInvalidBody : string :=
  text "{'error':'Invalid path. Expected /bot<token>/<method>','example':'/botYOUR_TOKEN/sendMessage'}".

Definition forbiddenBody : string :=
  text "{'error':'Token not in allowlist'}".

Definition upstreamErrorLabel : string := "Failed to proxy request to Telegram".

(** The upstream-error body; the failure message stands in it as a
    JSON string. *)
Definition upstreamErrorBody (failure : string) : string :=
  text "{'error':'Failed to proxy request to Telegram','message':"
  ++ JSON.quote failure ++ "}".

(** The four CORS headers. *)
Definition cors : list (string * string) :=
  [ ("access-control-allow-origin", "*");
    ("access-control-allow-methods", "GET, POST, PUT, DELETE, OPTIONS");
    ("access-control-allow-headers", "Content-Type, Authorization");
    ("access-control-max-age", "86400") ].

Definition isCorsName (name : string) : bool :=
  existsb (fun kv => Headers.sameName (fst kv) name) cors.

Definition hasCors (h : Headers.t) : Prop :=
  forall name value, In (name, value) cors -> Headers.get h name = Some value.

(** The header names forwarded to the upstream. *)
Definition forwarded : list string :=
  [ "content-type"; "accept"; "accept-language"; "content-length" ].

(** A response with the status text that goes with its status when
    none is given. *)
Definition reply (status : N) (headers : Headers.t) (body : option string)
  : Response.t :=
  {| Response.status := status;
     Response.statusText := Response.reasonPhrase status;
     Response.headers := headers;
     Response.body := body |}.

(** The handler answers by itself, without a request to the upstream,
    with the given status and body. *)
Definition answers (p : Async Response.t) (status : N) (body : option string) : Prop :=
  exists r, p = Return r /\ Response.status r = status /\ Response.body r = body.

(** The handler sends one request to the upstream and answers from the
    way the call ends, without a second request. *)
Definition dispatches (p : Async Response.t) : Prop :=
  exists out k, p = AwaitFetch out k /\ forall settled, exists r, k settled = Return r.

Inductive Outcome : Type :=
| PreflightEmpty
| HealthOk
| PathInvalid
| TokenForbidden
| UpstreamDispatch.

Definition takes (p : Async Response.t) (o : Outcome) : Prop :=
  match o with
  | PreflightEmpty => answers p 200 None
  | HealthOk => answers p 200 (Some healthBody)
  | PathInvalid => answers p 400 (Some pathInvalidBody)
  | TokenForbidden => answers p 403 (Some forbiddenBody)
  | UpstreamDispatch => dispatches p
  end.

(** The checks of section 4.1, each as a condition on the request and
    the configuration. *)
Definition path (request : Request.t) : string := URL.pathname (Request.url request).

Definition isPreflight (request : Request.t) (_ : Env) : bool :=
  String.eqb (Request.method request) "OPTIONS".

Definition isHealth (request : Request.t) (_ : Env) : bool :=
  String.eqb (path request) "/" || String.eqb (path request) "/health".

Definition lacksPrefix (request : Request.t) (_ : Env) : bool :=
  negb (String.prefix "/bot" (path request)).

(** The configured entries: the pieces of the comma-separated setting,
    each trimmed. *)
Definition allowedSet (allowed : string) : list string :=
  map JsString.trim (JsString.split ","%char allowed).

(** The allowlist rejects: a non-empty setting, a token in the path,
    and the token equal to no configured entry. *)
Definition isForbidden (request : Request.t) (env : Env) : bool :=
  match ALLOWED_TOKENS env, TokenPattern.matchBotToken (path request) with
  | Some allowed, Some token =>
      JsString.truthy allowed
      && negb (existsb (String.eqb token) (allowedSet allowed))
  | _, _ => false
  end.

Definition checks : list ((Request.t -> Env -> bool) * Outcome) :=
  [ (isPreflight, PreflightEmpty);
    (isHealth, HealthOk);
    (lacksPrefix, PathInvalid);
    (isForbidden, TokenForbidden) ].

(** Top to bottom, the first check that matches decides; when none
    does the request goes upstream. *)
Fixpoint firstMatch (cs : list ((Request.t -> Env -> bool) * Outcome))
         (request : Request.t) (env : Env) : Outcome :=
  match cs with
  | [] => UpstreamDispatch
  | (check, outcome) :: rest =>
      if check request env then outcome else firstMatch rest request env
  end.

End Spec.

(** ** Sample inputs *)

Module Sample.

Definition request (method pathname : string) (headers : Headers.t) : Request.t :=
  {| Request.method := method;
     Request.url := {| URL.origin := "https://proxy.example";
                       URL.pathname := pathname;
                       URL.search := "?chat_id=7" |};
     Request.headers := headers;
     Request.body := Some "text=hi" |}.

Definition headers : Headers.t :=
  [ ("Content-Type", "application/x-www-form-urlencoded");
    ("Authorization", "Bearer s3cret");
    ("X-Foo", "1");
    ("Accept", "application/json");
    ("accept", "text/plain") ].

Definition unrestricted : Env := {| ALLOWED_TOKENS := None |}.

Definition restricted : Env := {| ALLOWED_TOKENS := Some "T1, T2" |}.

(** An upstream answer that already carries a CORS header and two
    cookies. *)
Definition upstreamOk : Response.t :=
  {| Response.status := 200;
     Response.statusText := "OK";
     Response.headers :=
       [ ("Content-Type", "application/json");
         ("Access-Control-Allow-Origin", "https://telegram.org");
         ("Set-Cookie", "a=1");
         ("Set-Cookie", "b=2") ];
     Response.body := Some (Spec.text "{'ok':true}") |}.

(** An upstream answer with status 403, as the Bot API gives for a
    bot the user has blocked. *)
Definition upstreamRefusal : Response.t :=
  {| Response.status := 403;
     Response.statusText := "Forbidden";
     Response.headers := [ ("Content-Type", "application/json") ];
     Response.body := Some (Spec.text "{'ok':false,'error_code':403}") |}.

Definition failure : Error := {| message := "connection refused" |}.

(** Upstreams over a call counter: one that always answers, one that
    always refuses, one that fails the first call only. *)
Definition answering (_ : Request.t) (calls : nat) : Settled * nat :=
  (Fulfilled upstreamOk, S calls).

Definition refusing (_ : Request.t) (calls : nat) : Settled * nat :=
  (Fulfilled upstreamRefusal, S calls).

Definition failingOnce (_ : Request.t) (calls : nat) : Settled * nat :=
  match calls with
  | O => (Rejected failure, 1)
  | S _ => (Fulfilled upstreamOk, S calls)
  end.

End Sample.

(** * The deploy scripts

    [scripts/deploy.js] and [scripts/railway-deploy.js] (in its two
    texts: the first with [deployWorker], [startStatusServer] and
    [main], the second with [safeJsonParse] before them) run under
    Node: they read the process environment and the worker's source,
    talk to the Cloudflare API with [fetch], and write to the
    console. *)

(** ** Values read from a JSON response

    What [await response.json()] gives: the parsed value, an object
    being its properties in the order the engine enumerates them, a
    number being the text [String(n)] gives for it.  [undefined] is
    [None] of [option value]. *)

Module Js.

#[warnings="-register-all"] Inductive value : Type :=
| Null
| Bool (b : bool)
| Number (repr : string)
| Str (s : string)
| Arr (items : list value)
| Obj (props : list (string * value)).

Definition typeError (kind key : string) : Error :=
  {| message := "Cannot read properties of " ++ kind
                ++ " (reading '" ++ key ++ "')" |}.

Fixpoint lookup (props : list (string * value)) (key : string) : option value :=
  match props with
  | [] => None
  | (k, v) :: rest => if String.eqb k key then Some v else lookup rest key
  end.

(** [v.key], for the property names the scripts read ([success],
    [errors], [result]), none of which a string, an array or
    [Object.prototype] has of its own: reading from [null] throws,
    from an object gives the property or [undefined], from anything
    else gives [undefined]. *)
Definition get (v : value) (key : string) : Completion (option value) :=
  match v with
  | Null => Thrown (typeError "null" key)
  | Obj props => Returned (lookup props key)
  | _ => Returned None
  end.

(** [v?.key] on a value that may be [undefined]. *)
Definition getOptional (v : option value) (key : string) : option value :=
  match v with
  | Some (Obj props) => lookup props key
  | _ => None
  end.

(** Truthiness. *)
Definition truthy (v : option value) : bool :=
  match v with
  | None => false
  | Some Null => false
  | Some (Bool b) => b
  | Some (Number repr) => negb (String.eqb repr "0")
  | Some (Str s) => JsString.truthy s
  | Some (Arr _) => true
  | Some (Obj _) => true
  end.

Definition notPrimitive : Error :=
  {| message := "Cannot convert object to primitive value" |}.

(** [String(v)], as a template literal applies it.  An array joins its
    elements with commas, converting them in order, [null] elements to
    empty strings.  An object is [[object Object]] unless it has a
    property [toString] of its own: in a parsed value that property is
    no function, [valueOf] leads to no primitive either, and the
    conversion throws. *)
Fixpoint toString (v : value) : Completion string :=
  match v with
  | Null => Returned "null"
  | Bool true => Returned "true"
  | Bool false => Returned "false"
  | Number repr => Returned repr
  | Str s => Returned s
  | Arr items =>
      match
        (fix each (l : list value) : Completion (list string) :=
           match l with
           | [] => Returned []
           | x :: rest =>
               match match x with
                     | Null => Returned EmptyString
                     | _ => toString x
                     end with
               | Returned s =>
                   match each rest with
                   | Returned ss => Returned (s :: ss)
                   | Thrown failure => Thrown failure
                   end
               | Thrown failure => Thrown failure
               end
           end) items
      with
      | Returned ss => Returned (String.concat "," ss)
      | Thrown failure => Thrown failure
      end
  | Obj props =>
      match lookup props "toString" with
      | Some _ => Thrown notPrimitive
      | None => Returned "[object Object]"
      end
  end.

(** [JSON.stringify(v)]. *)
Fixpoint stringify (v : value) : string :=
  match v with
  | Null => "null"
  | Bool true => "true"
  | Bool false => "false"
  | Number repr => repr
  | Str s => JSON.quote s
  | Arr items => "[" ++ String.concat "," (map stringify items) ++ "]"
  | Obj props =>
      "{" ++ String.concat ","
               (map (fun kv : string * value => let (k, x) := kv in
                               (JSON.quote k ++ ":" ++ stringify x)%string) props)
      ++ "}"
  end.

Definition newline : string := String "010" EmptyString.

(** [JSON.stringify(v, null, 2)] at a given indentation. *)
Fixpoint stringifyIndented (indent : string) (v : value) : string :=
  let inner := (indent ++ "  ")%string in
  match v with
  | Arr ((_ :: _) as items) =>
      "[" ++ newline ++ inner
      ++ String.concat ("," ++ newline ++ inner)%string
           (map (stringifyIndented inner) items)
      ++ newline ++ indent ++ "]"
  | Obj ((_ :: _) as props) =>
      "{" ++ newline ++ inner
      ++ String.concat ("," ++ newline ++ inner)%string
           (map (fun kv : string * value => let (k, x) := kv in
                           (JSON.quote k ++ ": " ++ stringifyIndented inner x)%string)
              props)
      ++ newline ++ indent ++ "}"
  | _ => stringify v
  end.

Definition stringifyPretty (v : value) : string := stringifyIndented EmptyString v.

(** A template literal or [console.log] given a value that may be
    [undefined] where a string is expected. *)
Definition orUndefined (s : option string) : string :=
  match s with
  | Some s => s
  | None => "undefined"
  end.

(** [v || fallback] *)
Definition or (v : option value) (fallback : value) : value :=
  match v with
  | Some x => if truthy v then x else fallback
  | None => fallback
  end.

(** A natural number as the engine holds it. *)
Definition ofN (n : N) : value :=
  Number (DecimalString.NilEmpty.string_of_uint (N.to_uint n)).

End Js.

(** ** Node: what a script does

    A script is the tree of its effects: lines written to the console,
    the read of the worker's source
    ([fs.readFileSync(path.join(__dirname, '..', 'src', 'index.js'), 'utf-8')]),
    requests made with [fetch], the clock, and for [railway-deploy.js]
    the assignment of [deploymentStatus] and the start of the status
    server.  It ends by returning, by throwing, or in [process.exit]. *)

Module Node.

Inductive Stream : Type := Stdout | Stderr.

(** One [formData.append]: a [Blob] with its type under a file name,
    or a string. *)
Inductive FormPart : Type :=
| FilePart (name content type filename : string)
| FieldPart (name value : string).

Inductive Body : Type :=
| NoBody
| FormBody (parts : list FormPart)
| TextBody (text : string).

(** The arguments of a [fetch]; [method] is [None] where the call
    leaves it out. *)
Record ApiRequest : Type := {
  url : string;
  method : option string;
  headers : list (string * string);
  body : Body
}.

(** Of a response the scripts read [ok] and [status] (here
    [httpStatus], [status] being the field of [deploymentStatus]), and
    what [await response.text()] or [await response.json()] settles
    to. *)
Record ApiResponse : Type := {
  ok : bool;
  httpStatus : N;
  text : Completion string;
  json : Completion Js.value
}.

(** [deploymentStatus] *)
Record Status : Type := {
  status : string;
  workerUrl : option string;
  error : option string;
  timestamp : string
}.

Inductive Script (A : Type) : Type :=
| Done (a : A)
| Throw (failure : Error)
| Exit (code : N)
| Log (stream : Stream) (line : string) (k : Script A)
| ReadWorkerScript (k : Completion string -> Script A)
| Fetch (request : ApiRequest) (k : Completion ApiResponse -> Script A)
| Now (k : string -> Script A)
| SetStatus (s : Status) (k : Script A)
| StartStatusServer (k : Script A).

Arguments Done {A} a.
Arguments Throw {A} failure.
Arguments Exit {A} code.
Arguments Log {A} stream line k.
Arguments ReadWorkerScript {A} k.
Arguments Fetch {A} request k.
Arguments Now {A} k.
Arguments SetStatus {A} s k.
Arguments StartStatusServer {A} k.

(** Sequencing: [p] and then [f] on what it returned. *)
Fixpoint bind {A B : Type} (p : Script A) (f : A -> Script B) : Script B :=
  match p with
  | Done a => f a
  | Throw failure => Throw failure
  | Exit code => Exit code
  | Log stream line k => Log stream line (bind k f)
  | ReadWorkerScript k => ReadWorkerScript (fun r => bind (k r) f)
  | Fetch request k => Fetch request (fun r => bind (k r) f)
  | Now k => Now (fun t => bind (k t) f)
  | SetStatus s k => SetStatus s (bind k f)
  | StartStatusServer k => StartStatusServer (bind k f)
  end.

(** [try { p } catch (error) { handler }]; [process.exit] is not
    caught. *)
Fixpoint try {A : Type} (p : Script A) (handler : Error -> Script A) : Script A :=
  match p with
  | Done a => Done a
  | Throw failure => handler failure
  | Exit code => Exit code
  | Log stream line k => Log stream line (try k handler)
  | ReadWorkerScript k => ReadWorkerScript (fun r => try (k r) handler)
  | Fetch request k => Fetch request (fun r => try (k r) handler)
  | Now k => Now (fun t => try (k t) handler)
  | SetStatus s k => SetStatus s (try k handler)
  | StartStatusServer k => StartStatusServer (try k handler)
  end.

(** A completion as a script: the value, or the throw. *)
Definition lift {A : Type} (c : Completion A) : Script A :=
  match c with
  | Returned a => Done a
  | Thrown failure => Throw failure
  end.

Definition log (line : string) : Script unit := Log Stdout line (Done tt).
Definition logError (line : string) : Script unit := Log Stderr line (Done tt).
Definition readWorkerScript : Script string := ReadWorkerScript lift.
Definition fetch (request : ApiRequest) : Script ApiResponse := Fetch request lift.
Definition now : Script string := Now Done.

(** [console.log(label, s)] for a label without format specifiers and
    a string, or [undefined], [s]. *)
Definition labelled (label : string) (s : option string) : string :=
  (label ++ " " ++ Js.orUndefined s)%string.

(** What the engine gives besides: [JSON.parse], the text
    [console.log] shows for a value that is not a string (that of
    [util.inspect], coloured on a terminal), and the text in
    [error.stack]. *)
Record Engine : Type := {
  jsonParse : string -> Completion Js.value;
  inspect : Js.value -> string;
  stack : Error -> string
}.

(** [console.log(label, v)] for a label without format specifiers: a
    string is shown as it is. *)
Definition shown (engine : Engine) (v : Js.value) : string :=
  match v with
  | Js.Str s => s
  | _ => inspect engine v
  end.

Definition labelledValue (engine : Engine) (label : string) (v : Js.value) : string :=
  (label ++ " " ++ shown engine v)%string.

(** [s.repeat(n)] *)
Fixpoint repeat (s : string) (n : nat) : string :=
  match n with
  | O => EmptyString
  | S n' => (s ++ repeat s n')%string
  end.

(** [process.env]: the variables the scripts read. *)
Record ProcessEnv : Type := {
  CLOUDFLARE_API_TOKEN : option string;
  CLOUDFLARE_ACCOUNT_ID : option string;
  WORKER_NAME : option string;
  ALLOWED_TOKENS : option string
}.

(** [x || fallback] on a variable of the environment. *)
Definition orElse (x : option string) (fallback : string) : string :=
  match x with
  | Some s => if JsString.truthy s then s else fallback
  | None => fallback
  end.

Definition truthy (x : option string) : bool :=
  match x with
  | Some s => JsString.truthy s
  | None => false
  end.

(** Running a script: the outside world answers the reads, the
    requests and the clock from a state of its own, and what the
    script did is recorded in order, each request with the way it was
    answered. *)
Inductive Event : Type :=
| Logged (stream : Stream) (line : string)
| ScriptRead
| Sent (request : ApiRequest) (answer : Completion ApiResponse)
| StatusSet (s : Status)
| ServerStarted.

Inductive Ending (A : Type) : Type :=
| Finished (a : A)
| Failed (failure : Error)
| Exited (code : N).

Arguments Finished {A} a.
Arguments Failed {A} failure.
Arguments Exited {A} code.

Record World (W : Type) : Type := {
  onRead : W -> Completion string * W;
  onFetch : ApiRequest -> W -> Completion ApiResponse * W;
  onNow : W -> string * W
}.

Arguments onRead {W} _ _.
Arguments onFetch {W} _ _ _.
Arguments onNow {W} _ _.

Fixpoint exec {W A : Type} (world : World W) (p : Script A) (w : W)
         (trace : list Event) : Ending A * list Event * W :=
  match p with
  | Done a => (Finished a, trace, w)
  | Throw failure => (Failed failure, trace, w)
  | Exit code => (Exited code, trace, w)
  | Log stream line k => exec world k w (trace ++ [Logged stream line])
  | ReadWorkerScript k =>
      let (r, w') := onRead world w in
      exec world (k r) w' (trace ++ [ScriptRead])
  | Fetch request k =>
      let (r, w') := onFetch world request w in
      exec world (k r) w' (trace ++ [Sent request r])
  | Now k =>
      let (t, w') := onNow world w in
      exec world (k t) w' trace
  | SetStatus s k => exec world k w (trace ++ [StatusSet s])
  | StartStatusServer k => exec world k w (trace ++ [ServerStarted])
  end.

(** The requests of a trace, the requests with how each was answered,
    and the statuses set. *)
Fixpoint requests (trace : list Event) : list ApiRequest :=
  match trace with
  | [] => []
  | Sent request _ :: rest => request :: requests rest
  | _ :: rest => requests rest
  end.

Fixpoint exchanges (trace : list Event)
  : list (ApiRequest * Completion ApiResponse) :=
  match trace with
  | [] => []
  | Sent request answer :: rest => (request, answer) :: exchanges rest
  | _ :: rest => exchanges rest
  end.

Fixpoint statuses (trace : list Event) : list Status :=
  match trace with
  | [] => []
  | StatusSet s :: rest => s :: statuses rest
  | _ :: rest => statuses rest
  end.

End Node.

Declare Scope script_scope.
Delimit Scope script_scope with script.

Notation "x <- p ;; q" := (Node.bind p (fun x => q))
  (at level 61, p at next level, right associativity) : script_scope.
Notation "p ;; q" := (Node.bind p (fun _ => q))
  (at level 61, right associativity) : script_scope.

(** ** What the two scripts share *)

Module Cloudflare.

Import Node.

Definition API_BASE : string := "https://api.cloudflare.com/client/v4".

Definition quotationMark : string := String JSON.dquote EmptyString.

(** The object [metadata] after the conditional [push]. *)
Definition metadata (allowedTokens : string) : Js.value :=
  Js.Obj
    [ ("main_module", Js.Str "index.js");
      ("compatibility_date", Js.Str "2024-01-01");
      ("bindings",
       Js.Arr
         (if JsString.truthy allowedTokens then
            [ Js.Obj [ ("type", Js.Str "plain_text");
                       ("name", Js.Str "ALLOWED_TOKENS");
                       ("text", Js.Str allowedTokens) ] ]
          else [])) ].

(** The [FormData] with its two parts. *)
Definition formData (scriptContent allowedTokens : string) : list FormPart :=
  [ FilePart "index.js" scriptContent "application/javascript+module" "index.js";
    FieldPart "metadata" (Js.stringify (metadata allowedTokens)) ].

Definition bearer (apiToken : option string) : string * string :=
  ("Authorization", ("Bearer " ++ Js.orUndefined apiToken)%string).

(** The four calls the scripts make, as they write them. *)
Definition upload (apiToken accountId : option string) (workerName : string)
           (form : list FormPart) : ApiRequest :=
  {| url := API_BASE ++ "/accounts/" ++ Js.orUndefined accountId
            ++ "/workers/scripts/" ++ workerName;
     method := Some "PUT";
     headers := [ bearer apiToken ];
     body := FormBody form |}.

Definition getSubdomain (apiToken accountId : option string) : ApiRequest :=
  {| url := API_BASE ++ "/accounts/" ++ Js.orUndefined accountId
            ++ "/workers/subdomain";
     method := None;
     headers := [ bearer apiToken ];
     body := NoBody |}.

Definition getScript (apiToken accountId : option string) (workerName : string)
  : ApiRequest :=
  {| url := API_BASE ++ "/accounts/" ++ Js.orUndefined accountId
            ++ "/workers/scripts/" ++ workerName;
     method := None;
     headers := [ bearer apiToken ];
     body := NoBody |}.

Definition enableSubdomain (apiToken accountId : option string)
           (workerName : string) : ApiRequest :=
  {| url := API_BASE ++ "/accounts/" ++ Js.orUndefined accountId
            ++ "/workers/scripts/" ++ workerName ++ "/subdomain";
     method := Some "POST";
     headers := [ bearer apiToken; ("Content-Type", "application/json") ];
     body := TextBody (Js.stringify (Js.Obj [ ("enabled", Js.Bool true) ])) |}.

(** [(await response.json()).result?.subdomain]: what the expression
    is worth, or what it throws. *)
Definition subdomainOf (response : ApiResponse) : Completion (option Js.value) :=
  match json response with
  | Returned parsed =>
      match Js.get parsed "result" with
      | Returned result => Returned (Js.getOptional result "subdomain")
      | Thrown failure => Thrown failure
      end
  | Thrown failure => Thrown failure
  end.

Definition resultSubdomain (response : ApiResponse) : Script (option Js.value) :=
  lift (subdomainOf response).

(** A value that may be [undefined], in a template literal. *)
Definition inTemplate (v : option Js.value) : Completion string :=
  match v with
  | Some x => Js.toString x
  | None => Returned "undefined"
  end.

End Cloudflare.

(** ** [scripts/railway-deploy.js] *)

Module Railway.

Import Node Cloudflare.

Definition deployWorker (env : ProcessEnv) : Script string :=
  let apiToken := CLOUDFLARE_API_TOKEN env in
  let accountId := CLOUDFLARE_ACCOUNT_ID env in
  let workerName := orElse (WORKER_NAME env) "telegram-api-proxy" in
  let allowedTokens := orElse (ALLOWED_TOKENS env) EmptyString in
  if negb (truthy apiToken) || negb (truthy accountId) then
    Throw {| message :=
      "Missing CLOUDFLARE_API_TOKEN or CLOUDFLARE_ACCOUNT_ID. "
      ++ "Set these in your Railway service variables." |}
  else
   (log ("Deploying worker " ++ quotationMark ++ workerName ++ quotationMark
         ++ " to Cloudflare...") ;;
    scriptContent <- readWorkerScript ;;
    response <- fetch (upload apiToken accountId workerName
                         (formData scriptContent allowedTokens)) ;;
    result <- lift (json response) ;;
    success <- lift (Js.get result "success") ;;
    (if negb (Js.truthy success) then
       errors <- lift (Js.get result "errors") ;;
       Throw {| message :=
         "Deployment failed: " ++ Js.orUndefined (option_map Js.stringify errors) |}
     else Done tt) ;;
    accountResponse <- fetch (getSubdomain apiToken accountId) ;;
    subdomain <- resultSubdomain accountResponse ;;
    (if negb (Js.truthy subdomain) then
       log "No workers.dev subdomain found, attempting to enable..." ;;
       workerResponse <- fetch (getScript apiToken accountId workerName) ;;
       workerResult <- lift (json workerResponse) ;;
       info <- lift (Js.get workerResult "result") ;;
       log (labelled "Worker info:" (option_map Js.stringifyPretty info))
     else Done tt) ;;
    enableSubdomainResponse <- fetch (enableSubdomain apiToken accountId workerName) ;;
    enableResult <- lift (json enableSubdomainResponse) ;;
    log (labelled "Enable subdomain result:" (Some (Js.stringifyPretty enableResult))) ;;
    subdomain <- (if negb (Js.truthy subdomain) then
                    retryResponse <- fetch (getSubdomain apiToken accountId) ;;
                    resultSubdomain retryResponse
                  else Done subdomain) ;;
    if Js.truthy subdomain then
      text <- lift (inTemplate subdomain) ;;
      Done ("https://" ++ workerName ++ "." ++ text ++ ".workers.dev")%string
    else
      log "Warning: Could not determine workers.dev subdomain" ;;
      log "Please check your Cloudflare dashboard for the worker URL" ;;
      Done ("https://dash.cloudflare.com/" ++ Js.orUndefined accountId
            ++ "/workers/services/view/" ++ workerName)%string)%script.

Definition main (env : ProcessEnv) : Script unit :=
  StartStatusServer
    (try
       (workerUrl <- deployWorker env ;;
        t <- now ;;
        SetStatus {| status := "success";
                     workerUrl := Some workerUrl;
                     error := None;
                     timestamp := t |}
          (log EmptyString ;;
           log (repeat "=" 60) ;;
           log (labelled "SUCCESS! Worker deployed to:" (Some workerUrl)) ;;
           log (repeat "=" 60) ;;
           log EmptyString))%script
       (fun failure =>
          (t <- now ;;
           SetStatus {| status := "error";
                        workerUrl := None;
                        error := Some (message failure);
                        timestamp := t |}
             (logError (labelled "Deployment failed:" (Some (message failure)))))%script)).

End Railway.

(** ** [scripts/railway-deploy.js], its second text *)

Module Railway2.

Import Node Cloudflare.

(** [context] is one of the four labels [deployWorker] passes, none of
    which holds a format specifier. *)
Definition safeJsonParse (engine : Engine) (response : ApiResponse)
           (context : string) : Script Js.value :=
  (text <- lift (text response) ;;
   try (lift (jsonParse engine text))
     (fun _ =>
        logError (labelled ("Failed to parse JSON for " ++ context ++ ":")
                    (Some (substring 0 500 text))) ;;
        Throw {| message := "Invalid JSON response from " ++ context ++ ": "
                            ++ substring 0 100 text |}))%script.

(** What [subdomain] is after a lookup that went through: [null]
    when the answer is not [ok], [result?.subdomain] of the parsed
    text otherwise; nothing when the text cannot be read or parsed or
    the parsed value is [null]. *)
Definition lookedUp (engine : Engine) (response : ApiResponse)
  : option (option Js.value) :=
  if ok response then
    match text response with
    | Returned body =>
        match jsonParse engine body with
        | Returned parsed =>
            match Js.get parsed "result" with
            | Returned result => Some (Js.getOptional result "subdomain")
            | Thrown _ => None
            end
        | Thrown _ => None
        end
    | Thrown _ => None
    end
  else Some (Some Js.Null).

Definition deployWorker (engine : Engine) (env : ProcessEnv) : Script string :=
  let apiToken := CLOUDFLARE_API_TOKEN env in
  let accountId := CLOUDFLARE_ACCOUNT_ID env in
  let workerName := orElse (WORKER_NAME env) "telegram-api-proxy" in
  let allowedTokens := orElse (ALLOWED_TOKENS env) EmptyString in
  if negb (truthy apiToken) || negb (truthy accountId) then
    Throw {| message :=
      "Missing CLOUDFLARE_API_TOKEN or CLOUDFLARE_ACCOUNT_ID. "
      ++ "Set these in your Railway service variables." |}
  else
   (log ("Deploying worker " ++ quotationMark ++ workerName ++ quotationMark
         ++ " to Cloudflare...") ;;
    log ("Account ID: " ++ substring 0 8 (Js.orUndefined accountId) ++ "...") ;;
    scriptContent <- readWorkerScript ;;
    log "Uploading worker script..." ;;
    response <- fetch (upload apiToken accountId workerName
                         (formData scriptContent allowedTokens)) ;;
    result <- safeJsonParse engine response "worker upload" ;;
    success <- lift (Js.get result "success") ;;
    (if negb (Js.truthy success) then
       errors <- lift (Js.get result "errors") ;;
       Throw {| message :=
         "Deployment failed: " ++ Js.orUndefined (option_map Js.stringify errors) |}
     else Done tt) ;;
    log "Worker script uploaded successfully" ;;
    log "Getting workers.dev subdomain..." ;;
    accountResponse <- fetch (getSubdomain apiToken accountId) ;;
    subdomain <- (if ok accountResponse then
                    accountResult <- safeJsonParse engine accountResponse "subdomain check" ;;
                    result <- lift (Js.get accountResult "result") ;;
                    let subdomain := Js.getOptional result "subdomain" in
                    log (labelledValue engine "Current subdomain:"
                           (Js.or subdomain (Js.Str "none"))) ;;
                    Done subdomain
                  else
                    log (labelledValue engine "Subdomain check returned:"
                           (Js.ofN (httpStatus accountResponse))) ;;
                    Done (Some Js.Null)) ;;
    log "Enabling workers.dev route..." ;;
    enableSubdomainResponse <- fetch (enableSubdomain apiToken accountId workerName) ;;
    (if ok enableSubdomainResponse then
       enableResult <- safeJsonParse engine enableSubdomainResponse "enable subdomain" ;;
       success <- lift (Js.get enableResult "success") ;;
       log (labelled "Subdomain enable result:"
              (Some (if Js.truthy success then "success" else "failed")))
     else
       log (labelledValue engine "Enable subdomain returned:"
              (Js.ofN (httpStatus enableSubdomainResponse)))) ;;
    subdomain <- (if negb (Js.truthy subdomain) then
                    log "Re-fetching subdomain..." ;;
                    retryResponse <- fetch (getSubdomain apiToken accountId) ;;
                    if ok retryResponse then
                      retryResult <- safeJsonParse engine retryResponse "subdomain retry" ;;
                      result <- lift (Js.get retryResult "result") ;;
                      let subdomain := Js.getOptional result "subdomain" in
                      log (labelledValue engine "Subdomain after retry:"
                             (Js.or subdomain (Js.Str "still none"))) ;;
                      Done subdomain
                    else Done subdomain
                  else Done subdomain) ;;
    if Js.truthy subdomain then
      text <- lift (inTemplate subdomain) ;;
      let workerUrl :=
        ("https://" ++ workerName ++ "." ++ text ++ ".workers.dev")%string in
      log (labelled "Worker URL:" (Some workerUrl)) ;;
      Done workerUrl
    else
      log "Warning: Could not determine workers.dev subdomain" ;;
      log "The worker was deployed but we could not determine the URL." ;;
      log "Please check your Cloudflare dashboard for the worker URL." ;;
      log EmptyString ;;
      log ("It should be: https://" ++ workerName ++ ".<your-subdomain>.workers.dev") ;;
      log EmptyString ;;
      log "To find your subdomain:" ;;
      log "1. Go to https://dash.cloudflare.com" ;;
      log ("2. Click " ++ quotationMark ++ "Workers & Pages" ++ quotationMark) ;;
      log "3. Your subdomain is shown at the top" ;;
      Done ("Check Cloudflare dashboard: https://dash.cloudflare.com/"
            ++ Js.orUndefined accountId
            ++ "/workers/services/view/" ++ workerName)%string)%script.

Definition main (engine : Engine) (env : ProcessEnv) : Script unit :=
  StartStatusServer
    (try
       (workerUrl <- deployWorker engine env ;;
        t <- now ;;
        SetStatus {| status := "success";
                     workerUrl := Some workerUrl;
                     error := None;
                     timestamp := t |}
          (log EmptyString ;;
           log (repeat "=" 60) ;;
           log (labelled "SUCCESS! Worker deployed to:" (Some workerUrl)) ;;
           log (repeat "=" 60) ;;
           log EmptyString))%script
       (fun failure =>
          (t <- now ;;
           SetStatus {| status := "error";
                        workerUrl := None;
                        error := Some (message failure);
                        timestamp := t |}
             (logError (labelled "Deployment failed:" (Some (message failure))) ;;
              logError (stack engine failure)))%script)).

End Railway2.

(** ** [scripts/deploy.js] *)

Module Deploy.

Import Node Cloudflare.

Definition main (env : ProcessEnv) : Script unit :=
  let apiToken := CLOUDFLARE_API_TOKEN env in
  let accountId := CLOUDFLARE_ACCOUNT_ID env in
  let workerName := orElse (WORKER_NAME env) "telegram-api-proxy" in
  let allowedTokens := orElse (ALLOWED_TOKENS env) EmptyString in
  if negb (truthy apiToken) || negb (truthy accountId) then
   (logError "Error: Missing required environment variables" ;;
    logError EmptyString ;;
    logError "Required:" ;;
    logError "  CLOUDFLARE_API_TOKEN  - API token with Workers Scripts permission" ;;
    logError "  CLOUDFLARE_ACCOUNT_ID - Your Cloudflare account ID" ;;
    logError EmptyString ;;
    logError "To get these:" ;;
    logError "  1. Go to https://dash.cloudflare.com/profile/api-tokens" ;;
    logError ("  2. Create a token with " ++ quotationMark ++ "Edit Cloudflare Workers"
              ++ quotationMark ++ " permission") ;;
    logError "  3. Find your Account ID at https://dash.cloudflare.com (right sidebar)" ;;
    Exit 1)%script
  else
   (log ("Deploying worker " ++ quotationMark ++ workerName ++ quotationMark
         ++ " to Cloudflare...") ;;
    scriptContent <- readWorkerScript ;;
    try
      (response <- fetch (upload apiToken accountId workerName
                            (formData scriptContent allowedTokens)) ;;
       result <- lift (json response) ;;
       success <- lift (Js.get result "success") ;;
       (if negb (Js.truthy success) then
          logError "Deployment failed:" ;;
          errors <- lift (Js.get result "errors") ;;
          logError (Js.orUndefined (option_map Js.stringifyPretty errors)) ;;
          Exit 1
        else Done tt) ;;
       log "Worker deployed successfully!" ;;
       subdomainResponse <- fetch (enableSubdomain apiToken accountId workerName) ;;
       subdomainResult <- lift (json subdomainResponse) ;;
       accountResponse <- fetch (getSubdomain apiToken accountId) ;;
       subdomain <- resultSubdomain accountResponse ;;
       if Js.truthy subdomain then
         text <- lift (inTemplate subdomain) ;;
         let workerUrl :=
           ("https://" ++ workerName ++ "." ++ text ++ ".workers.dev")%string in
         log EmptyString ;;
         log (repeat "=" 60) ;;
         log (labelled "Worker URL:" (Some workerUrl)) ;;
         log (repeat "=" 60) ;;
         log EmptyString ;;
         log "Update your bot to use this base URL:" ;;
         log ("  " ++ workerUrl ++ "/bot<YOUR_TOKEN>/<method>") ;;
         log EmptyString ;;
         log "Test it:" ;;
         log ("  curl " ++ workerUrl ++ "/")
       else
         log EmptyString ;;
         log "Worker deployed! Find your URL at:" ;;
         log ("https://dash.cloudflare.com/" ++ Js.orUndefined accountId
              ++ "/workers/services/view/" ++ workerName))
      (fun failure =>
         logError (labelled "Deployment error:" (Some (message failure))) ;;
         Exit 1))%script.

End Deploy.

(** ** Texts and sample runs for the deploy scripts *)

Module Wire.

(** The [metadata] part of the upload as it goes out, without and with
    the binding of [ALLOWED_TOKENS]; apostrophes stand for quotation
    marks as in [Spec.text]. *)
Definition metadataUnbound : string :=
  Spec.text "{'main_module':'index.js','compatibility_date':'2024-01-01','bindings':[]}".

Definition metadataBound (allowedTokens : string) : string :=
  Spec.text "{'main_module':'index.js','compatibility_date':'2024-01-01','bindings':[{'type':'plain_text','name':'ALLOWED_TOKENS','text':"
  ++ JSON.quote allowedTokens ++ "}]}".

End Wire.

Module DeploySample.

Definition env : Node.ProcessEnv :=
  {| Node.CLOUDFLARE_API_TOKEN := Some "cf-token";
     Node.CLOUDFLARE_ACCOUNT_ID := Some "0123abcd";
     Node.WORKER_NAME := None;
     Node.ALLOWED_TOKENS := Some "T1,T2" |}.

Definition noToken : Node.ProcessEnv :=
  {| Node.CLOUDFLARE_API_TOKEN := None;
     Node.CLOUDFLARE_ACCOUNT_ID := Some "0123abcd";
     Node.WORKER_NAME := Some "proxy";
     Node.ALLOWED_TOKENS := None |}.

(** A world that answers the requests from a list of replies, in
    order, and fails them when the list is used up. *)
Definition canned : Node.World (list (Completion Node.ApiResponse)) :=
  {| Node.onRead := fun w => (Returned "export default {}", w);
     Node.onFetch := fun _ w =>
       match w with
       | [] => (Thrown {| message := "fetch failed" |}, [])
       | reply :: rest => (reply, rest)
       end;
     Node.onNow := fun w => ("2024-01-01T00:00:00.000Z", w) |}.

(** A reply with status 200 whose body is the JSON text of a value. *)
Definition replyOf (v : Js.value) : Node.ApiResponse :=
  {| Node.ok := true;
     Node.httpStatus := 200;
     Node.text := Returned (Js.stringify v);
     Node.json := Returned v |}.

Definition answer (v : Js.value) : Completion Node.ApiResponse :=
  Returned (replyOf v).

Definition accepted : Js.value :=
  Js.Obj [ ("success", Js.Bool true);
           ("result", Js.Obj [ ("subdomain", Js.Str "acme") ]) ].

Definition withoutSubdomain : Js.value :=
  Js.Obj [ ("success", Js.Bool true); ("result", Js.Null) ].

Definition refused : Js.value :=
  Js.Obj [ ("success", Js.Bool false);
           ("errors", Js.Arr [ Js.Obj [ ("code", Js.Number "10000");
                                        ("message", Js.Str "Authentication error") ] ]) ].

Definition deployed : list (Completion Node.ApiResponse) :=
  [ answer accepted; answer accepted; answer accepted ].

Definition deployedLate : list (Completion Node.ApiResponse) :=
  [ answer accepted; answer withoutSubdomain; answer accepted; answer accepted;
    answer accepted ].

Definition rejected : list (Completion Node.ApiResponse) := [ answer refused ].

(** A reply that is not JSON: the page of a gateway, status 502. *)
Definition gatewayPage : string := "<html><body>502 Bad Gateway</body></html>".

Definition badGateway : Completion Node.ApiResponse :=
  Returned {| Node.ok := false;
              Node.httpStatus := 502;
              Node.text := Returned gatewayPage;
              Node.json := Thrown {| message := "Unexpected token < in JSON at position 0" |} |}.

(** An engine that parses the texts of the sample values and no
    other. *)
Definition engine : Node.Engine :=
  {| Node.jsonParse := fun text =>
       if String.eqb text (Js.stringify accepted) then Returned accepted
       else if String.eqb text (Js.stringify withoutSubdomain) then Returned withoutSubdomain
       else if String.eqb text (Js.stringify refused) then Returned refused
       else Thrown {| message := "Unexpected token < in JSON at position 0" |};
     Node.inspect := Js.stringify;
     Node.stack := fun failure => ("Error: " ++ message failure)%string |}.

Definition unreachable : list (Completion Node.ApiResponse) :=
  [ answer accepted; badGateway; badGateway; badGateway ].

Definition garbled : list (Completion Node.ApiResponse) :=
  [ Returned {| Node.ok := true;
                Node.httpStatus := 200;
                Node.text := Returned gatewayPage;
                Node.json := Thrown {| message := "Unexpected token < in JSON at position 0" |} |} ].

End DeploySample.

(** What [filterHeaders] keeps true of the list it builds: no name
    twice, every name one of the allowed ones as written there. *)
Definition filteredShape (h : Headers.t) : Prop :=
  NoDup (map fst h) /\ incl (map fst h) allowedHeaders.

(** * Properties *)

(** ** Header lists *)

Section HeaderLists.

Import Headers.

Lemma byteLowercaseChar_idem (c : ascii) :
  byteLowercaseChar (byteLowercaseChar c) = byteLowercaseChar c.
Proof. destruct c as [[] [] [] [] [] [] [] []]; reflexivity. Qed.

Lemma byteLowercase_idem (s : string) :
  byteLowercase (byteLowercase s) = byteLowercase s.
Proof.
  induction s as [|c s IH]; simpl; [reflexivity|].
  now rewrite byteLowercaseChar_idem, IH.
Qed.

Lemma sameName_iff (a b : string) :
  sameName a b = true <-> byteLowercase a = byteLowercase b.
Proof. unfold sameName. apply String.eqb_eq. Qed.

Lemma sameName_refl (a : string) : sameName a a = true.
Proof. apply sameName_iff. reflexivity. Qed.

Lemma sameName_lowercase_l (a b : string) :
  sameName (byteLowercase a) b = sameName a b.
Proof. unfold sameName. now rewrite byteLowercase_idem. Qed.

Lemma sameName_false_iff (a b : string) :
  sameName a b = false <-> byteLowercase a <> byteLowercase b.
Proof. unfold sameName. apply String.eqb_neq. Qed.

(** Decides goals about [sameName] by cases on every comparison, read
    as an equation between lowercased names. *)
Ltac same_name_cases :=
  repeat match goal with
         | |- context [sameName ?a ?b] => destruct (sameName a b) eqn:?
         end;
  repeat match goal with
         | H : sameName _ _ = true |- _ => apply sameName_iff in H
         | H : sameName _ _ = false |- _ => apply sameName_false_iff in H
         end;
  simpl; try reflexivity; try congruence.

(** Two spellings of one name select the same headers. *)
Lemma sameName_congr (a b c : string) :
  sameName a b = true -> sameName c a = sameName c b.
Proof. intros H. apply sameName_iff in H. same_name_cases. Qed.

Lemma values_nil (name : string) : values [] name = [].
Proof. reflexivity. Qed.

Lemma values_cons (e : string * string) (h : t) (name : string) :
  values (e :: h) name =
  if sameName (fst e) name then snd e :: values h name else values h name.
Proof.
  unfold values, named. simpl. now destruct (sameName (fst e) name).
Qed.

Lemma values_app (h1 h2 : t) (name : string) :
  values (h1 ++ h2) name = values h1 name ++ values h2 name.
Proof. unfold values. now rewrite filter_app, map_app. Qed.

Lemma values_congr (h : t) (a b : string) :
  sameName a b = true -> values h a = values h b.
Proof.
  intros H. induction h as [|e h IH]; [reflexivity|].
  rewrite !values_cons, IH. now rewrite (sameName_congr a b (fst e) H).
Qed.

Lemma contains_values (h : t) (name : string) :
  contains h name = match values h name with [] => false | _ => true end.
Proof.
  induction h as [|e h IH]; [reflexivity|].
  rewrite values_cons. unfold contains in *. simpl. unfold named at 1.
  destruct (sameName (fst e) name); simpl; [reflexivity|exact IH].
Qed.

Lemma values_remove (h : t) (k name : string) :
  values (remove h k) name = if sameName k name then [] else values h name.
Proof.
  induction h as [|e h IH]; simpl.
  - now destruct (sameName k name).
  - unfold named at 1. destruct (sameName (fst e) k) eqn:Ek; simpl;
      rewrite ?values_cons, IH; revert Ek; same_name_cases.
Qed.

(** After [set], the name has the one value given, normalised, and
    every other name keeps its values. *)
Lemma values_set (h : t) (k v name : string) :
  values (set h k v) name = if sameName k name then [normalize v] else values h name.
Proof.
  induction h as [|e h IH]; simpl.
  - rewrite values_cons. reflexivity.
  - unfold named at 1. destruct (sameName (fst e) k) eqn:Ek;
      rewrite !values_cons; simpl;
      [rewrite values_remove | rewrite IH]; revert Ek; same_name_cases.
Qed.

(** After [append], the name has one more value, the last. *)
Lemma values_append (h : t) (k v name : string) :
  values (append h k v) name =
  values h name ++ (if sameName k name then [normalize v] else []).
Proof.
  unfold append. rewrite values_app. f_equal.
  rewrite values_cons, values_nil. simpl.
  destruct (find (named k) h) as [e|] eqn:Ef; [|reflexivity].
  apply find_some in Ef. destruct Ef as [_ Ef]. unfold named in Ef.
  revert Ef. same_name_cases.
Qed.

Lemma values_create_from (init : list (string * string)) (h : t) (name : string) :
  values (fold_left (fun h kv => append h (fst kv) (snd kv)) init h) name =
  values h name ++ map normalize (values init name).
Proof.
  revert h. induction init as [|e init IH]; intros h; simpl.
  - now rewrite app_nil_r.
  - rewrite IH, values_append, values_cons, <- app_assoc.
    now destruct (sameName (fst e) name).
Qed.

(** A header list built from pairs has, under every name, the values
    the pairs give it, normalised. *)
Lemma values_create (init : list (string * string)) (name : string) :
  values (create init) name = map normalize (values init name).
Proof. unfold create. now rewrite values_create_from. Qed.

Lemma get_set (h : t) (k v name : string) :
  get (set h k v) name = if sameName k name then Some (normalize v) else get h name.
Proof.
  unfold get. rewrite values_set. now destruct (sameName k name).
Qed.

(** *** Iteration *)

Lemma insertSorted_perm (x : string) (l : list string) :
  Permutation (insertSorted x l) (x :: l).
Proof.
  induction l as [|y l IH]; simpl; [reflexivity|].
  destruct (String.leb x y); [reflexivity|].
  rewrite IH. apply perm_swap.
Qed.

Lemma sortNames_perm (l : list string) : Permutation (sortNames l) l.
Proof.
  induction l as [|x l IH]; simpl; [reflexivity|].
  rewrite insertSorted_perm. now apply perm_skip.
Qed.

Lemma sortedLowercaseNames_In (h : t) (name : string) :
  In name (sortedLowercaseNames h) <-> In name (lowercaseNames h).
Proof.
  unfold sortedLowercaseNames. split; intros H.
  - apply (Permutation_in _ (sortNames_perm _)) in H. now apply nodup_In in H.
  - apply (Permutation_in _ (Permutation_sym (sortNames_perm _))).
    now apply nodup_In.
Qed.

Lemma sortedLowercaseNames_NoDup (h : t) : NoDup (sortedLowercaseNames h).
Proof.
  unfold sortedLowercaseNames.
  apply (Permutation_NoDup (Permutation_sym (sortNames_perm _))).
  apply NoDup_nodup.
Qed.

Lemma lowercaseNames_lowercase (h : t) (name : string) :
  In name (lowercaseNames h) -> byteLowercase name = name.
Proof.
  unfold lowercaseNames. intros H. apply in_map_iff in H.
  destruct H as [e [<- _]]. apply byteLowercase_idem.
Qed.

Lemma contains_In (h : t) (name : string) :
  contains h name = true <-> In (byteLowercase name) (lowercaseNames h).
Proof.
  unfold contains, lowercaseNames. rewrite existsb_exists, in_map_iff.
  split; intros [e He]; exists e; unfold named in *;
    rewrite sameName_iff in *; tauto.
Qed.

Lemma values_keyed (k : string) (vs : list string) (name : string) :
  values (map (pair k) vs) name = if sameName k name then vs else [].
Proof.
  induction vs as [|v vs IH]; simpl.
  - now destruct (sameName k name).
  - rewrite values_cons, IH. simpl. now destruct (sameName k name).
Qed.

Lemma values_entriesOf (h : t) (k name : string) :
  values (entriesOf h k) name =
  if sameName k name then
    if String.eqb k "set-cookie" then values h k
    else match values h k with
         | [] => []
         | vs => [String.concat ", " vs]
         end
  else [].
Proof.
  unfold entriesOf, get. destruct (String.eqb k "set-cookie").
  - apply values_keyed.
  - destruct (values h k) as [|v vs].
    + now destruct (sameName k name).
    + rewrite values_cons, values_nil. reflexivity.
Qed.

Lemma values_flat_map (f : string -> list (string * string))
      (l : list string) (name : string) :
  values (flat_map f l) name = flat_map (fun x => values (f x) name) l.
Proof.
  induction l as [|x l IH]; simpl; [reflexivity|].
  now rewrite values_app, IH.
Qed.

Lemma flat_map_none {A B : Type} (g : A -> list B) (l : list A) :
  (forall y, In y l -> g y = []) -> flat_map g l = [].
Proof.
  induction l as [|y l IH]; intros H; simpl; [reflexivity|].
  rewrite (H y (or_introl eq_refl)), IH; [reflexivity|].
  intros z Hz. apply H. now right.
Qed.

Lemma flat_map_single {A B : Type} (g : A -> list B) (l : list A) (x : A) :
  NoDup l -> In x l -> (forall y, In y l -> y <> x -> g y = []) ->
  flat_map g l = g x.
Proof.
  induction l as [|y l IH]; intros Hnd Hin Hg; [contradiction|].
  inversion Hnd as [|? ? Hy Hl]; subst. simpl. destruct Hin as [->|Hin].
  - rewrite flat_map_none, app_nil_r; [reflexivity|].
    intros z Hz. apply Hg; [now right|]. intros ->. contradiction.
  - rewrite (Hg y (or_introl eq_refl)), IH; try assumption.
    + reflexivity.
    + intros z Hz. apply Hg. now right.
    + intros ->. contradiction.
Qed.

(** What iteration yields under a name: the values themselves for
    [set-cookie], the combined value for any other name present. *)
Lemma values_entries (h : t) (name : string) :
  values (entries h) name =
  if String.eqb (byteLowercase name) "set-cookie" then values h name
  else match values h name with
       | [] => []
       | vs => [String.concat ", " vs]
       end.
Proof.
  unfold entries. rewrite values_flat_map.
  assert (Hself : sameName (byteLowercase name) name = true)
    by (rewrite sameName_lowercase_l; apply sameName_refl).
  assert (Hother : forall y, In y (sortedLowercaseNames h) ->
                             y <> byteLowercase name ->
                             values (entriesOf h y) name = []).
  { intros y Hy Hne. rewrite values_entriesOf.
    apply sortedLowercaseNames_In, lowercaseNames_lowercase in Hy.
    destruct (sameName y name) eqn:E; [|reflexivity].
    apply sameName_iff in E. congruence. }
  destruct (contains h name) eqn:Hc.
  - rewrite (flat_map_single _ _ (byteLowercase name));
      [ | apply sortedLowercaseNames_NoDup
        | now apply sortedLowercaseNames_In, contains_In
        | exact Hother ].
    rewrite values_entriesOf, Hself, (values_congr h _ _ Hself). reflexivity.
  - rewrite flat_map_none.
    + rewrite contains_values in Hc. destruct (values h name); [|discriminate].
      now destruct (String.eqb _ _).
    + intros y Hy. apply Hother; [assumption|]. intros ->.
      apply sortedLowercaseNames_In, contains_In in Hy. congruence.
Qed.

(** Iterating over a header list loses nothing [get] can see. *)
Lemma get_entries (h : t) (name : string) :
  get (entries h) name = get h name.
Proof.
  unfold get. rewrite values_entries.
  destruct (String.eqb _ _); [reflexivity|].
  now destruct (values h name).
Qed.

End HeaderLists.

(** ** [filterHeaders] *)

Section FilterHeaders.

Import Headers.

(** The two lowercasings differ only on code units from 192 up, so
    they agree whenever the result is compared with ASCII text. *)
Lemma lowercase_char_agree (c d : ascii) :
  JsString.isAsciiChar d = true ->
  Ascii.eqb (JsString.toLowerCaseChar c) d = Ascii.eqb (byteLowercaseChar c) d.
Proof.
  intros Hd.
  destruct c as [[] [] [] [] [] [] [] []]; try reflexivity;
    destruct d as [d0 d1 d2 d3 d4 d5 d6 []]; try discriminate Hd;
    vm_compute; destruct d0, d1, d2, d3, d4, d5, d6; reflexivity.
Qed.

Lemma lowercase_agree (x a : string) :
  JsString.isAscii a = true ->
  String.eqb (JsString.toLowerCase x) a = String.eqb (byteLowercase x) a.
Proof.
  revert a. induction x as [|c x IH]; intros a Ha; [reflexivity|].
  destruct a as [|d a]; [reflexivity|]. simpl in *.
  apply andb_prop in Ha. destruct Ha as [Hd Ha].
  now rewrite (lowercase_char_agree c d Hd), (IH a Ha).
Qed.

(** "The lowercase name is in the allowed set" does not depend on
    which lowercasing is meant. *)
Lemma allowed_lowercase (x : string) :
  JsString.includes allowedHeaders (JsString.toLowerCase x) =
  JsString.includes allowedHeaders (byteLowercase x).
Proof.
  unfold JsString.includes, allowedHeaders. simpl.
  rewrite !lowercase_agree by reflexivity. reflexivity.
Qed.

Lemma allowed_sameName (k name : string) :
  sameName k name = true ->
  JsString.includes allowedHeaders (JsString.toLowerCase k) =
  JsString.includes allowedHeaders (JsString.toLowerCase name).
Proof.
  intros Hs. apply sameName_iff in Hs.
  now rewrite !allowed_lowercase, Hs.
Qed.

Lemma allowed_not_set_cookie (name : string) :
  JsString.includes allowedHeaders (JsString.toLowerCase name) = true ->
  String.eqb (byteLowercase name) "set-cookie" = false.
Proof.
  rewrite allowed_lowercase. unfold JsString.includes, allowedHeaders. simpl.
  intros H.
  repeat (apply orb_prop in H; destruct H as [H|H]);
    try discriminate H; apply String.eqb_eq in H; now rewrite H.
Qed.

(** The loop of [filterHeaders] over any sequence of pairs: an allowed
    name ends with the value of its last pair, normalised, any other
    name keeps what it had before the loop. *)
Lemma values_filter_loop (l : list (string * string)) (acc : t) (name : string) :
  values
    (fold_left
       (fun (filtered : t) (kv : string * string) =>
          let (key, value) := kv in
          if JsString.includes allowedHeaders (JsString.toLowerCase key)
          then set filtered key value
          else filtered)
       l acc) name =
  if JsString.includes allowedHeaders (JsString.toLowerCase name) then
    match values l name with
    | [] => values acc name
    | vs => [normalize (last vs EmptyString)]
    end
  else values acc name.
Proof.
  induction l as [|[k v] l IH] using rev_ind.
  - cbn [fold_left]. rewrite (values_nil name).
    now destruct (JsString.includes allowedHeaders (JsString.toLowerCase name)).
  - rewrite fold_left_app, values_app, values_cons, values_nil.
    cbn [fold_left fst snd].
    destruct (sameName k name) eqn:Es.
    + rewrite (allowed_sameName k name Es).
      destruct (JsString.includes allowedHeaders (JsString.toLowerCase name)) eqn:Ea.
      * rewrite values_set, Es.
        destruct (values l name) as [|x xs]; [reflexivity|].
        cbn [app].
        change (x :: xs ++ [v]) with ((x :: xs) ++ [v]).
        now rewrite last_last.
      * exact IH.
    + rewrite app_nil_r.
      destruct (JsString.includes allowedHeaders (JsString.toLowerCase k)).
      * rewrite values_set, Es. exact IH.
      * exact IH.
Qed.

(** [filterHeaders] seen through [get]: an allowed name reads as it
    does in the input but for the whitespace around the value, any
    other name reads as absent. *)
Lemma get_filterHeaders (h : t) (name : string) :
  get (filterHeaders h) name =
  if JsString.includes allowedHeaders (JsString.toLowerCase name)
  then option_map normalize (get h name)
  else None.
Proof.
  unfold get, filterHeaders.
  rewrite values_filter_loop.
  destruct (JsString.includes allowedHeaders (JsString.toLowerCase name)) eqn:Ea;
    [|reflexivity].
  rewrite values_entries, (allowed_not_set_cookie name Ea). simpl.
  now destruct (values h name).
Qed.

End FilterHeaders.

Local Open Scope string_scope.

(** ** JSON texts *)

Lemma text_forbiddenBody :
  Spec.forbiddenBody
  = String "{" (String JSON.dquote ("error"
      ++ String JSON.dquote (String ":" (String JSON.dquote
           ("Token not in allowlist" ++ String JSON.dquote "}"))))).
Proof. reflexivity. Qed.

Lemma append_assoc (a b c : string) : ((a ++ b) ++ c = a ++ (b ++ c))%string.
Proof. induction a as [|x a IH]; simpl; [reflexivity|now rewrite IH]. Qed.

Lemma length_append (a b : string) :
  String.length (a ++ b)%string = String.length a + String.length b.
Proof. induction a as [|x a IH]; simpl; [reflexivity|now rewrite IH]. Qed.

Lemma concat_cons2 (sep x y : string) (l : list string) :
  String.concat sep (x :: y :: l) = (x ++ sep ++ String.concat sep (y :: l))%string.
Proof. reflexivity. Qed.

Section JsonTexts.

Import JSON.

Lemma readChars_escapeChar (c : ascii) (tail : string) :
  readChars (escapeChar c ++ tail)%string = consChar c (readChars tail).
Proof. destruct c as [[] [] [] [] [] [] [] []]; reflexivity. Qed.

Lemma readChars_escape (s rest : string) :
  readChars (escape s ++ String dquote rest)%string = Some (s, rest).
Proof.
  induction s as [|c s IH]; [reflexivity|].
  cbn [escape]. rewrite append_assoc, readChars_escapeChar, IH.
  reflexivity.
Qed.

(** A quoted string reads back as the string it quotes. *)
Lemma readString_quote (s rest : string) :
  readString (quote s ++ rest)%string = Some (s, rest).
Proof.
  unfold quote. cbn [append readString]. rewrite Ascii.eqb_refl.
  rewrite append_assoc. apply readChars_escape.
Qed.

Lemma readMembers_members (o : list (string * string)) :
  forall (m : string * string) (fuel : nat) (rest : string),
    List.length o < fuel ->
    readMembers fuel (String.concat "," (map member (m :: o)) ++ String "}" rest)%string =
    Some (m :: o, rest).
Proof.
  induction o as [|m' o IH]; intros [k v] fuel rest Hfuel;
    (destruct fuel as [|fuel]; [inversion Hfuel|]).
  - cbn [map String.concat readMembers]. unfold member. cbn [fst snd].
    rewrite !append_assoc, readString_quote. cbn [append expect].
    rewrite Ascii.eqb_refl, readString_quote. reflexivity.
  - change (map member ((k, v) :: m' :: o))
      with (member (k, v) :: member m' :: map member o).
    rewrite concat_cons2.
    change (member m' :: map member o) with (map member (m' :: o)).
    cbn [readMembers]. unfold member at 1. cbn [fst snd].
    rewrite !append_assoc, readString_quote. cbn [append expect].
    rewrite Ascii.eqb_refl, readString_quote.
    change (Ascii.eqb "," "}") with false. cbn iota.
    rewrite Ascii.eqb_refl.
    rewrite IH by (simpl in Hfuel; lia). reflexivity.
Qed.

Lemma length_members (o : list (string * string)) :
  List.length o <= String.length (String.concat "," (map member o)).
Proof.
  induction o as [|m o IH]; [apply Nat.le_refl|].
  destruct o as [|m' o].
  - cbn. lia.
  - change (map member (m :: m' :: o))
      with (member m :: member m' :: map member o).
    rewrite concat_cons2, !length_append.
    change (member m' :: map member o) with (map member (m' :: o)).
    cbn [List.length String.length] in *. lia.
Qed.

(** A flat object of strings reads back from its text. *)
Lemma parse_stringify (o : list (string * string)) :
  parse (stringify o) = Some o.
Proof.
  destruct o as [|m o]; [reflexivity|].
  unfold stringify. cbn [append parse]. rewrite Ascii.eqb_refl.
  assert (Hfuel : List.length o <
                  String.length (String.concat "," (map member (m :: o)) ++ "}")%string).
  { rewrite length_append. pose proof (length_members (m :: o)) as H.
    cbn [List.length String.length] in *. lia. }
  rewrite (readMembers_members o m _ EmptyString Hfuel).
  destruct (String.concat "," (map member (m :: o)) ++ "}")%string
    as [|d [|d' r]] eqn:E; try reflexivity.
  exfalso. destruct o as [|m' o].
  - destruct m as [k v]. cbn in E. destruct (escape k); cbn in E; discriminate E.
  - change (map member (m :: m' :: o))
      with (member m :: member m' :: map member o) in E.
    rewrite concat_cons2 in E. destruct m as [k v]. cbn in E.
    destruct (escape k); cbn in E; discriminate E.
Qed.

End JsonTexts.

(** ** JavaScript strings *)

Section JsStrings.

Import JsString.

Lemma split_not_empty (sep : ascii) (s : string) : split sep s <> [].
Proof.
  destruct s as [|c r]; cbn [split]; [discriminate|].
  destruct (Ascii.eqb c sep); [discriminate|].
  destruct (split sep r); discriminate.
Qed.

(** Joining the pieces with the separator gives the string back. *)
Lemma concat_split (sep : ascii) (s : string) :
  String.concat (String sep EmptyString) (split sep s) = s.
Proof.
  induction s as [|c r IH]; [reflexivity|]. cbn [split].
  destruct (Ascii.eqb_spec c sep) as [->|Hc].
  - pose proof (split_not_empty sep r) as Hne.
    destruct (split sep r) as [|p ps]; [contradiction|].
    rewrite concat_cons2, IH. reflexivity.
  - destruct (split sep r) as [|p ps] eqn:E.
    + now destruct (split_not_empty sep r).
    + destruct ps as [|q qs].
      * cbn in *. now rewrite IH.
      * rewrite concat_cons2, <- IH, concat_cons2. reflexivity.
Qed.

(** No piece holds the separator. *)
Lemma split_pieces (sep : ascii) (s piece : string) :
  In piece (split sep s) -> includesChar piece sep = false.
Proof.
  revert piece. induction s as [|c r IH]; intros piece H; cbn [split] in H.
  - destruct H as [<-|[]]. reflexivity.
  - destruct (Ascii.eqb c sep) eqn:Ec.
    + destruct H as [<-|H]; [reflexivity|now apply IH].
    + destruct (split sep r) as [|p ps].
      * destruct H as [<-|[]]. cbn. now rewrite Ec.
      * destruct H as [<-|H].
        -- cbn. rewrite Ec. apply IH. now left.
        -- apply IH. now right.
Qed.

Lemma split_one (sep : ascii) (p : string) :
  includesChar p sep = false -> split sep p = [p].
Proof.
  induction p as [|c p IH]; intros H; [reflexivity|].
  cbn in H. apply orb_false_elim in H. destruct H as [Hc Hp].
  cbn [split]. now rewrite Hc, (IH Hp).
Qed.

Lemma split_more (sep : ascii) (p tail : string) :
  includesChar p sep = false ->
  split sep (p ++ String sep tail) = p :: split sep tail.
Proof.
  induction p as [|c p IH]; intros H.
  - cbn [append split]. now rewrite Ascii.eqb_refl.
  - cbn in H. apply orb_false_elim in H. destruct H as [Hc Hp].
    cbn [append split]. now rewrite Hc, (IH Hp).
Qed.

(** [split] finds every way of writing a string as pieces without the
    separator, joined by it: there is one. *)
Lemma split_concat (sep : ascii) (pieces : list string) :
  pieces <> [] ->
  (forall p, In p pieces -> includesChar p sep = false) ->
  split sep (String.concat (String sep EmptyString) pieces) = pieces.
Proof.
  induction pieces as [|p pieces IH]; intros Hne Hp; [contradiction|].
  destruct pieces as [|q pieces].
  - apply split_one, Hp. now left.
  - rewrite concat_cons2. cbn [append].
    rewrite split_more by (apply Hp; now left).
    rewrite IH; [reflexivity|discriminate|].
    intros x Hx. apply Hp. now right.
Qed.

Lemma trimStart_spec (s : string) :
  exists l, s = l ++ trimStart s
            /\ allWhiteSpace l = true
            /\ startsWithWhiteSpace (trimStart s) = false.
Proof.
  induction s as [|c r [l (E & Hl & Hs)]].
  - exists EmptyString. repeat split.
  - cbn [trimStart]. destruct (isWhiteSpace c) eqn:Hc.
    + exists (String c l). cbn. rewrite Hc, Hl, <- E. repeat split. exact Hs.
    + exists EmptyString. repeat split. exact Hc.
Qed.

Lemma trimEnd_spec (s : string) :
  exists r, s = trimEnd s ++ r
            /\ allWhiteSpace r = true
            /\ endsWithWhiteSpace (trimEnd s) = false.
Proof.
  induction s as [|c s [r (E & Hr & He)]].
  - exists EmptyString. repeat split.
  - cbn [trimEnd]. destruct (trimEnd s) as [|d t] eqn:Et.
    + destruct (isWhiteSpace c) eqn:Hc.
      * cbn in E. subst r. exists (String c s). cbn. rewrite Hc, Hr.
        repeat split.
      * cbn in E. subst r. exists s. cbn. rewrite Hc. repeat split. exact Hr.
    + exists r. cbn [append] in *. rewrite <- E. repeat split; assumption.
Qed.

Lemma trimEnd_start (s : string) :
  startsWithWhiteSpace s = false -> startsWithWhiteSpace (trimEnd s) = false.
Proof.
  destruct s as [|c r]; [reflexivity|]. cbn. intros Hc.
  destruct (trimEnd r); [now rewrite Hc|exact Hc].
Qed.

(** [trim] removes white space at both ends, all of it and nothing
    else. *)
Lemma trim_spec (s : string) :
  exists l r, s = l ++ trim s ++ r
              /\ allWhiteSpace l = true
              /\ allWhiteSpace r = true
              /\ startsWithWhiteSpace (trim s) = false
              /\ endsWithWhiteSpace (trim s) = false.
Proof.
  destruct (trimStart_spec s) as [l (El & Hl & Hs)].
  destruct (trimEnd_spec (trimStart s)) as [r (Er & Hr & He)].
  exists l, r. unfold trim. rewrite <- Er, <- El.
  repeat split; try assumption. now apply trimEnd_start.
Qed.

End JsStrings.

(** ** The CORS header set *)

Section Cors.

Import Headers.

Lemma sameName_spelling (a b name : string) :
  byteLowercase a = byteLowercase b -> sameName a name = sameName b name.
Proof. unfold sameName. now intros ->. Qed.

Lemma isCorsName_cases (name : string) :
  Spec.isCorsName name =
  sameName "Access-Control-Allow-Origin" name
  || sameName "Access-Control-Allow-Methods" name
  || sameName "Access-Control-Allow-Headers" name
  || sameName "Access-Control-Max-Age" name.
Proof.
  unfold Spec.isCorsName, Spec.cors. cbn [existsb fst].
  rewrite (sameName_spelling "access-control-allow-origin"
             "Access-Control-Allow-Origin") by (vm_compute; reflexivity).
  rewrite (sameName_spelling "access-control-allow-methods"
             "Access-Control-Allow-Methods") by (vm_compute; reflexivity).
  rewrite (sameName_spelling "access-control-allow-headers"
             "Access-Control-Allow-Headers") by (vm_compute; reflexivity).
  rewrite (sameName_spelling "access-control-max-age"
             "Access-Control-Max-Age") by (vm_compute; reflexivity).
  rewrite orb_false_r, !orb_assoc. reflexivity.
Qed.

Lemma isCorsName_false (name : string) :
  Spec.isCorsName name = false ->
  sameName "Access-Control-Allow-Origin" name = false /\
  sameName "Access-Control-Allow-Methods" name = false /\
  sameName "Access-Control-Allow-Headers" name = false /\
  sameName "Access-Control-Max-Age" name = false.
Proof.
  rewrite isCorsName_cases. intros H.
  do 3 (apply orb_false_elim in H; destruct H as [H ?]).
  repeat split; assumption.
Qed.

Lemma cors_name (name value : string) :
  In (name, value) Spec.cors -> Spec.isCorsName name = true.
Proof.
  intros H. unfold Spec.isCorsName. apply existsb_exists.
  exists (name, value). split; [exact H|apply sameName_refl].
Qed.

(** The object [corsHeaders()] holds the four headers and nothing else. *)
Lemma hasCors_corsHeaders : Spec.hasCors (create corsHeaders).
Proof.
  intros name value H. unfold Spec.cors in H. cbn [In] in H.
  repeat (destruct H as [H|H]; [injection H as <- <-; vm_compute; reflexivity|]).
  contradiction.
Qed.

Lemma hasCors_jsonCorsHeaders : Spec.hasCors (create jsonCorsHeaders).
Proof.
  intros name value H. unfold Spec.cors in H. cbn [In] in H.
  repeat (destruct H as [H|H]; [injection H as <- <-; vm_compute; reflexivity|]).
  contradiction.
Qed.

Lemma create_corsHeaders : create corsHeaders = corsHeaders.
Proof. reflexivity. Qed.

Lemma get_corsHeaders_other (name : string) :
  Spec.isCorsName name = false -> get (create corsHeaders) name = None.
Proof.
  intros H. apply isCorsName_false in H. destruct H as (H1 & H2 & H3 & H4).
  rewrite create_corsHeaders. unfold get, corsHeaders.
  rewrite !values_cons. cbn [fst snd]. now rewrite H1, H2, H3, H4.
Qed.

(** Setting the four headers on any header list: they read as set,
    every other name reads as before. *)
Lemma get_set_cors (h : t) (name : string) :
  get (fold_left (fun h kv => set h (fst kv) (snd kv)) corsHeaders h) name =
  if Spec.isCorsName name
  then get (create corsHeaders) name
  else get h name.
Proof.
  cbn [fold_left corsHeaders fst snd]. rewrite !get_set.
  rewrite create_corsHeaders, isCorsName_cases. unfold get, corsHeaders.
  rewrite !values_cons. cbn [fst snd]. rewrite values_nil.
  change (normalize "86400") with "86400".
  change (normalize "Content-Type, Authorization") with "Content-Type, Authorization".
  change (normalize "GET, POST, PUT, DELETE, OPTIONS") with "GET, POST, PUT, DELETE, OPTIONS".
  change (normalize "*") with "*".
  destruct (sameName "Access-Control-Allow-Origin" name) eqn:E1,
           (sameName "Access-Control-Allow-Methods" name) eqn:E2,
           (sameName "Access-Control-Allow-Headers" name) eqn:E3,
           (sameName "Access-Control-Max-Age" name) eqn:E4;
    try reflexivity;
    repeat match goal with
           | H : sameName _ _ = true |- _ => apply sameName_iff in H
           end;
    exfalso;
    repeat match goal with
           | H : _ = byteLowercase name |- _ => rewrite <- H in *; clear H
           end;
    vm_compute in *; discriminate.
Qed.

Lemma get_set_cors_unfolded (h : t) (name : string) :
  get (set (set (set (set h
         "Access-Control-Allow-Origin" "*")
         "Access-Control-Allow-Methods" "GET, POST, PUT, DELETE, OPTIONS")
         "Access-Control-Allow-Headers" "Content-Type, Authorization")
         "Access-Control-Max-Age" "86400") name =
  if Spec.isCorsName name
  then get (create corsHeaders) name
  else get h name.
Proof. exact (get_set_cors h name). Qed.

End Cors.

(** ** The handler *)

Section Handler.

Variable request : Request.t.
Variable env : Env.

Let method := Request.method request.
Let path := URL.pathname (Request.url request).

(** A request that reaches the upstream does so through the [try]
    block, with the request built there. *)
Lemma handleRequest_dispatch (out : Request.t) (k : Settled -> Async Response.t) :
  handleRequest request env = AwaitFetch out k ->
  forward request = AwaitFetch out k.
Proof.
  unfold handleRequest.
  destruct (String.eqb (Request.method request) "OPTIONS"); [discriminate|].
  destruct (String.eqb (URL.pathname (Request.url request)) "/"
            || String.eqb (URL.pathname (Request.url request)) "/health");
    [discriminate|].
  destruct (negb (JsString.startsWith (URL.pathname (Request.url request)) "/bot"));
    [discriminate|].
  destruct (ALLOWED_TOKENS env) as [allowed|]; [|trivial].
  destruct (JsString.truthy allowed); [|trivial].
  destruct (TokenPattern.matchBotToken (URL.pathname (Request.url request)));
    [|trivial].
  destruct (negb (JsString.includes _ _)); [discriminate|trivial].
Qed.

(** The request sent: the method of the inbound request, the Telegram
    origin before its path and query, and its body unless the method
    is GET or HEAD. *)
Lemma dispatched_request (out : Request.t) (k : Settled -> Async Response.t) :
  handleRequest request env = AwaitFetch out k ->
  Request.method out = method
  /\ URL.href (Request.url out)
     = "https://api.telegram.org" ++ path ++ URL.search (Request.url request)
  /\ Request.body out
     = if String.eqb method "GET" || String.eqb method "HEAD"
       then None
       else Request.body request.
Proof.
  intros H. apply handleRequest_dispatch in H.
  unfold forward in H. injection H as <- _. unfold method, path.
  repeat split. cbn [Request.body].
  now destruct (String.eqb (Request.method request) "GET"),
               (String.eqb (Request.method request) "HEAD").
Qed.

Lemma forward_dispatches : Spec.dispatches (forward request).
Proof.
  unfold Spec.dispatches, forward. eexists. eexists. split; [reflexivity|].
  intros [response|error]; eexists; reflexivity.
Qed.

(** The handler as the code's chain of conditions, one equation per
    branch. *)
Lemma handleRequest_options :
  method = "OPTIONS" ->
  handleRequest request env = Return (Spec.reply 200 corsHeaders None).
Proof.
  unfold method, handleRequest. intros ->. reflexivity.
Qed.

Lemma handleRequest_health :
  method <> "OPTIONS" -> path = "/" \/ path = "/health" ->
  handleRequest request env =
  Return (Spec.reply 200 jsonCorsHeaders (Some Spec.healthBody)).
Proof.
  unfold method, path, handleRequest. intros Hm Hp.
  apply String.eqb_neq in Hm. rewrite Hm.
  assert (E : String.eqb (URL.pathname (Request.url request)) "/"
              || String.eqb (URL.pathname (Request.url request)) "/health" = true).
  { destruct Hp as [-> | ->]; reflexivity. }
  rewrite E. reflexivity.
Qed.

Lemma prefix_bot_not_health (p : string) :
  String.prefix "/bot" p = true ->
  String.eqb p "/" || String.eqb p "/health" = false.
Proof.
  intros H.
  destruct (String.eqb_spec p "/") as [->|_]; [discriminate H|].
  destruct (String.eqb_spec p "/health") as [->|_]; [discriminate H|].
  reflexivity.
Qed.

Lemma handleRequest_invalid :
  method <> "OPTIONS" -> path <> "/" -> path <> "/health" ->
  String.prefix "/bot" path = false ->
  handleRequest request env =
  Return (Spec.reply 400 jsonCorsHeaders (Some Spec.pathInvalidBody)).
Proof.
  unfold method, path, handleRequest, JsString.startsWith. intros Hm H1 H2 Hp.
  apply String.eqb_neq in Hm, H1, H2. rewrite Hm, H1, H2, Hp. reflexivity.
Qed.

Lemma handleRequest_forbidden (allowed token : string) :
  method <> "OPTIONS" -> String.prefix "/bot" path = true ->
  ALLOWED_TOKENS env = Some allowed -> allowed <> EmptyString ->
  TokenPattern.matchBotToken path = Some token ->
  existsb (String.eqb token) (Spec.allowedSet allowed) = false ->
  handleRequest request env =
  Return (Spec.reply 403 jsonCorsHeaders (Some Spec.forbiddenBody)).
Proof.
  unfold method, path, handleRequest, JsString.startsWith.
  intros Hm Hp Ha Hne Ht Hin.
  apply String.eqb_neq in Hm.
  rewrite Hm, (prefix_bot_not_health _ Hp), Hp, Ha, Ht. cbn [negb].
  destruct allowed; [contradiction|]. cbn [JsString.truthy].
  unfold JsString.includes. unfold Spec.allowedSet in Hin. rewrite Hin.
  reflexivity.
Qed.

Lemma handleRequest_forward :
  method <> "OPTIONS" -> String.prefix "/bot" path = true ->
  Spec.isForbidden request env = false ->
  handleRequest request env = forward request.
Proof.
  unfold method, path, handleRequest, JsString.startsWith, Spec.isForbidden,
    Spec.path, Spec.allowedSet, JsString.includes.
  intros Hm Hp Hf.
  apply String.eqb_neq in Hm.
  rewrite Hm, (prefix_bot_not_health _ Hp), Hp. cbn [negb].
  destruct (ALLOWED_TOKENS env) as [allowed|]; [|reflexivity].
  destruct (TokenPattern.matchBotToken (URL.pathname (Request.url request)));
    [|now destruct (JsString.truthy allowed)].
  destruct (JsString.truthy allowed); [|reflexivity].
  cbn [andb] in Hf. now rewrite Hf.
Qed.

(** Every call ends in one of four fixed answers or in the [try]
    block. *)
Lemma handleRequest_shape :
  handleRequest request env = Return (Spec.reply 200 corsHeaders None)
  \/ handleRequest request env
     = Return (Spec.reply 200 jsonCorsHeaders (Some Spec.healthBody))
  \/ handleRequest request env
     = Return (Spec.reply 400 jsonCorsHeaders (Some Spec.pathInvalidBody))
  \/ handleRequest request env
     = Return (Spec.reply 403 jsonCorsHeaders (Some Spec.forbiddenBody))
  \/ handleRequest request env = forward request.
Proof.
  destruct (String.eqb_spec method "OPTIONS") as [Hm|Hm];
    [left; now apply handleRequest_options|right].
  destruct (String.eqb_spec path "/") as [H1|H1];
    [left; apply handleRequest_health; tauto|].
  destruct (String.eqb_spec path "/health") as [H2|H2];
    [left; apply handleRequest_health; tauto|right].
  destruct (String.prefix "/bot" path) eqn:Hp;
    [right|left; now apply handleRequest_invalid].
  destruct (Spec.isForbidden request env) eqn:Hf;
    [left|right; now apply handleRequest_forward].
  unfold Spec.isForbidden, Spec.path in Hf. fold path in Hf.
  destruct (ALLOWED_TOKENS env) as [allowed|] eqn:Ha; [|discriminate Hf].
  destruct (TokenPattern.matchBotToken path) as [token|] eqn:Ht; [|discriminate Hf].
  apply andb_prop in Hf. destruct Hf as [Htr Hin]. apply negb_true_iff in Hin.
  apply (handleRequest_forbidden allowed token); try assumption.
  now destruct allowed.
Qed.

End Handler.

(** ** The token in the path and the configured entries *)

Lemma segment_token (token rest : string) :
  JsString.includesChar token "/" = false ->
  rest = EmptyString \/ (exists r, rest = String "/" r) ->
  TokenPattern.segment (token ++ rest) = token.
Proof.
  intros Hns Hrest. induction token as [|c token IH].
  - destruct Hrest as [->|[r ->]]; reflexivity.
  - cbn in Hns. apply orb_false_elim in Hns. destruct Hns as [Hc Hns].
    cbn [append TokenPattern.segment]. unfold TokenPattern.slash.
    now rewrite Hc, (IH Hns).
Qed.

(** The pattern captures what stands between [/bot] and the next
    slash. *)
Lemma matchBotToken_token (token rest : string) :
  token <> EmptyString ->
  JsString.includesChar token "/" = false ->
  rest = EmptyString \/ (exists r, rest = String "/" r) ->
  TokenPattern.matchBotToken ("/bot" ++ token ++ rest) = Some token.
Proof.
  intros Hne Hns Hrest. unfold TokenPattern.matchBotToken.
  cbn [append TokenPattern.stripPrefix]. rewrite !Ascii.eqb_refl.
  rewrite (segment_token token rest Hns Hrest).
  destruct token; [contradiction|reflexivity].
Qed.

(** Without a token the pattern does not match. *)
Lemma matchBotToken_empty (p : string) :
  p = "/bot" \/ (exists rest, p = "/bot/" ++ rest) ->
  TokenPattern.matchBotToken p = None.
Proof. intros [->|[rest ->]]; reflexivity. Qed.

Lemma allowedSet_rejects (token allowed : string) :
  existsb (String.eqb token) (Spec.allowedSet allowed) = false <->
  (forall entry, In entry (JsString.split "," allowed) ->
                 token <> JsString.trim entry).
Proof.
  unfold Spec.allowedSet. split.
  - intros H entry Hin ->.
    assert (E : existsb (String.eqb (JsString.trim entry))
                  (map JsString.trim (JsString.split "," allowed)) = true).
    { apply existsb_exists. exists (JsString.trim entry). split.
      - now apply in_map.
      - apply String.eqb_refl. }
    congruence.
  - intros H. destruct (existsb _ _) eqn:E; [|reflexivity].
    apply existsb_exists in E. destruct E as [x [Hx Ex]].
    apply in_map_iff in Hx. destruct Hx as [entry [<- Hin]].
    apply String.eqb_eq in Ex. now destruct (H entry Hin).
Qed.

Lemma answers_not_dispatch (request : Request.t) (status : N) (body : option string) :
  ~ Spec.answers (forward request) status body.
Proof. intros [r [H _]]. discriminate H. Qed.

(** * The claims *)

(** C1.  The checks are made in the order preflight, health, prefix,
    allowlist, and the first that matches decides the outcome; when
    none matches the request goes upstream.  In particular a path
    that neither is [/] or [/health] nor starts with [/bot] is
    answered with 400 under every configuration, the allowlist not
    being looked at, and an OPTIONS request takes the preflight
    outcome on every path. *)
Theorem first_matching_check_decides (request : Request.t) (env : Env) :
  Spec.takes (handleRequest request env)
    (Spec.firstMatch Spec.checks request env)
  /\ (Request.method request <> "OPTIONS" ->
      URL.pathname (Request.url request) <> "/" ->
      URL.pathname (Request.url request) <> "/health" ->
      JsString.startsWith (URL.pathname (Request.url request)) "/bot" = false ->
      Spec.takes (handleRequest request env) Spec.PathInvalid)
  /\ (Request.method request = "OPTIONS" ->
      Spec.takes (handleRequest request env) Spec.PreflightEmpty).
Proof.
  assert (Hopt : Request.method request = "OPTIONS" ->
                 Spec.takes (handleRequest request env) Spec.PreflightEmpty).
  { intros Hm. rewrite (handleRequest_options request env Hm).
    eexists. repeat split. }
  assert (Hinv : Request.method request <> "OPTIONS" ->
                 URL.pathname (Request.url request) <> "/" ->
                 URL.pathname (Request.url request) <> "/health" ->
                 JsString.startsWith (URL.pathname (Request.url request)) "/bot" = false ->
                 Spec.takes (handleRequest request env) Spec.PathInvalid).
  { intros Hm H1 H2 Hp. rewrite (handleRequest_invalid request env Hm H1 H2 Hp).
    eexists. repeat split. }
  split; [|split; assumption].
  cbn [Spec.firstMatch Spec.checks].
  unfold Spec.isPreflight, Spec.isHealth, Spec.lacksPrefix, Spec.path.
  destruct (String.eqb_spec (Request.method request) "OPTIONS") as [Hm|Hm];
    [now apply Hopt|].
  destruct (String.eqb_spec (URL.pathname (Request.url request)) "/") as [H1|H1].
  { rewrite (handleRequest_health request env Hm (or_introl H1)).
    eexists. repeat split. }
  destruct (String.eqb_spec (URL.pathname (Request.url request)) "/health") as [H2|H2].
  { rewrite (handleRequest_health request env Hm (or_intror H2)).
    eexists. repeat split. }
  cbn [orb].
  destruct (String.prefix "/bot" (URL.pathname (Request.url request))) eqn:Hp;
    cbn [negb]; [|now apply Hinv].
  destruct (Spec.isForbidden request env) eqn:Hf.
  - unfold Spec.isForbidden, Spec.path in Hf.
    destruct (ALLOWED_TOKENS env) as [allowed|] eqn:Ha; [|discriminate Hf].
    destruct (TokenPattern.matchBotToken _) as [token|] eqn:Ht; [|discriminate Hf].
    apply andb_prop in Hf. destruct Hf as [Htr Hin].
    apply negb_true_iff in Hin.
    rewrite (handleRequest_forbidden request env allowed token Hm Hp Ha);
      [eexists; repeat split | now destruct allowed | exact Ht | exact Hin].
  - rewrite (handleRequest_forward request env Hm Hp Hf).
    apply forward_dispatches.
Qed.

Lemma first_matching_check_decides_witness :
  Spec.takes
    (handleRequest (Sample.request "GET" "/favicon.ico" Sample.headers)
       Sample.restricted) Spec.PathInvalid
  /\ Spec.takes
       (handleRequest (Sample.request "OPTIONS" "/favicon.ico" Sample.headers)
          Sample.restricted) Spec.PreflightEmpty.
Proof.
  split.
  - apply (first_matching_check_decides
             (Sample.request "GET" "/favicon.ico" Sample.headers)
             Sample.restricted); try discriminate. reflexivity.
  - apply (first_matching_check_decides
             (Sample.request "OPTIONS" "/favicon.ico" Sample.headers)
             Sample.restricted). reflexivity.
Defined.

(** C2, as amended.  For a request other than OPTIONS whose path is
    [/bot], a non-empty token without a slash, and then nothing or a
    slash and more: under a non-empty allowlist setting the handler
    answers by itself with status 403 and the forbidden body exactly
    when the token equals none of the comma-separated entries after
    each is trimmed, and otherwise sends the request upstream; under
    an empty or absent setting it always sends the request upstream. *)
Theorem allowlist_decides_403 (request : Request.t) (env : Env) (token rest : string) :
  Request.method request <> "OPTIONS" ->
  URL.pathname (Request.url request) = "/bot" ++ token ++ rest ->
  token <> EmptyString ->
  JsString.includesChar token "/" = false ->
  rest = EmptyString \/ (exists r, rest = String "/" r) ->
  (forall allowed,
      ALLOWED_TOKENS env = Some allowed -> allowed <> EmptyString ->
      (Spec.answers (handleRequest request env) 403 (Some Spec.forbiddenBody)
       <-> (forall entry, In entry (JsString.split "," allowed) ->
                          token <> JsString.trim entry))
      /\ (~ (forall entry, In entry (JsString.split "," allowed) ->
                           token <> JsString.trim entry) ->
          handleRequest request env = forward request))
  /\ (ALLOWED_TOKENS env = None \/ ALLOWED_TOKENS env = Some EmptyString ->
      handleRequest request env = forward request
      /\ forall status body, ~ Spec.answers (handleRequest request env) status body).
Proof.
  intros Hm Hpath Hne Hns Hrest.
  assert (Ht := matchBotToken_token token rest Hne Hns Hrest).
  rewrite <- Hpath in Ht.
  assert (Hp : String.prefix "/bot" (URL.pathname (Request.url request)) = true)
    by (rewrite Hpath; cbn [append]; now destruct (token ++ rest)).
  split.
  - intros allowed Ha Hane.
    destruct (existsb (String.eqb token) (Spec.allowedSet allowed)) eqn:Hin.
    + assert (Hf : handleRequest request env = forward request).
      { apply handleRequest_forward; [exact Hm|exact Hp|].
        unfold Spec.isForbidden, Spec.path. rewrite Ha, Ht, Hin.
        apply andb_false_r. }
      assert (Hno : ~ (forall entry, In entry (JsString.split "," allowed) ->
                                     token <> JsString.trim entry)).
      { intros H. apply allowedSet_rejects in H. congruence. }
      split; [|intros _; exact Hf].
      rewrite Hf. split; intros H; [|contradiction].
      now apply answers_not_dispatch in H.
    + assert (Hall := proj1 (allowedSet_rejects token allowed) Hin).
      split; [|intros H; contradiction].
      rewrite (handleRequest_forbidden request env allowed token Hm Hp Ha Hane Ht Hin).
      split; [intros _; exact Hall|].
      intros _. eexists. repeat split.
  - intros Ha.
    assert (Hf : handleRequest request env = forward request).
    { apply handleRequest_forward; [exact Hm|exact Hp|].
      unfold Spec.isForbidden, Spec.path.
      destruct Ha as [-> | ->]; [reflexivity|]. now rewrite Ht. }
    rewrite Hf. split; [reflexivity|].
    intros status body. apply answers_not_dispatch.
Qed.

Lemma allowlist_decides_403_witness :
  Spec.answers
    (handleRequest (Sample.request "POST" "/botT3/sendMessage" Sample.headers)
       Sample.restricted)
    403 (Some Spec.forbiddenBody)
  /\ handleRequest (Sample.request "POST" "/botT2/sendMessage" Sample.headers)
       Sample.restricted
     = forward (Sample.request "POST" "/botT2/sendMessage" Sample.headers)
  /\ handleRequest (Sample.request "POST" "/botANY/sendMessage" Sample.headers)
       Sample.unrestricted
     = forward (Sample.request "POST" "/botANY/sendMessage" Sample.headers).
Proof.
  split; [|split].
  - destruct (allowlist_decides_403
                (Sample.request "POST" "/botT3/sendMessage" Sample.headers)
                Sample.restricted "T3" "/sendMessage") as [Hset _];
      [ discriminate | reflexivity | discriminate | reflexivity
      | right; exists "sendMessage"; reflexivity | ].
    destruct (Hset "T1, T2" eq_refl) as [[_ Hback] _]; [discriminate|].
    apply Hback. cbn. intros entry [<-|[<-|[]]]; vm_compute; discriminate.
  - destruct (allowlist_decides_403
                (Sample.request "POST" "/botT2/sendMessage" Sample.headers)
                Sample.restricted "T2" "/sendMessage") as [Hset _];
      [ discriminate | reflexivity | discriminate | reflexivity
      | right; exists "sendMessage"; reflexivity | ].
    destruct (Hset "T1, T2" eq_refl) as [_ Hfwd]; [discriminate|].
    apply Hfwd. intros H. apply (H " T2"); [cbn; tauto|reflexivity].
  - destruct (allowlist_decides_403
                (Sample.request "POST" "/botANY/sendMessage" Sample.headers)
                Sample.unrestricted "ANY" "/sendMessage") as [_ Hnone];
      [ discriminate | reflexivity | discriminate | reflexivity
      | right; exists "sendMessage"; reflexivity | ].
    apply Hnone. left. reflexivity.
Defined.

(** C2 as stated fails on an OPTIONS request: the path carries the
    token [T3], the setting [T1, T2] is not empty and no entry of it
    equals the token, yet the handler answers with the preflight
    response and not with 403. *)
Lemma allowlist_403_counterexample :
  Spec.path (Sample.request "OPTIONS" "/botT3/sendMessage" Sample.headers)
  = "/bot" ++ "T3" ++ "/sendMessage"
  /\ ALLOWED_TOKENS Sample.restricted = Some "T1, T2"
  /\ handleRequest (Sample.request "OPTIONS" "/botT3/sendMessage" Sample.headers)
        Sample.restricted
      = Return (Spec.reply 200 corsHeaders None)
  /\ ~ (Spec.answers
          (handleRequest (Sample.request "OPTIONS" "/botT3/sendMessage" Sample.headers)
             Sample.restricted)
          403 (Some Spec.forbiddenBody)
        <-> (forall entry, In entry (JsString.split "," "T1, T2") ->
                           "T3" <> JsString.trim entry)).
Proof.
  repeat split. intros [_ H].
  destruct H as [r [H [Hs _]]].
  - cbn. intros entry [<-|[<-|[]]]; vm_compute; discriminate.
  - injection H as <-. discriminate Hs.
Qed.

(** The 403 of C2 is the handler's own answer: a request that is sent
    upstream comes back with whatever status the upstream gave, 403
    included. *)
Lemma relayed_403_example :
  exists r out,
    run Sample.refusing
      (handleRequest (Sample.request "POST" "/botANY/sendMessage" Sample.headers)
         Sample.unrestricted) 0 []
    = (Returned r, [out], 1)
    /\ Response.status r = 403%N
    /\ Response.body r = Response.body Sample.upstreamRefusal.
Proof. eexists. eexists. split; [vm_compute; reflexivity|]. split; reflexivity. Qed.

(** C3.  A request other than OPTIONS whose path is [/bot] or starts
    with [/bot/] has no token for the pattern to capture; the
    allowlist check is passed over, whatever the configuration, and
    the request goes to the upstream. *)
Theorem empty_token_goes_upstream (request : Request.t) (env : Env) :
  Request.method request <> "OPTIONS" ->
  URL.pathname (Request.url request) = "/bot"
  \/ (exists rest, URL.pathname (Request.url request) = "/bot/" ++ rest) ->
  TokenPattern.matchBotToken (URL.pathname (Request.url request)) = None
  /\ handleRequest request env = forward request
  /\ Spec.dispatches (handleRequest request env)
  /\ (forall status body, ~ Spec.answers (handleRequest request env) status body).
Proof.
  intros Hm Hp.
  assert (Ht := matchBotToken_empty _ Hp).
  assert (Hf : handleRequest request env = forward request).
  { apply handleRequest_forward; [exact Hm| |].
    - destruct Hp as [->|[rest ->]]; reflexivity.
    - unfold Spec.isForbidden, Spec.path. rewrite Ht.
      now destruct (ALLOWED_TOKENS env). }
  rewrite Hf. repeat split.
  - exact Ht.
  - apply forward_dispatches.
  - intros status body. apply answers_not_dispatch.
Qed.

Lemma empty_token_goes_upstream_witness :
  handleRequest (Sample.request "POST" "/bot/sendMessage" Sample.headers)
    Sample.restricted
  = forward (Sample.request "POST" "/bot/sendMessage" Sample.headers).
Proof.
  apply (empty_token_goes_upstream
           (Sample.request "POST" "/bot/sendMessage" Sample.headers)
           Sample.restricted).
  - discriminate.
  - right. exists "sendMessage". reflexivity.
Defined.

(** C4, as amended.  When a request reaches the upstream, the headers
    of the request sent read, name by name, as those of the inbound
    request without the HTTP whitespace before and after the value if
    the lowercased name is one of content-type, accept,
    accept-language and content-length, and as absent otherwise. *)
Theorem forwarded_headers (request : Request.t) (env : Env)
        (out : Request.t) (k : Settled -> Async Response.t) :
  handleRequest request env = AwaitFetch out k ->
  forall name,
    Headers.get (Request.headers out) name =
    if existsb (String.eqb (JsString.toLowerCase name)) Spec.forwarded
    then option_map Headers.normalize (Headers.get (Request.headers request) name)
    else None.
Proof.
  intros H name. apply handleRequest_dispatch in H.
  unfold forward in H. injection H as <- _. cbn [Request.headers].
  apply get_filterHeaders.
Qed.

Lemma forwarded_headers_witness :
  exists out k,
    handleRequest (Sample.request "POST" "/botT1/sendMessage" Sample.headers)
      Sample.unrestricted = AwaitFetch out k
    /\ Headers.get (Request.headers out) "Accept" = Some "application/json, text/plain"
    /\ Headers.get (Request.headers out) "Content-type"
        = Some "application/x-www-form-urlencoded"
    /\ Headers.get (Request.headers out) "Authorization" = None
    /\ Headers.get (Request.headers out) "x-foo" = None.
Proof.
  destruct (forward_dispatches
              (Sample.request "POST" "/botT1/sendMessage" Sample.headers))
    as [out [k [H _]]].
  exists out, k.
  assert (G := forwarded_headers
                 (Sample.request "POST" "/botT1/sendMessage" Sample.headers)
                 Sample.unrestricted out k H).
  split; [exact H|].
  repeat split; rewrite G; reflexivity.
Defined.

(** C4 as stated fails on a request with the header [Accept: a] and a
    second, empty [Accept]: the inbound request reads [a, ] under the
    name, with a space at the end, and the request sent upstream reads
    [a,], so an allowed header does not go out with its original
    value. *)
Lemma forwarded_headers_counterexample :
  exists out k,
    handleRequest
      (Sample.request "POST" "/botT1/sendMessage" [ ("Accept", "a"); ("Accept", "") ])
      Sample.unrestricted = AwaitFetch out k
    /\ Headers.get [ ("Accept", "a"); ("Accept", "") ] "accept" = Some "a, "
    /\ Headers.get (Request.headers out) "accept" = Some "a,"
    /\ Headers.get (Request.headers out) "accept"
       <> Headers.get [ ("Accept", "a"); ("Accept", "") ] "accept".
Proof.
  destruct (forward_dispatches
              (Sample.request "POST" "/botT1/sendMessage"
                 [ ("Accept", "a"); ("Accept", "") ]))
    as [out [k [H _]]].
  exists out, k.
  assert (E : Headers.get (Request.headers out) "accept" = Some "a,").
  { unfold forward in H. injection H as <- _. reflexivity. }
  split; [exact H|]. split; [reflexivity|]. split; [exact E|].
  rewrite E. discriminate.
Qed.

(** C5.  When the upstream call succeeds the final response has the
    status, the status text and the body of the upstream response;
    its headers read as the four CORS headers under their names and
    as the upstream's under every other name.  The four CORS headers
    are on every response the handler returns, whichever way it ends. *)
Theorem relay_and_cors (request : Request.t) (env : Env) :
  (forall out k upstream,
      handleRequest request env = AwaitFetch out k ->
      exists final,
        k (Fulfilled upstream) = Return final
        /\ Response.status final = Response.status upstream
        /\ Response.statusText final = Response.statusText upstream
        /\ Response.body final = Response.body upstream
        /\ Spec.hasCors (Response.headers final)
        /\ forall name, Spec.isCorsName name = false ->
             Headers.get (Response.headers final) name
             = Headers.get (Response.headers upstream) name)
  /\ (forall (W : Type) (fetch : Request.t -> W -> Settled * W) (w w' : W)
             (r : Response.t) (sent : list Request.t),
         run fetch (handleRequest request env) w [] = (Returned r, sent, w') ->
         Spec.hasCors (Response.headers r)).
Proof.
  assert (Hrelay : forall out k upstream,
      handleRequest request env = AwaitFetch out k ->
      exists final,
        k (Fulfilled upstream) = Return final
        /\ Response.status final = Response.status upstream
        /\ Response.statusText final = Response.statusText upstream
        /\ Response.body final = Response.body upstream
        /\ Spec.hasCors (Response.headers final)
        /\ forall name, Spec.isCorsName name = false ->
             Headers.get (Response.headers final) name
             = Headers.get (Response.headers upstream) name).
  { intros out k upstream H. apply handleRequest_dispatch in H.
    unfold forward in H. injection H as _ <-.
    eexists. split; [reflexivity|]. cbn [Response.create Response.status
      Response.statusText Response.body Response.headers
      Response.init_status Response.init_statusText Response.init_headers].
    repeat split.
    - intros name value Hin. unfold Headers.copy.
      rewrite get_set_cors_unfolded.
      rewrite (cors_name name value Hin). now apply hasCors_corsHeaders.
    - intros name Hname. unfold Headers.copy.
      rewrite get_set_cors_unfolded, Hname. reflexivity. }
  split; [exact Hrelay|].
  intros W fetch w w' r sent Hrun.
  destruct (handleRequest_shape request env) as [H|[H|[H|[H|H]]]];
    rewrite H in Hrun;
    try (injection Hrun as <- _ _;
         first [exact hasCors_corsHeaders | exact hasCors_jsonCorsHeaders]).
  unfold forward in Hrun. cbn [run] in Hrun.
  destruct (fetch _ w) as [[upstream|error] w1]; cbn [run] in Hrun;
    injection Hrun as <- _ _.
  - destruct (Hrelay _ _ upstream H) as [final (E & _ & _ & _ & Hc & _)].
    unfold forward in E. injection E as <-. exact Hc.
  - exact hasCors_jsonCorsHeaders.
Qed.

Lemma relay_and_cors_witness :
  exists out final,
    run Sample.answering
      (handleRequest (Sample.request "GET" "/botT1/getMe" Sample.headers)
         Sample.restricted) 0 []
    = (Returned final, [out], 1)
    /\ Response.status final = 200%N
    /\ Response.statusText final = "OK"
    /\ Response.body final = Some (Spec.text "{'ok':true}")
    /\ Headers.get (Response.headers final) "access-control-allow-origin" = Some "*"
    /\ Headers.get (Response.headers final) "Content-Type" = Some "application/json"
    /\ Headers.get (Response.headers final) "Set-Cookie" = Some "a=1, b=2".
Proof.
  destruct (forward_dispatches
              (Sample.request "GET" "/botT1/getMe" Sample.headers))
    as [out [k [H _]]].
  destruct (relay_and_cors (Sample.request "GET" "/botT1/getMe" Sample.headers)
              Sample.restricted) as [Hrelay _].
  destruct (Hrelay out k Sample.upstreamOk H)
    as [final (E & Hs & Ht & Hb & Hc & Ho)].
  exists out, final. split.
  - change (handleRequest (Sample.request "GET" "/botT1/getMe" Sample.headers)
              Sample.restricted)
      with (forward (Sample.request "GET" "/botT1/getMe" Sample.headers)).
    rewrite H. cbn [run Sample.answering]. rewrite E. reflexivity.
  - rewrite Hs, Ht, Hb. repeat split.
    + apply Hc. left. reflexivity.
    + rewrite Ho; reflexivity.
    + rewrite Ho; reflexivity.
Defined.

(** C6.  When a request reaches the upstream and the call fails, the
    handler answers with status 502 and the upstream-error body, an
    object whose [error] is the fixed label and whose [message] is the
    message of the failure; that one request is all it sent. *)
Theorem upstream_failure_answer (request : Request.t) (env : Env)
        (out : Request.t) (k : Settled -> Async Response.t) (error : Error) :
  handleRequest request env = AwaitFetch out k ->
  exists r,
    k (Rejected error) = Return r
    /\ Response.status r = 502%N
    /\ Response.body r = Some (Spec.upstreamErrorBody (message error))
    /\ JSON.parse (Spec.upstreamErrorBody (message error))
       = Some [ ("error", Spec.upstreamErrorLabel); ("message", message error) ]
    /\ forall (W : Type) (fetch : Request.t -> W -> Settled * W) (w w' : W),
         fetch out w = (Rejected error, w') ->
         run fetch (handleRequest request env) w [] = (Returned r, [out], w').
Proof.
  intros H.
  assert (Hbody : JSON.stringify
                    [ ("error", "Failed to proxy request to Telegram");
                      ("message", message error) ]
                  = Spec.upstreamErrorBody (message error))
    by reflexivity.
  exists (Spec.reply 502 jsonCorsHeaders
            (Some (Spec.upstreamErrorBody (message error)))).
  rewrite H. apply handleRequest_dispatch in H.
  unfold forward in H. injection H as <- <-.
  split; [rewrite <- Hbody; reflexivity|].
  split; [reflexivity|]. split; [reflexivity|]. split.
  - rewrite <- Hbody. apply parse_stringify.
  - intros W fetch w w' Hfetch. cbn [run]. rewrite Hfetch.
    cbn [run]. rewrite <- Hbody. reflexivity.
Qed.

Lemma upstream_failure_answer_witness :
  exists out r,
    run Sample.failingOnce
      (handleRequest (Sample.request "POST" "/botT1/sendMessage" Sample.headers)
         Sample.restricted) 0 []
    = (Returned r, [out], 1)
    /\ Response.status r = 502%N
    /\ Response.body r = Some (Spec.upstreamErrorBody "connection refused").
Proof.
  destruct (forward_dispatches
              (Sample.request "POST" "/botT1/sendMessage" Sample.headers))
    as [out [k [H _]]].
  destruct (upstream_failure_answer
              (Sample.request "POST" "/botT1/sendMessage" Sample.headers)
              Sample.restricted out k Sample.failure H)
    as [r (_ & Hs & Hb & _ & Hrun)].
  exists out, r. repeat split; try assumption.
  apply Hrun. reflexivity.
Defined.

(** C7.  A request other than OPTIONS whose path is neither [/] nor
    [/health] and does not start with [/bot] is answered with status
    400 and the path-invalid body, whatever the configuration, without
    a request to the upstream. *)
Theorem path_invalid_answer (request : Request.t) (env : Env) :
  Request.method request <> "OPTIONS" ->
  URL.pathname (Request.url request) <> "/" ->
  URL.pathname (Request.url request) <> "/health" ->
  JsString.startsWith (URL.pathname (Request.url request)) "/bot" = false ->
  exists r,
    handleRequest request env = Return r
    /\ Response.status r = 400%N
    /\ Response.body r = Some Spec.pathInvalidBody
    /\ forall (W : Type) (fetch : Request.t -> W -> Settled * W) (w : W),
         run fetch (handleRequest request env) w [] = (Returned r, [], w).
Proof.
  intros Hm H1 H2 Hp.
  exists (Spec.reply 400 jsonCorsHeaders (Some Spec.pathInvalidBody)).
  rewrite (handleRequest_invalid request env Hm H1 H2 Hp).
  repeat split.
Qed.

Lemma path_invalid_answer_witness :
  exists r,
    handleRequest (Sample.request "POST" "/robots.txt" Sample.headers)
      Sample.restricted = Return r
    /\ Response.status r = 400%N
    /\ Response.body r = Some Spec.pathInvalidBody.
Proof.
  destruct (path_invalid_answer (Sample.request "POST" "/robots.txt" Sample.headers)
              Sample.restricted)
    as [r (H1 & H2 & H3 & _)]; try discriminate.
  - reflexivity.
  - exists r. repeat split; assumption.
Defined.

(** C8.  A request with method OPTIONS, whatever its path and the
    configuration, is answered with a null body and the four CORS
    headers, which are all the headers of the response; no request is
    sent to the upstream. *)
Theorem preflight_answer (request : Request.t) (env : Env) :
  Request.method request = "OPTIONS" ->
  exists r,
    handleRequest request env = Return r
    /\ Response.body r = None
    /\ Spec.hasCors (Response.headers r)
    /\ (forall name, Spec.isCorsName name = false ->
                     Headers.get (Response.headers r) name = None)
    /\ Headers.lowercaseNames (Response.headers r) = map fst Spec.cors
    /\ forall (W : Type) (fetch : Request.t -> W -> Settled * W) (w : W),
         run fetch (handleRequest request env) w [] = (Returned r, [], w).
Proof.
  intros Hm. exists (Spec.reply 200 corsHeaders None).
  rewrite (handleRequest_options request env Hm).
  repeat split.
  - exact hasCors_corsHeaders.
  - exact get_corsHeaders_other.
Qed.

Lemma preflight_answer_witness :
  exists r,
    handleRequest (Sample.request "OPTIONS" "/nowhere" Sample.headers)
      Sample.restricted = Return r
    /\ Response.body r = None
    /\ Headers.lowercaseNames (Response.headers r) = map fst Spec.cors.
Proof.
  destruct (preflight_answer (Sample.request "OPTIONS" "/nowhere" Sample.headers)
              Sample.restricted eq_refl)
    as [r (H1 & H2 & _ & _ & H3 & _)].
  exists r. repeat split; assumption.
Defined.

(** C9.  A request other than OPTIONS for [/] or [/health] is answered
    with status 200, the health body and the CORS headers, without a
    request to the upstream. *)
Theorem health_answer (request : Request.t) (env : Env) :
  Request.method request <> "OPTIONS" ->
  URL.pathname (Request.url request) = "/"
  \/ URL.pathname (Request.url request) = "/health" ->
  exists r,
    handleRequest request env = Return r
    /\ Response.status r = 200%N
    /\ Response.body r = Some Spec.healthBody
    /\ Spec.hasCors (Response.headers r)
    /\ forall (W : Type) (fetch : Request.t -> W -> Settled * W) (w : W),
         run fetch (handleRequest request env) w [] = (Returned r, [], w).
Proof.
  intros Hm Hp. exists (Spec.reply 200 jsonCorsHeaders (Some Spec.healthBody)).
  rewrite (handleRequest_health request env Hm Hp).
  repeat split. exact hasCors_jsonCorsHeaders.
Qed.

Lemma health_answer_witness :
  exists r,
    handleRequest (Sample.request "GET" "/health" Sample.headers)
      Sample.restricted = Return r
    /\ Response.status r = 200%N
    /\ Response.body r = Some Spec.healthBody.
Proof.
  destruct (health_answer (Sample.request "GET" "/health" Sample.headers)
              Sample.restricted)
    as [r (H1 & H2 & H3 & _)].
  - discriminate.
  - right. reflexivity.
  - exists r. repeat split; assumption.
Defined.

(** C10.  Under every configuration and against every upstream the
    handler returns a response and does not throw: one of the four
    answers of its own, with nothing sent, or, with one request sent,
    the 502 answer to a failed call or the relay of the upstream's
    response. *)
Theorem handler_total (W : Type) (fetch : Request.t -> W -> Settled * W) (w : W)
        (request : Request.t) (env : Env) :
  exists r sent w',
    run fetch (handleRequest request env) w [] = (Returned r, sent, w')
    /\ Spec.hasCors (Response.headers r)
    /\ ((sent = [] /\ w' = w
         /\ ((Response.status r = 200%N /\ Response.body r = None)
             \/ (Response.status r = 200%N /\ Response.body r = Some Spec.healthBody)
             \/ (Response.status r = 400%N
                 /\ Response.body r = Some Spec.pathInvalidBody)
             \/ (Response.status r = 403%N
                 /\ Response.body r = Some Spec.forbiddenBody)))
        \/ (exists out,
              sent = [out]
              /\ ((exists error,
                      fetch out w = (Rejected error, w')
                      /\ Response.status r = 502%N
                      /\ Response.body r
                         = Some (Spec.upstreamErrorBody (message error)))
                  \/ (exists upstream,
                         fetch out w = (Fulfilled upstream, w')
                         /\ Response.status r = Response.status upstream
                         /\ Response.statusText r = Response.statusText upstream
                         /\ Response.body r = Response.body upstream)))).
Proof.
  destruct (handleRequest_shape request env) as [H|[H|[H|[H|H]]]]; rewrite H.
  - eexists _, [], w. split; [reflexivity|]. split; [exact hasCors_corsHeaders|].
    left. repeat split. left. split; reflexivity.
  - eexists _, [], w. split; [reflexivity|]. split; [exact hasCors_jsonCorsHeaders|].
    left. repeat split. right. left. split; reflexivity.
  - eexists _, [], w. split; [reflexivity|]. split; [exact hasCors_jsonCorsHeaders|].
    left. repeat split. right. right. left. split; reflexivity.
  - eexists _, [], w. split; [reflexivity|]. split; [exact hasCors_jsonCorsHeaders|].
    left. repeat split. right. right. right. split; reflexivity.
  - unfold forward. cbn [run].
    match goal with |- context [fetch ?o w] => set (out := o) end.
    destruct (fetch out w) as [[upstream|error] w1] eqn:Hfetch; cbn [run app].
    + eexists _, [out], w1. split; [reflexivity|]. split.
      * intros name value Hin. cbn [Response.create Response.headers
          Response.init_headers].
        unfold Headers.copy.
        rewrite get_set_cors, (cors_name name value Hin).
        now apply hasCors_corsHeaders.
      * right. exists out. split; [reflexivity|]. right. exists upstream.
        split; [exact Hfetch|]. repeat split.
    + eexists _, [out], w1. split; [reflexivity|].
      split; [exact hasCors_jsonCorsHeaders|].
      right. exists out. split; [reflexivity|]. left. exists error.
      split; [exact Hfetch|]. repeat split.
Qed.

(** * Further properties of the worker *)

(** ** The token pattern *)

Lemma stripPrefix_Some (p s rest : string) :
  TokenPattern.stripPrefix p s = Some rest -> s = p ++ rest.
Proof.
  revert s. induction p as [|a p IH]; intros s H.
  - cbn in H. now injection H as <-.
  - destruct s as [|b s]; [discriminate H|]. cbn in H.
    destruct (Ascii.eqb_spec a b) as [->|_]; [|discriminate H].
    cbn. now rewrite (IH s H).
Qed.

Lemma segment_spec (s : string) :
  exists rest,
    s = TokenPattern.segment s ++ rest
    /\ JsString.includesChar (TokenPattern.segment s) "/" = false
    /\ (rest = EmptyString \/ exists r, rest = String "/" r).
Proof.
  induction s as [|c s [rest (E & Hn & Hr)]].
  - exists EmptyString. repeat split. now left.
  - cbn [TokenPattern.segment]. unfold TokenPattern.slash.
    destruct (Ascii.eqb_spec c "/") as [->|Hc].
    + exists (String "/" s). repeat split. right. now exists s.
    + exists rest. cbn. rewrite <- E. repeat split; [|exact Hr].
      apply Ascii.eqb_neq in Hc. now rewrite Hc, Hn.
Qed.

Lemma matchBotToken_Some (pathname token : string) :
  TokenPattern.matchBotToken pathname = Some token ->
  token <> EmptyString
  /\ JsString.includesChar token "/" = false
  /\ exists rest,
       pathname = "/bot" ++ token ++ rest
       /\ (rest = EmptyString \/ exists r, rest = String "/" r).
Proof.
  unfold TokenPattern.matchBotToken. intros H.
  destruct (TokenPattern.stripPrefix "/bot" pathname) as [after|] eqn:Ep;
    [|discriminate H].
  apply stripPrefix_Some in Ep.
  destruct (segment_spec after) as [rest (E & Hn & Hr)].
  destruct (TokenPattern.segment after) as [|c t] eqn:Es; [discriminate H|].
  injection H as <-. split; [discriminate|]. split; [exact Hn|].
  exists rest. split; [|exact Hr]. now rewrite Ep, E.
Qed.

(** X3.  The pattern matches exactly the paths made of [/bot], a
    non-empty token without a slash, and then nothing or a slash and
    more; the match is that token. *)
Theorem matchBotToken_iff (pathname token : string) :
  TokenPattern.matchBotToken pathname = Some token
  <-> (token <> EmptyString
       /\ JsString.includesChar token "/" = false
       /\ exists rest,
            pathname = "/bot" ++ token ++ rest
            /\ (rest = EmptyString \/ exists r, rest = String "/" r)).
Proof.
  split.
  - apply matchBotToken_Some.
  - intros (Hne & Hn & rest & -> & Hr). now apply matchBotToken_token.
Qed.

Lemma matchBotToken_iff_witness :
  TokenPattern.matchBotToken "/botT1/sendMessage" = Some "T1".
Proof.
  apply (proj2 (matchBotToken_iff "/botT1/sendMessage" "T1")).
  split; [discriminate|]. split; [reflexivity|].
  exists "/sendMessage". split; [reflexivity|]. right. now exists "sendMessage".
Defined.

(** ** The request sent upstream *)

(** X1.  The request sent upstream has the method of the inbound
    request, the URL made of the Telegram origin and the inbound path
    and query unchanged, and the inbound body unless the method is GET
    or HEAD, in which case it has none. *)
Theorem upstream_request (request : Request.t) (env : Env)
        (out : Request.t) (k : Settled -> Async Response.t) :
  handleRequest request env = AwaitFetch out k ->
  Request.method out = Request.method request
  /\ URL.href (Request.url out)
     = "https://api.telegram.org" ++ URL.pathname (Request.url request)
       ++ URL.search (Request.url request)
  /\ Request.body out
     = if String.eqb (Request.method request) "GET"
          || String.eqb (Request.method request) "HEAD"
       then None
       else Request.body request.
Proof. apply dispatched_request. Qed.

Lemma upstream_request_witness :
  exists out k,
    handleRequest (Sample.request "GET" "/botT1/getUpdates" Sample.headers)
      Sample.restricted = AwaitFetch out k
    /\ Request.method out = "GET"
    /\ URL.href (Request.url out)
       = "https://api.telegram.org/botT1/getUpdates?chat_id=7"
    /\ Request.body out = None.
Proof.
  destruct (forward_dispatches
              (Sample.request "GET" "/botT1/getUpdates" Sample.headers))
    as [out [k [H _]]].
  exists out, k.
  destruct (upstream_request
              (Sample.request "GET" "/botT1/getUpdates" Sample.headers)
              Sample.restricted out k H) as (Hm & Hu & Hb).
  repeat split; assumption.
Defined.

(** ** The shape of the filtered headers *)

Section FilteredShape.

Import Headers.

Lemma remove_absent (h : t) (k : string) :
  ~ In (byteLowercase k) (lowercaseNames h) -> remove h k = h.
Proof.
  induction h as [|e h IH]; intros H; [reflexivity|].
  unfold remove in *. cbn [filter lowercaseNames map In] in *.
  unfold named at 1, sameName.
  destruct (String.eqb_spec (byteLowercase (fst e)) (byteLowercase k)) as [E|_].
  - exfalso. apply H. now left.
  - cbn [negb]. rewrite IH; [reflexivity|]. intros Hin. apply H. now right.
Qed.

(** On a list without repeated names [set] keeps the names, or adds
    the new one at the end. *)
Lemma set_names (h : t) (k v : string) :
  NoDup (lowercaseNames h) ->
  map fst (set h k v) = if contains h k then map fst h else (map fst h ++ [k])%list.
Proof.
  induction h as [|e h IH]; intros Hnd; [reflexivity|].
  cbn in Hnd. inversion Hnd as [|? ? Hnot Hnd']; subst.
  cbn [set contains existsb]. fold (contains h k).
  destruct (named k e) eqn:En.
  - cbn. rewrite remove_absent; [reflexivity|].
    unfold named in En. apply sameName_iff in En. now rewrite <- En.
  - cbn. rewrite (IH Hnd'). now destruct (contains h k).
Qed.

Lemma contains_false (h : t) (k : string) :
  contains h k = false -> ~ In (byteLowercase k) (lowercaseNames h).
Proof.
  intros H Hin. apply contains_In in Hin. congruence.
Qed.

Lemma allowed_lowercase_fixed (name : string) :
  In name allowedHeaders -> byteLowercase name = name.
Proof.
  intros H. cbn in H.
  repeat (destruct H as [<-|H]; [reflexivity|]). contradiction.
Qed.

Lemma filteredShape_names (h : t) :
  filteredShape h -> lowercaseNames h = map fst h.
Proof.
  intros [_ Hin]. unfold lowercaseNames.
  induction h as [|e h IH]; [reflexivity|]. cbn in *.
  rewrite allowed_lowercase_fixed by (apply Hin; now left).
  rewrite IH; [reflexivity|]. intros x Hx. apply Hin. now right.
Qed.

Lemma filteredShape_set (h : t) (k v : string) :
  byteLowercase k = k ->
  JsString.includes allowedHeaders (JsString.toLowerCase k) = true ->
  filteredShape h -> filteredShape (set h k v).
Proof.
  intros Hk Ha Hs. pose proof (filteredShape_names h Hs) as Hn.
  destruct Hs as [Hnd Hin].
  assert (Hk' : In k allowedHeaders).
  { rewrite allowed_lowercase, Hk in Ha. unfold JsString.includes in Ha.
    apply existsb_exists in Ha. destruct Ha as [x [Hx E]].
    apply String.eqb_eq in E. now subst. }
  unfold filteredShape. rewrite set_names by (now rewrite Hn).
  destruct (contains h k) eqn:Hc; [now split|].
  apply contains_false in Hc. rewrite Hk, Hn in Hc. split.
  - apply NoDup_app; [assumption|repeat constructor; intros []|].
    intros x Hx [<-|[]]. contradiction.
  - intros x Hx. apply in_app_or in Hx. destruct Hx as [Hx|[<-|[]]]; auto.
Qed.

Lemma entries_keys (h : t) (kv : string * string) :
  In kv (entries h) -> byteLowercase (fst kv) = fst kv.
Proof.
  unfold entries. intros H. apply in_flat_map in H.
  destruct H as [name [Hname Hkv]].
  apply sortedLowercaseNames_In, lowercaseNames_lowercase in Hname.
  unfold entriesOf in Hkv. destruct (String.eqb name "set-cookie").
  - apply in_map_iff in Hkv. now destruct Hkv as [v [<- _]].
  - destruct (get h name); [|contradiction].
    destruct Hkv as [<-|[]]. exact Hname.
Qed.

Lemma filteredShape_loop (l : list (string * string)) (acc : t) :
  (forall kv, In kv l -> byteLowercase (fst kv) = fst kv) ->
  filteredShape acc ->
  filteredShape
    (fold_left
       (fun (filtered : t) (kv : string * string) =>
          let (key, value) := kv in
          if JsString.includes allowedHeaders (JsString.toLowerCase key)
          then set filtered key value
          else filtered)
       l acc).
Proof.
  revert acc. induction l as [|[k v] l IH]; intros acc Hkeys Hacc; [exact Hacc|].
  cbn [fold_left]. apply IH.
  - intros kv Hkv. apply Hkeys. now right.
  - destruct (JsString.includes allowedHeaders (JsString.toLowerCase k)) eqn:Ea;
      [|exact Hacc].
    apply filteredShape_set; try assumption.
    apply (Hkeys (k, v)). now left.
Qed.

End FilteredShape.

(** X2.  Whatever headers come in, the header list sent upstream holds
    each of the four allowed names at most once, spelled in lower
    case, and no other name: at most four headers. *)
Theorem filterHeaders_shape (headers : Headers.t) :
  NoDup (map fst (filterHeaders headers))
  /\ incl (map fst (filterHeaders headers)) allowedHeaders
  /\ List.length (filterHeaders headers) <= 4.
Proof.
  assert (H : filteredShape (filterHeaders headers)).
  { unfold filterHeaders. apply filteredShape_loop.
    - intros kv. apply entries_keys.
    - split; [constructor|intros x []]. }
  destruct H as [Hnd Hin]. repeat split; try assumption.
  rewrite <- (length_map fst).
  apply (NoDup_incl_length Hnd Hin).
Qed.

(** ** Settings and tokens the allowlist cannot match *)

Section AllowlistEdges.

Import JsString.

Lemma trimStart_allWhiteSpace (s : string) :
  allWhiteSpace s = true -> trimStart s = EmptyString.
Proof.
  induction s as [|c s IH]; [reflexivity|]. cbn. intros H.
  apply andb_prop in H. destruct H as [Hc Hs]. rewrite Hc. now apply IH.
Qed.

Lemma trim_allWhiteSpace (s : string) :
  allWhiteSpace s = true -> trim s = EmptyString.
Proof. intros H. unfold trim. now rewrite trimStart_allWhiteSpace. Qed.

Lemma split_blank (s entry : string) :
  forallb (fun c => Ascii.eqb c "," || isWhiteSpace c) (list_ascii_of_string s) = true ->
  In entry (split "," s) -> allWhiteSpace entry = true.
Proof.
  revert entry. induction s as [|c s IH]; intros entry Hb Hin.
  - destruct Hin as [<-|[]]. reflexivity.
  - cbn in Hb. apply andb_prop in Hb. destruct Hb as [Hc Hs].
    cbn [split] in Hin. destruct (Ascii.eqb c ",") eqn:Ec.
    + destruct Hin as [<-|Hin]; [reflexivity|now apply IH].
    + cbn in Hc. destruct (split "," s) as [|p ps].
      * destruct Hin as [<-|[]]. cbn. now rewrite Hc.
      * destruct Hin as [<-|Hin].
        -- cbn. rewrite Hc. apply IH; [exact Hs|now left].
        -- apply IH; [exact Hs|now right].
Qed.

Lemma includesChar_app (a b : string) (c : ascii) :
  includesChar (a ++ b) c = includesChar a c || includesChar b c.
Proof.
  induction a as [|x a IH]; [reflexivity|]. cbn. now rewrite IH, orb_assoc.
Qed.

Lemma trim_includesChar (s : string) (c : ascii) :
  includesChar s c = false -> includesChar (trim s) c = false.
Proof.
  destruct (trim_spec s) as [l [r (E & _)]]. intros H.
  rewrite E, !includesChar_app in H.
  apply orb_false_elim in H. destruct H as [_ H].
  apply orb_false_elim in H. now destruct H.
Qed.

End AllowlistEdges.

(** X4.  A setting that is not empty but made of commas and white
    space only allows no token: every request other than OPTIONS whose
    path carries a token is answered 403. *)
Theorem blank_allowlist_rejects_all (request : Request.t) (env : Env)
        (allowed token : string) :
  Request.method request <> "OPTIONS" ->
  TokenPattern.matchBotToken (URL.pathname (Request.url request)) = Some token ->
  ALLOWED_TOKENS env = Some allowed ->
  allowed <> EmptyString ->
  forallb (fun c => Ascii.eqb c "," || JsString.isWhiteSpace c)
    (list_ascii_of_string allowed) = true ->
  handleRequest request env
  = Return (Spec.reply 403 jsonCorsHeaders (Some Spec.forbiddenBody)).
Proof.
  intros Hm Ht Ha Hne Hb.
  pose proof (matchBotToken_Some _ _ Ht) as (Htok & _ & rest & Hp & _).
  apply (handleRequest_forbidden request env allowed token); try assumption.
  - rewrite Hp. cbn [append]. now destruct (token ++ rest).
  - apply allowedSet_rejects. intros entry Hin E.
    rewrite (trim_allWhiteSpace entry (split_blank allowed entry Hb Hin)) in E.
    contradiction.
Qed.

Lemma blank_allowlist_rejects_all_witness :
  handleRequest (Sample.request "POST" "/botT1/sendMessage" Sample.headers)
    {| ALLOWED_TOKENS := Some " , " |}
  = Return (Spec.reply 403 jsonCorsHeaders (Some Spec.forbiddenBody)).
Proof.
  apply (blank_allowlist_rejects_all
           (Sample.request "POST" "/botT1/sendMessage" Sample.headers)
           {| ALLOWED_TOKENS := Some " , " |} " , " "T1");
    try discriminate; reflexivity.
Defined.

(** X5.  A token that holds a comma, or starts or ends with white
    space, equals no entry of any setting: under every non-empty
    setting a request other than OPTIONS with such a token is answered
    403. *)
Theorem unmatchable_token_rejected (request : Request.t) (env : Env)
        (allowed token : string) :
  Request.method request <> "OPTIONS" ->
  TokenPattern.matchBotToken (URL.pathname (Request.url request)) = Some token ->
  ALLOWED_TOKENS env = Some allowed ->
  allowed <> EmptyString ->
  JsString.includesChar token "," = true
  \/ JsString.startsWithWhiteSpace token = true
  \/ JsString.endsWithWhiteSpace token = true ->
  handleRequest request env
  = Return (Spec.reply 403 jsonCorsHeaders (Some Spec.forbiddenBody)).
Proof.
  intros Hm Ht Ha Hne Hbad.
  pose proof (matchBotToken_Some _ _ Ht) as (Htok & _ & rest & Hp & _).
  apply (handleRequest_forbidden request env allowed token); try assumption.
  - rewrite Hp. cbn [append]. now destruct (token ++ rest).
  - apply allowedSet_rejects. intros entry Hin ->.
    destruct (trim_spec entry) as [l [r (_ & _ & _ & Hs & He)]].
    pose proof (trim_includesChar entry ","
                  (split_pieces "," allowed entry Hin)) as Hc.
    destruct Hbad as [H|[H|H]]; congruence.
Qed.

Lemma unmatchable_token_rejected_witness :
  handleRequest (Sample.request "POST" "/botT1,T2/sendMessage" Sample.headers)
    Sample.restricted
  = Return (Spec.reply 403 jsonCorsHeaders (Some Spec.forbiddenBody)).
Proof.
  apply (unmatchable_token_rejected
           (Sample.request "POST" "/botT1,T2/sendMessage" Sample.headers)
           Sample.restricted "T1, T2" "T1,T2");
    try discriminate; try reflexivity.
  left. reflexivity.
Defined.

(** ** The header lines of a relayed response *)

(** X6.  Over the header lists of the Fetch standard, a relayed
    response keeps every [Set-Cookie] line of the upstream response,
    one by one and in order, and has exactly one line for each CORS
    header, whatever lines of that name the upstream sent. *)
Theorem relay_header_lines (request : Request.t) (env : Env)
        (out : Request.t) (k : Settled -> Async Response.t)
        (upstream final : Response.t) :
  handleRequest request env = AwaitFetch out k ->
  k (Fulfilled upstream) = Return final ->
  Headers.values (Response.headers final) "Set-Cookie"
  = Headers.values (Response.headers upstream) "Set-Cookie"
  /\ forall name value,
       In (name, value) Spec.cors ->
       Headers.values (Response.headers final) name = [value].
Proof.
  intros H E. apply handleRequest_dispatch in H.
  unfold forward in H. injection H as _ <-. injection E as <-.
  cbn [Response.create Response.headers Response.init_headers].
  unfold Headers.copy. cbn [fold_left corsHeaders fst snd].
  split.
  - rewrite !values_set.
    repeat match goal with
           | |- context [Headers.sameName ?a ?b] =>
               let v := eval vm_compute in (Headers.sameName a b) in
               replace (Headers.sameName a b) with v by (vm_compute; reflexivity)
           end.
    reflexivity.
  - intros name value Hin. rewrite !values_set.
    unfold Spec.cors in Hin. cbn [In] in Hin.
    repeat (destruct Hin as [Hin|Hin];
            [injection Hin as <- <-;
             repeat match goal with
                    | |- context [Headers.sameName ?a ?b] =>
                        let v := eval vm_compute in (Headers.sameName a b) in
                        replace (Headers.sameName a b) with v by (vm_compute; reflexivity)
                    end;
             reflexivity|]).
    contradiction.
Qed.

Lemma relay_header_lines_witness :
  exists out k final,
    handleRequest (Sample.request "GET" "/botT1/getMe" Sample.headers)
      Sample.restricted = AwaitFetch out k
    /\ k (Fulfilled Sample.upstreamOk) = Return final
    /\ Headers.values (Response.headers final) "Set-Cookie" = ["a=1"; "b=2"]
    /\ Headers.values (Response.headers final) "access-control-allow-origin" = ["*"].
Proof.
  destruct (forward_dispatches (Sample.request "GET" "/botT1/getMe" Sample.headers))
    as [out [k [H Hk]]].
  destruct (Hk (Fulfilled Sample.upstreamOk)) as [final E].
  exists out, k, final.
  destruct (relay_header_lines
              (Sample.request "GET" "/botT1/getMe" Sample.headers)
              Sample.restricted out k Sample.upstreamOk final H E) as [Hc Hl].
  split; [exact H|]. split; [exact E|]. split.
  - rewrite Hc. reflexivity.
  - apply Hl. left. reflexivity.
Defined.

(** * Properties of the deploy scripts *)

(** Runs a script symbolically: at each read, request, clock read and
    inspection of a reply, by cases on what the world gave. *)
Ltac script_cbn H :=
  unfold Cloudflare.resultSubdomain in H;
  cbn [Node.exec Node.bind Node.try Node.lift Node.fetch Node.log
       Node.logError Node.readWorkerScript Node.now negb app] in H.

Ltac run_script H :=
  repeat
    (script_cbn H;
     match type of H with
     | context [Node.onRead ?world ?w] =>
         destruct (Node.onRead world w) as [[?content|?failure] ?w] eqn:?
     | context [Node.onFetch ?world ?r ?w] =>
         destruct (Node.onFetch world r w) as [[?response|?failure] ?w] eqn:?
     | context [Node.onNow ?world ?w] =>
         destruct (Node.onNow world w) as [?t ?w] eqn:?
     | context [Cloudflare.subdomainOf ?r] =>
         destruct (Cloudflare.subdomainOf r) as [?subdomain|?failure] eqn:?
     | context [Cloudflare.inTemplate ?v] =>
         destruct (Cloudflare.inTemplate v) as [?text|?failure] eqn:?
     | context [Node.json ?r] =>
         destruct (Node.json r) as [?parsed|?failure] eqn:?
     | context [Js.get ?v ?k] =>
         destruct (Js.get v k) as [?property|?failure] eqn:?
     | context [Js.truthy ?v] => destruct (Js.truthy v) eqn:?
     end);
  script_cbn H.

Ltac absurd_case :=
  match goal with
  | Hc : false = true |- _ => discriminate Hc
  | Hc : true = false |- _ => discriminate Hc
  end.

(** X8.  Once the status server is started, [main] of
    [railway-deploy.js] always runs to its end, neither throwing nor
    exiting, and assigns [deploymentStatus] exactly once: to a success
    with a worker URL and no error, or to an error with a message and
    no URL. *)
Theorem railway_main_status {W : Type} (world : Node.World W) (w w' : W)
        (env : Node.ProcessEnv) (ending : Node.Ending unit)
        (trace : list Node.Event) :
  Node.exec world (Railway.main env) w [] = (ending, trace, w') ->
  ending = Node.Finished tt
  /\ exists s,
       Node.statuses trace = [s]
       /\ ((Node.status s = "success"
            /\ (exists url, Node.workerUrl s = Some url)
            /\ Node.error s = None)
           \/ (Node.status s = "error"
               /\ Node.workerUrl s = None
               /\ exists m, Node.error s = Some m)).
Proof.
  intros H. unfold Railway.main, Railway.deployWorker in H.
  destruct (negb (Node.truthy (Node.CLOUDFLARE_API_TOKEN env))
            || negb (Node.truthy (Node.CLOUDFLARE_ACCOUNT_ID env)));
    run_script H; injection H as <- <- <-;
    (split; [reflexivity|]); eexists; (split; [reflexivity|]);
    cbn; eauto 6.
Qed.

(** X7.  Without an API token or an account id, [main] of
    [railway-deploy.js] starts the status server, records the error
    with its fixed message and writes it to the error stream; it reads
    no file and sends no request. *)
Theorem railway_missing_credentials {W : Type} (world : Node.World W) (w : W)
        (env : Node.ProcessEnv) :
  Node.truthy (Node.CLOUDFLARE_API_TOKEN env) = false
  \/ Node.truthy (Node.CLOUDFLARE_ACCOUNT_ID env) = false ->
  Node.exec world (Railway.main env) w []
  = (Node.Finished tt,
     [ Node.ServerStarted;
       Node.StatusSet
         {| Node.status := "error";
            Node.workerUrl := None;
            Node.error :=
              Some "Missing CLOUDFLARE_API_TOKEN or CLOUDFLARE_ACCOUNT_ID. Set these in your Railway service variables.";
            Node.timestamp := fst (Node.onNow world w) |};
       Node.Logged Node.Stderr
         "Deployment failed: Missing CLOUDFLARE_API_TOKEN or CLOUDFLARE_ACCOUNT_ID. Set these in your Railway service variables." ],
     snd (Node.onNow world w)).
Proof.
  intros H. unfold Railway.main, Railway.deployWorker.
  assert (E : negb (Node.truthy (Node.CLOUDFLARE_API_TOKEN env))
              || negb (Node.truthy (Node.CLOUDFLARE_ACCOUNT_ID env)) = true).
  { destruct H as [-> | ->]; [reflexivity|apply orb_true_r]. }
  rewrite E. cbn [Node.exec Node.try Node.bind Node.now Node.logError app].
  destruct (Node.onNow world w) as [t w1]. reflexivity.
Qed.

(** X12.  Without an API token or an account id, [main] of
    [deploy.js] writes its ten lines of help to the error stream and
    exits with code 1; it reads no file and sends no request. *)
Theorem deploy_missing_credentials {W : Type} (world : Node.World W) (w : W)
        (env : Node.ProcessEnv) :
  Node.truthy (Node.CLOUDFLARE_API_TOKEN env) = false
  \/ Node.truthy (Node.CLOUDFLARE_ACCOUNT_ID env) = false ->
  exists trace,
    Node.exec world (Deploy.main env) w [] = (Node.Exited 1, trace, w)
    /\ List.length trace = 10
    /\ Forall (fun e => exists line, e = Node.Logged Node.Stderr line) trace
    /\ hd_error trace
       = Some (Node.Logged Node.Stderr "Error: Missing required environment variables").
Proof.
  intros H. unfold Deploy.main.
  assert (E : negb (Node.truthy (Node.CLOUDFLARE_API_TOKEN env))
              || negb (Node.truthy (Node.CLOUDFLARE_ACCOUNT_ID env)) = true).
  { destruct H as [-> | ->]; [reflexivity|apply orb_true_r]. }
  rewrite E. eexists. split; [reflexivity|].
  split; [reflexivity|]. split; [|reflexivity].
  repeat constructor; eexists; reflexivity.
Qed.

(** The requests of a trace are those of its exchanges. *)
Lemma requests_exchanges (trace : list Node.Event) :
  Node.requests trace = map fst (Node.exchanges trace).
Proof.
  induction trace as [|e trace IH]; [reflexivity|].
  destruct e; cbn [Node.requests Node.exchanges map fst]; now rewrite ?IH.
Qed.

(** Closes a case of a symbolic run in which the answer to the first
    lookup is given beforehand. *)
Ltac first_lookup Hn Hs :=
  cbn [Node.exchanges nth_error app] in Hn;
  first
    [ discriminate Hn
    | injection Hn as Hn; subst;
      revert Hs;
      match goal with
      | Heq : Cloudflare.subdomainOf ?r = _
        |- Cloudflare.subdomainOf ?r = _ -> _ => rewrite Heq
      end;
      intros Hs;
      first
        [ discriminate Hs
        | injection Hs as Hs; subst;
          match goal with
          | Ht : Js.truthy ?v = _ |- context [Js.truthy ?v] => rewrite Ht
          end;
          cbn [Node.requests app]; eexists; reflexivity ] ].

(** X10.  [deployWorker] sends its requests in one of two orders,
    chosen by the answer to the subdomain lookup: the upload, the
    lookup and the enabling of the route when [result?.subdomain] of
    that answer is truthy; the upload, the lookup, the read of the
    script, the enabling and a second lookup when it is not.  A run
    that stops early stops along the order so chosen.  When
    [deployWorker] returns, all three or all five requests were sent
    and answered, and it returns the [workers.dev] URL made with the
    subdomain of the first lookup, or after five requests the one made
    with the subdomain of the second lookup, or the dashboard's URL
    when that subdomain is not truthy either. *)
Theorem railway_requests {W : Type} (world : Node.World W) (w w' : W)
        (env : Node.ProcessEnv) (ending : Node.Ending string)
        (trace : list Node.Event) :
  Node.exec world (Railway.deployWorker env) w [] = (ending, trace, w') ->
  let apiToken := Node.CLOUDFLARE_API_TOKEN env in
  let accountId := Node.CLOUDFLARE_ACCOUNT_ID env in
  let workerName := Node.orElse (Node.WORKER_NAME env) "telegram-api-proxy" in
  let lookup := Cloudflare.getSubdomain apiToken accountId in
  let script := Cloudflare.getScript apiToken accountId workerName in
  let enable := Cloudflare.enableSubdomain apiToken accountId workerName in
  exists content,
    let upload :=
      Cloudflare.upload apiToken accountId workerName
        (Cloudflare.formData content (Node.orElse (Node.ALLOWED_TOKENS env) EmptyString)) in
    ((exists rest, [upload; lookup; enable] = (Node.requests trace ++ rest)%list)
     \/ (exists rest,
           [upload; lookup; script; enable; lookup] = (Node.requests trace ++ rest)%list))
    /\ (forall first subdomain,
          nth_error (Node.exchanges trace) 1 = Some (lookup, Returned first) ->
          Cloudflare.subdomainOf first = Returned subdomain ->
          if Js.truthy subdomain
          then exists rest, [upload; lookup; enable] = (Node.requests trace ++ rest)%list
          else exists rest,
                 [upload; lookup; script; enable; lookup]
                 = (Node.requests trace ++ rest)%list)
    /\ forall url,
         ending = Node.Finished url ->
         (exists a1 first a3 subdomain text,
             Node.exchanges trace
             = [ (upload, a1); (lookup, Returned first); (enable, a3) ]
             /\ Cloudflare.subdomainOf first = Returned subdomain
             /\ Js.truthy subdomain = true
             /\ Cloudflare.inTemplate subdomain = Returned text
             /\ url = "https://" ++ workerName ++ "." ++ text ++ ".workers.dev")
         \/ (exists a1 first a3 a4 second before after,
               Node.exchanges trace
               = [ (upload, a1); (lookup, Returned first); (script, a3);
                   (enable, a4); (lookup, Returned second) ]
               /\ Cloudflare.subdomainOf first = Returned before
               /\ Js.truthy before = false
               /\ Cloudflare.subdomainOf second = Returned after
               /\ ((Js.truthy after = true
                    /\ exists text,
                         Cloudflare.inTemplate after = Returned text
                         /\ url = "https://" ++ workerName ++ "." ++ text
                                  ++ ".workers.dev")
                   \/ (Js.truthy after = false
                       /\ url = "https://dash.cloudflare.com/"
                                ++ Js.orUndefined accountId
                                ++ "/workers/services/view/" ++ workerName))).
Proof.
  intros H. unfold Railway.deployWorker in H.
  destruct (negb (Node.truthy (Node.CLOUDFLARE_API_TOKEN env))
            || negb (Node.truthy (Node.CLOUDFLARE_ACCOUNT_ID env)));
    run_script H; try absurd_case; injection H as <- <- <-;
    cbn zeta;
    first [ exists content | exists EmptyString ];
    (split;
     [ cbn [Node.requests app];
       first [ left; eexists; reflexivity | right; eexists; reflexivity ]
     | split;
       [ intros first sub Hn Hs; first_lookup Hn Hs
       | intros url Hurl; try discriminate Hurl; injection Hurl as <-;
         cbn [Node.exchanges app];
         first
           [ left; eexists _, _, _, _, _;
             split; [reflexivity|]; split; [eassumption|];
             split; [eassumption|]; split; [eassumption|reflexivity]
           | right; eexists _, _, _, _, _, _, _;
             split; [reflexivity|]; split; [eassumption|];
             split; [eassumption|]; split; [eassumption|];
             first [ left; split; [eassumption|]; eexists;
                     split; [eassumption|reflexivity]
                   | right; split; [eassumption|reflexivity] ] ] ] ]).
Qed.


(** Every request of a list bears the bearer token and goes to the
    account's workers. *)
Ltac authorized_requests :=
  cbn [Node.requests];
  repeat first
    [ apply Forall_nil
    | apply Forall_cons;
      [ split; [cbn; tauto | eexists; reflexivity] | ] ].

(** X11.  Every request [main] of [railway-deploy.js] sends carries
    the header [Authorization: Bearer] with the API token, and goes to
    a path under the account's [workers] on the Cloudflare API. *)
Theorem railway_requests_authorized {W : Type} (world : Node.World W) (w w' : W)
        (env : Node.ProcessEnv) (ending : Node.Ending unit)
        (trace : list Node.Event) :
  Node.exec world (Railway.main env) w [] = (ending, trace, w') ->
  Forall
    (fun r =>
       In ("Authorization",
           "Bearer " ++ Js.orUndefined (Node.CLOUDFLARE_API_TOKEN env))
          (Node.headers r)
       /\ exists rest,
            Node.url r
            = "https://api.cloudflare.com/client/v4/accounts/"
              ++ Js.orUndefined (Node.CLOUDFLARE_ACCOUNT_ID env)
              ++ "/workers/" ++ rest)
    (Node.requests trace).
Proof.
  intros H. unfold Railway.main, Railway.deployWorker in H.
  destruct (negb (Node.truthy (Node.CLOUDFLARE_API_TOKEN env))
            || negb (Node.truthy (Node.CLOUDFLARE_ACCOUNT_ID env)));
    run_script H; try absurd_case; injection H as <- <- <-;
    authorized_requests.
Qed.

(** X14.  Every request [main] of [deploy.js] sends carries the header
    [Authorization: Bearer] with the API token, and goes to a path
    under the account's [workers] on the Cloudflare API. *)
Theorem deploy_requests_authorized {W : Type} (world : Node.World W) (w w' : W)
        (env : Node.ProcessEnv) (ending : Node.Ending unit)
        (trace : list Node.Event) :
  Node.exec world (Deploy.main env) w [] = (ending, trace, w') ->
  Forall
    (fun r =>
       In ("Authorization",
           "Bearer " ++ Js.orUndefined (Node.CLOUDFLARE_API_TOKEN env))
          (Node.headers r)
       /\ exists rest,
            Node.url r
            = "https://api.cloudflare.com/client/v4/accounts/"
              ++ Js.orUndefined (Node.CLOUDFLARE_ACCOUNT_ID env)
              ++ "/workers/" ++ rest)
    (Node.requests trace).
Proof.
  intros H. unfold Deploy.main in H.
  destruct (negb (Node.truthy (Node.CLOUDFLARE_API_TOKEN env))
            || negb (Node.truthy (Node.CLOUDFLARE_ACCOUNT_ID env)));
    run_script H; try absurd_case; injection H as <- <- <-;
    authorized_requests.
Qed.

(** X13.  [main] of [deploy.js] ends in one of three ways: it exits
    with code 1; it returns, having sent the upload, the enabling of
    the route and the subdomain lookup, in this order and nothing
    else; or it throws, which it only does when the worker's source
    cannot be read, before any request. *)
Theorem deploy_endings {W : Type} (world : Node.World W) (w w' : W)
        (env : Node.ProcessEnv) (ending : Node.Ending unit)
        (trace : list Node.Event) :
  Node.exec world (Deploy.main env) w [] = (ending, trace, w') ->
  let apiToken := Node.CLOUDFLARE_API_TOKEN env in
  let accountId := Node.CLOUDFLARE_ACCOUNT_ID env in
  let workerName := Node.orElse (Node.WORKER_NAME env) "telegram-api-proxy" in
  ending = Node.Exited 1
  \/ (ending = Node.Finished tt
      /\ exists content,
           Node.requests trace
           = [ Cloudflare.upload apiToken accountId workerName
                 (Cloudflare.formData content
                    (Node.orElse (Node.ALLOWED_TOKENS env) EmptyString));
               Cloudflare.enableSubdomain apiToken accountId workerName;
               Cloudflare.getSubdomain apiToken accountId ])
  \/ (exists failure w0,
        ending = Node.Failed failure
        /\ Node.onRead world w = (Thrown failure, w0)
        /\ Node.requests trace = []).
Proof.
  intros H. unfold Deploy.main in H.
  destruct (negb (Node.truthy (Node.CLOUDFLARE_API_TOKEN env))
            || negb (Node.truthy (Node.CLOUDFLARE_ACCOUNT_ID env)));
    run_script H; try absurd_case; injection H as <- <- <-;
    cbn zeta;
    first [ left; reflexivity
          | right; left; split; [reflexivity|eexists; reflexivity]
          | right; right; eexists; eexists; split; [reflexivity|];
            split; [first [eassumption|reflexivity]|reflexivity] ].
Qed.

(** A run only adds to what was recorded before it. *)
Lemma exec_requests {W A : Type} (world : Node.World W) (p : Node.Script A) :
  forall (w : W) (trace : list Node.Event),
  exists more,
    Node.requests (snd (fst (Node.exec world p w trace)))
    = (Node.requests trace ++ more)%list.
Proof.
  assert (Hsnoc : forall (trace : list Node.Event) (e : Node.Event),
             exists more, Node.requests (trace ++ [e])%list
                          = (Node.requests trace ++ more)%list).
  { intros trace e. induction trace as [|x trace [more IH]].
    - cbn. eexists. reflexivity.
    - destruct x; cbn; rewrite IH; eexists; reflexivity. }
  induction p as [a|failure|code|stream line k IH|k IH|request k IH|k IH|s k IH|k IH];
    intros w trace; cbn [Node.exec].
  - exists []. now rewrite app_nil_r.
  - exists []. now rewrite app_nil_r.
  - exists []. now rewrite app_nil_r.
  - destruct (IH w (trace ++ [Node.Logged stream line])%list) as [more E].
    destruct (Hsnoc trace (Node.Logged stream line)) as [m1 E1].
    rewrite E, E1, <- app_assoc. eexists. reflexivity.
  - destruct (Node.onRead world w) as [r w1].
    destruct (IH r w1 (trace ++ [Node.ScriptRead])%list) as [more E].
    destruct (Hsnoc trace Node.ScriptRead) as [m1 E1].
    rewrite E, E1, <- app_assoc. eexists. reflexivity.
  - destruct (Node.onFetch world request w) as [r w1].
    destruct (IH r w1 (trace ++ [Node.Sent request r])%list) as [more E].
    destruct (Hsnoc trace (Node.Sent request r)) as [m1 E1].
    rewrite E, E1, <- app_assoc. eexists. reflexivity.
  - destruct (Node.onNow world w) as [t w1]. apply IH.
  - destruct (IH w (trace ++ [Node.StatusSet s])%list) as [more E].
    destruct (Hsnoc trace (Node.StatusSet s)) as [m1 E1].
    rewrite E, E1, <- app_assoc. eexists. reflexivity.
  - destruct (IH w (trace ++ [Node.ServerStarted])%list) as [more E].
    destruct (Hsnoc trace Node.ServerStarted) as [m1 E1].
    rewrite E, E1, <- app_assoc. eexists. reflexivity.
Qed.

(** X15.  Under one environment and against one world the two
    scripts begin with the same request, or both send none: [deploy.js]
    and [railway-deploy.js] upload the same script with the same
    metadata to the same address. *)
Theorem same_upload {W : Type} (world : Node.World W) (w : W)
        (env : Node.ProcessEnv) :
  hd_error (Node.requests (snd (fst (Node.exec world (Deploy.main env) w []))))
  = hd_error (Node.requests (snd (fst (Node.exec world (Railway.main env) w [])))).
Proof.
  unfold Deploy.main, Railway.main, Railway.deployWorker.
  destruct (negb (Node.truthy (Node.CLOUDFLARE_API_TOKEN env))
            || negb (Node.truthy (Node.CLOUDFLARE_ACCOUNT_ID env))).
  - cbn [Node.exec Node.bind Node.try Node.logError Node.now app].
    destruct (Node.onNow world w) as [t w1]. reflexivity.
  - cbn [Node.exec Node.bind Node.try Node.log Node.readWorkerScript app].
    destruct (Node.onRead world w) as [[content|failure] w1];
      cbn [Node.exec Node.bind Node.try Node.lift Node.fetch Node.now
           Node.logError app].
    + destruct (Node.onFetch world _ w1) as [r w2].
      repeat match goal with
             | |- context [Node.exec ?wd ?p ?x ?tr] =>
                 let more := fresh "more" in
                 let E := fresh "E" in
                 destruct (exec_requests wd p x tr) as [more E];
                 rewrite E; clear E
             end.
      reflexivity.
    + destruct (Node.onNow world w1) as [t w2]. reflexivity.
Qed.

(** The metadata as text: [ALLOWED_TOKENS] is bound when the variable
    is set and not empty, and then to its text as it stands. *)
Lemma metadata_text (allowedTokens : option string) :
  Js.stringify (Cloudflare.metadata (Node.orElse allowedTokens EmptyString))
  = match allowedTokens with
    | Some a => if JsString.truthy a then Wire.metadataBound a else Wire.metadataUnbound
    | None => Wire.metadataUnbound
    end.
Proof.
  destruct allowedTokens as [[|c a]|]; try reflexivity.
  unfold Node.orElse, Cloudflare.metadata, Wire.metadataBound.
  cbn [JsString.truthy Js.stringify map String.concat].
  generalize (JSON.quote (String c a)). intros q.
  rewrite !append_assoc. vm_compute. reflexivity.
Qed.

(** X16.  With credentials and a readable source, the first request of
    [railway-deploy.js] is the upload: a PUT to the worker's script
    under the account, with the file as it was read as the module
    [index.js] and with the metadata, in which [ALLOWED_TOKENS] is
    bound exactly when the variable is set and not empty, to its text
    unchanged. *)
Theorem upload_request {W : Type} (world : Node.World W) (w w1 : W)
        (env : Node.ProcessEnv) (content : string) :
  Node.truthy (Node.CLOUDFLARE_API_TOKEN env) = true ->
  Node.truthy (Node.CLOUDFLARE_ACCOUNT_ID env) = true ->
  Node.onRead world w = (Returned content, w1) ->
  hd_error (Node.requests (snd (fst (Node.exec world (Railway.main env) w []))))
  = Some
      {| Node.url :=
           "https://api.cloudflare.com/client/v4/accounts/"
           ++ Js.orUndefined (Node.CLOUDFLARE_ACCOUNT_ID env)
           ++ "/workers/scripts/"
           ++ Node.orElse (Node.WORKER_NAME env) "telegram-api-proxy";
         Node.method := Some "PUT";
         Node.headers :=
           [ ("Authorization",
              "Bearer " ++ Js.orUndefined (Node.CLOUDFLARE_API_TOKEN env)) ];
         Node.body :=
           Node.FormBody
             [ Node.FilePart "index.js" content
                 "application/javascript+module" "index.js";
               Node.FieldPart "metadata"
                 match Node.ALLOWED_TOKENS env with
                 | Some a =>
                     if JsString.truthy a then Wire.metadataBound a
                     else Wire.metadataUnbound
                 | None => Wire.metadataUnbound
                 end ] |}.
Proof.
  intros Ht Ha Hread. unfold Railway.main, Railway.deployWorker.
  rewrite Ht, Ha. cbn [negb orb].
  cbn [Node.exec Node.bind Node.try Node.log Node.readWorkerScript app].
  rewrite Hread.
  cbn [Node.exec Node.bind Node.try Node.lift Node.fetch app].
  destruct (Node.onFetch world _ w1) as [r w2].
  match goal with
  | |- context [Node.exec ?wd ?p ?x ?tr] =>
      destruct (exec_requests wd p x tr) as [more E]; rewrite E; clear E
  end.
  cbn [Node.requests app hd_error]. unfold Cloudflare.upload, Cloudflare.formData,
    Cloudflare.bearer, Cloudflare.API_BASE.
  rewrite metadata_text. reflexivity.
Qed.

(** ** The properties on sample runs *)

Lemma railway_missing_credentials_witness :
  Node.requests
    (snd (fst (Node.exec DeploySample.canned (Railway.main DeploySample.noToken)
                 DeploySample.deployed [])))
  = [].
Proof.
  rewrite (railway_missing_credentials DeploySample.canned DeploySample.deployed
             DeploySample.noToken (or_introl eq_refl)).
  reflexivity.
Defined.

Lemma deploy_missing_credentials_witness :
  exists trace,
    Node.exec DeploySample.canned (Deploy.main DeploySample.noToken)
      DeploySample.deployed []
    = (Node.Exited 1, trace, DeploySample.deployed)
    /\ List.length trace = 10.
Proof.
  destruct (deploy_missing_credentials DeploySample.canned DeploySample.deployed
              DeploySample.noToken (or_introl eq_refl)) as [trace (E & Hl & _)].
  exists trace. split; assumption.
Defined.

Lemma railway_main_status_witness :
  fst (fst (Node.exec DeploySample.canned (Railway.main DeploySample.env)
              DeploySample.rejected []))
  = Node.Finished tt
  /\ exists s,
       Node.statuses
         (snd (fst (Node.exec DeploySample.canned (Railway.main DeploySample.env)
                      DeploySample.rejected [])))
       = [s].
Proof.
  destruct (railway_main_status DeploySample.canned DeploySample.rejected
              (snd (Node.exec DeploySample.canned (Railway.main DeploySample.env)
                      DeploySample.rejected []))
              DeploySample.env
              (fst (fst (Node.exec DeploySample.canned (Railway.main DeploySample.env)
                           DeploySample.rejected [])))
              (snd (fst (Node.exec DeploySample.canned (Railway.main DeploySample.env)
                           DeploySample.rejected []))))
    as [He [s [Hs _]]].
  - vm_compute. reflexivity.
  - split; [exact He|]. exists s. exact Hs.
Defined.


Lemma railway_requests_witness :
  List.length
    (Node.exchanges
       (snd (fst (Node.exec DeploySample.canned
                    (Railway.deployWorker DeploySample.env)
                    DeploySample.deployedLate []))))
  = 5
  /\ fst (fst (Node.exec DeploySample.canned
                 (Railway.deployWorker DeploySample.env)
                 DeploySample.deployedLate []))
     = Node.Finished "https://telegram-api-proxy.acme.workers.dev".
Proof.
  destruct (railway_requests DeploySample.canned DeploySample.deployedLate
              (snd (Node.exec DeploySample.canned
                      (Railway.deployWorker DeploySample.env)
                      DeploySample.deployedLate []))
              DeploySample.env
              (fst (fst (Node.exec DeploySample.canned
                           (Railway.deployWorker DeploySample.env)
                           DeploySample.deployedLate [])))
              (snd (fst (Node.exec DeploySample.canned
                           (Railway.deployWorker DeploySample.env)
                           DeploySample.deployedLate []))))
    as [content [_ [_ Hurl]]].
  - vm_compute. reflexivity.
  - destruct (Hurl "https://telegram-api-proxy.acme.workers.dev")
      as [(a1 & first & a3 & sub & text & Hx & _)
         |(a1 & first & a3 & a4 & second & before & after & Hx & _)].
    + vm_compute. reflexivity.
    + exfalso. vm_compute in Hx. discriminate Hx.
    + split; [now rewrite Hx|vm_compute; reflexivity].
Defined.

Lemma railway_requests_authorized_witness :
  Forall
    (fun r => In ("Authorization", "Bearer cf-token") (Node.headers r))
    (Node.requests
       (snd (fst (Node.exec DeploySample.canned (Railway.main DeploySample.env)
                    DeploySample.deployed [])))).
Proof.
  eapply Forall_impl;
    [|apply (railway_requests_authorized DeploySample.canned DeploySample.deployed
               (snd (Node.exec DeploySample.canned (Railway.main DeploySample.env)
                       DeploySample.deployed []))
               DeploySample.env
               (fst (fst (Node.exec DeploySample.canned (Railway.main DeploySample.env)
                            DeploySample.deployed [])))
               (snd (fst (Node.exec DeploySample.canned (Railway.main DeploySample.env)
                            DeploySample.deployed []))));
      vm_compute; reflexivity].
  intros r [H _]. exact H.
Defined.

Lemma deploy_requests_authorized_witness :
  Forall
    (fun r => In ("Authorization", "Bearer cf-token") (Node.headers r))
    (Node.requests
       (snd (fst (Node.exec DeploySample.canned (Deploy.main DeploySample.env)
                    DeploySample.deployed [])))).
Proof.
  eapply Forall_impl;
    [|apply (deploy_requests_authorized DeploySample.canned DeploySample.deployed
               (snd (Node.exec DeploySample.canned (Deploy.main DeploySample.env)
                       DeploySample.deployed []))
               DeploySample.env
               (fst (fst (Node.exec DeploySample.canned (Deploy.main DeploySample.env)
                            DeploySample.deployed [])))
               (snd (fst (Node.exec DeploySample.canned (Deploy.main DeploySample.env)
                            DeploySample.deployed []))));
      vm_compute; reflexivity].
  intros r [H _]. exact H.
Defined.

Lemma deploy_endings_witness :
  fst (fst (Node.exec DeploySample.canned (Deploy.main DeploySample.env)
              DeploySample.rejected []))
  = Node.Exited 1.
Proof.
  destruct (deploy_endings DeploySample.canned DeploySample.rejected
              (snd (Node.exec DeploySample.canned (Deploy.main DeploySample.env)
                      DeploySample.rejected []))
              DeploySample.env
              (fst (fst (Node.exec DeploySample.canned (Deploy.main DeploySample.env)
                           DeploySample.rejected [])))
              (snd (fst (Node.exec DeploySample.canned (Deploy.main DeploySample.env)
                           DeploySample.rejected []))))
    as [H|[[H _]|[failure [w0 [H _]]]]].
  - vm_compute. reflexivity.
  - exact H.
  - exfalso. vm_compute in H. discriminate H.
  - exfalso. vm_compute in H. discriminate H.
Defined.

Lemma upload_request_witness :
  exists r,
    hd_error
      (Node.requests
         (snd (fst (Node.exec DeploySample.canned (Railway.main DeploySample.env)
                      DeploySample.deployed []))))
    = Some r
    /\ Node.method r = Some "PUT"
    /\ Node.body r
       = Node.FormBody
           [ Node.FilePart "index.js" "export default {}"
               "application/javascript+module" "index.js";
             Node.FieldPart "metadata" (Wire.metadataBound "T1,T2") ].
Proof.
  eexists. split.
  - apply (upload_request DeploySample.canned DeploySample.deployed
             DeploySample.deployed DeploySample.env "export default {}");
      reflexivity.
  - split; reflexivity.
Defined.

(** ** How runs compose *)

Section ExecLaws.

Context {W : Type} (world : Node.World W).

(** Events recorded before a run stay in front of what it records. *)
Lemma exec_shift {A : Type} (p : Node.Script A) :
  forall (w : W) (before trace : list Node.Event),
    Node.exec world p w (before ++ trace)%list
    = let '(ending, after, w') := Node.exec world p w trace in
      (ending, (before ++ after)%list, w').
Proof.
  induction p as [a|failure|code|stream line k IH|k IH|request k IH|k IH|s k IH|k IH];
    intros w before trace; cbn [Node.exec]; try reflexivity;
    rewrite <- ?app_assoc.
  - apply IH.
  - destruct (Node.onRead world w) as [r w1]. apply IH.
  - destruct (Node.onFetch world request w) as [r w1].
    rewrite <- ?app_assoc. apply IH.
  - destruct (Node.onNow world w) as [t w1]. apply IH.
  - apply IH.
  - apply IH.
Qed.

(** A sequence runs its first part and, if that returned, the rest. *)
Lemma exec_bind {A B : Type} (p : Node.Script A) (f : A -> Node.Script B) :
  forall (w : W) (trace : list Node.Event),
    Node.exec world (Node.bind p f) w trace
    = match Node.exec world p w trace with
      | (Node.Finished a, after, w') => Node.exec world (f a) w' after
      | (Node.Failed failure, after, w') => (Node.Failed failure, after, w')
      | (Node.Exited code, after, w') => (Node.Exited code, after, w')
      end.
Proof.
  induction p as [a|failure|code|stream line k IH|k IH|request k IH|k IH|s k IH|k IH];
    intros w trace; cbn [Node.exec Node.bind]; try reflexivity.
  - apply IH.
  - destruct (Node.onRead world w) as [r w1]. apply IH.
  - destruct (Node.onFetch world request w) as [r w1]. apply IH.
  - destruct (Node.onNow world w) as [t w1]. apply IH.
  - apply IH.
  - apply IH.
Qed.

(** A [try] runs its block and, if that threw, the handler. *)
Lemma exec_try {A : Type} (p : Node.Script A) (handler : Error -> Node.Script A) :
  forall (w : W) (trace : list Node.Event),
    Node.exec world (Node.try p handler) w trace
    = match Node.exec world p w trace with
      | (Node.Failed failure, after, w') => Node.exec world (handler failure) w' after
      | finished => finished
      end.
Proof.
  induction p as [a|failure|code|stream line k IH|k IH|request k IH|k IH|s k IH|k IH];
    intros w trace; cbn [Node.exec Node.try]; try reflexivity.
  - apply IH.
  - destruct (Node.onRead world w) as [r w1]. apply IH.
  - destruct (Node.onFetch world request w) as [r w1]. apply IH.
  - destruct (Node.onNow world w) as [t w1]. apply IH.
  - apply IH.
  - apply IH.
Qed.

Lemma statuses_app (a b : list Node.Event) :
  Node.statuses (a ++ b)%list = (Node.statuses a ++ Node.statuses b)%list.
Proof.
  induction a as [|e a IH]; [reflexivity|].
  destruct e; cbn; now rewrite IH.
Qed.

End ExecLaws.

(** X17.  What [main] of [railway-deploy.js] records is what
    [deployWorker] did: a success with the URL it returned, or an error
    with the message of what it threw, stamped with the time read
    once it ended; [deployWorker] itself never sets the status. *)
Theorem railway_main_reports {W : Type} (world : Node.World W) (w w1 w2 : W)
        (env : Node.ProcessEnv) (ending : Node.Ending string)
        (trace : list Node.Event) (t : string) :
  Node.exec world (Railway.deployWorker env) w [] = (ending, trace, w1) ->
  Node.onNow world w1 = (t, w2) ->
  Node.statuses trace = []
  /\ match ending with
     | Node.Finished url =>
         Node.statuses (snd (fst (Node.exec world (Railway.main env) w [])))
         = [ {| Node.status := "success";
                Node.workerUrl := Some url;
                Node.error := None;
                Node.timestamp := t |} ]
     | Node.Failed failure =>
         Node.statuses (snd (fst (Node.exec world (Railway.main env) w [])))
         = [ {| Node.status := "error";
                Node.workerUrl := None;
                Node.error := Some (message failure);
                Node.timestamp := t |} ]
     | Node.Exited _ => False
     end.
Proof.
  intros Hrun Hnow.
  assert (Hquiet : Node.statuses trace = [] /\ forall code, ending <> Node.Exited code).
  { clear Hnow. unfold Railway.deployWorker in Hrun.
    destruct (negb (Node.truthy (Node.CLOUDFLARE_API_TOKEN env))
              || negb (Node.truthy (Node.CLOUDFLARE_ACCOUNT_ID env)));
      run_script Hrun; try absurd_case; injection Hrun as <- <- <-;
      (split; [reflexivity|discriminate]). }
  destruct Hquiet as [Hquiet Hexit]. split; [exact Hquiet|].
  unfold Railway.main. cbn [Node.exec app].
  change [Node.ServerStarted] with ([Node.ServerStarted] ++ [])%list.
  rewrite exec_shift, exec_try, exec_bind, Hrun.
  destruct ending as [url|failure|code].
  - cbn [Node.exec Node.bind Node.now Node.log]. rewrite Hnow.
    cbn [Node.exec Node.bind Node.try Node.log app fst snd Node.statuses].
    rewrite !statuses_app, Hquiet. reflexivity.
  - cbn [Node.exec Node.bind Node.now Node.logError]. rewrite Hnow.
    cbn [Node.exec Node.bind Node.try Node.logError app fst snd Node.statuses].
    rewrite !statuses_app, Hquiet. reflexivity.
  - now destruct (Hexit code).
Qed.

Lemma railway_main_reports_witness :
  Node.statuses
    (snd (fst (Node.exec DeploySample.canned (Railway.main DeploySample.env)
                 DeploySample.deployed [])))
  = [ {| Node.status := "success";
         Node.workerUrl := Some "https://telegram-api-proxy.acme.workers.dev";
         Node.error := None;
         Node.timestamp := "2024-01-01T00:00:00.000Z" |} ].
Proof.
  apply (railway_main_reports DeploySample.canned DeploySample.deployed [] []
           DeploySample.env
           (Node.Finished "https://telegram-api-proxy.acme.workers.dev")
           (snd (fst (Node.exec DeploySample.canned
                        (Railway.deployWorker DeploySample.env)
                        DeploySample.deployed [])))
           "2024-01-01T00:00:00.000Z");
    vm_compute; reflexivity.
Defined.

(** * Properties of the second text of [railway-deploy.js] *)

(** Symbolic runs of the second text: also by cases on [ok], on the
    text of a reply and on what [JSON.parse] makes of it. *)
Ltac script2_cbn H :=
  unfold Cloudflare.resultSubdomain, Railway2.safeJsonParse in H;
  cbn [Node.exec Node.bind Node.try Node.lift Node.fetch Node.log
       Node.logError Node.readWorkerScript Node.now Js.truthy negb app] in H.

Ltac run_script2 H :=
  repeat
    (script2_cbn H;
     match type of H with
     | context [Node.onRead ?world ?w] =>
         destruct (Node.onRead world w) as [[?content|?failure] ?w] eqn:?
     | context [Node.onFetch ?world ?r ?w] =>
         destruct (Node.onFetch world r w) as [[?response|?failure] ?w] eqn:?
     | context [Node.onNow ?world ?w] =>
         destruct (Node.onNow world w) as [?t ?w] eqn:?
     | context [Node.ok ?r] => destruct (Node.ok r) eqn:?
     | context [Node.text ?r] =>
         destruct (Node.text r) as [?body|?failure] eqn:?
     | context [Node.jsonParse ?e ?t] =>
         destruct (Node.jsonParse e t) as [?parsed|?failure] eqn:?
     | context [Cloudflare.inTemplate ?v] =>
         destruct (Cloudflare.inTemplate v) as [?text|?failure] eqn:?
     | context [Js.get ?v ?k] =>
         destruct (Js.get v k) as [?property|?failure] eqn:?
     | context [Js.truthy ?v] => destruct (Js.truthy v) eqn:?
     end);
  script2_cbn H.

(** What a lookup gave, from the cases a symbolic run went through. *)
Ltac looked_up :=
  unfold Railway2.lookedUp;
  repeat match goal with
         | Heq : Node.ok ?r = _ |- context [Node.ok ?r] => rewrite Heq
         | Heq : Node.text ?r = _ |- context [Node.text ?r] => rewrite Heq
         | Heq : Node.jsonParse ?e ?t = _ |- context [Node.jsonParse ?e ?t] =>
             rewrite Heq
         | Heq : Js.get ?v ?k = _ |- context [Js.get ?v ?k] => rewrite Heq
         end;
  cbv beta iota.

Ltac first_lookup2 Hn Hl Ht :=
  cbn [Node.exchanges nth_error app] in Hn;
  first
    [ discriminate Hn
    | injection Hn as Hn; subst;
      revert Ht; revert Hl; looked_up; intros Hl;
      first
        [ discriminate Hl
        | injection Hl as Hl; subst; intros Ht;
          first
            [ congruence
            | cbn in Ht; discriminate Ht
            | cbn [Node.requests app]; eexists; reflexivity ] ] ].

(** X18.  In its second text [deployWorker] sends the upload, the
    subdomain lookup, the enabling of the route and then a second
    lookup, which it never sends when the first lookup gave a truthy
    subdomain; it no longer reads the script back.  When it returns,
    three requests were sent and it returns the [workers.dev] URL made
    with the subdomain of the first lookup, or four were sent, the
    first lookup gave no truthy subdomain, and it returns the URL made
    with the subdomain of the second lookup or, when that one is not
    truthy either, the sentence pointing to the dashboard. *)
Theorem railway2_requests {W : Type} (world : Node.World W) (w w' : W)
        (engine : Node.Engine) (env : Node.ProcessEnv)
        (ending : Node.Ending string) (trace : list Node.Event) :
  Node.exec world (Railway2.deployWorker engine env) w [] = (ending, trace, w') ->
  let apiToken := Node.CLOUDFLARE_API_TOKEN env in
  let accountId := Node.CLOUDFLARE_ACCOUNT_ID env in
  let workerName := Node.orElse (Node.WORKER_NAME env) "telegram-api-proxy" in
  let lookup := Cloudflare.getSubdomain apiToken accountId in
  let enable := Cloudflare.enableSubdomain apiToken accountId workerName in
  exists content,
    let upload :=
      Cloudflare.upload apiToken accountId workerName
        (Cloudflare.formData content (Node.orElse (Node.ALLOWED_TOKENS env) EmptyString)) in
    (exists rest, [upload; lookup; enable; lookup] = (Node.requests trace ++ rest)%list)
    /\ (forall first subdomain,
          nth_error (Node.exchanges trace) 1 = Some (lookup, Returned first) ->
          Railway2.lookedUp engine first = Some subdomain ->
          Js.truthy subdomain = true ->
          exists rest, [upload; lookup; enable] = (Node.requests trace ++ rest)%list)
    /\ forall url,
         ending = Node.Finished url ->
         (exists a1 first a3 subdomain text,
             Node.exchanges trace
             = [ (upload, a1); (lookup, Returned first); (enable, a3) ]
             /\ Railway2.lookedUp engine first = Some subdomain
             /\ Js.truthy subdomain = true
             /\ Cloudflare.inTemplate subdomain = Returned text
             /\ url = "https://" ++ workerName ++ "." ++ text ++ ".workers.dev")
         \/ (exists a1 first a3 second before after,
               Node.exchanges trace
               = [ (upload, a1); (lookup, Returned first); (enable, a3);
                   (lookup, Returned second) ]
               /\ Railway2.lookedUp engine first = Some before
               /\ Js.truthy before = false
               /\ Railway2.lookedUp engine second = Some after
               /\ ((Js.truthy after = true
                    /\ exists text,
                         Cloudflare.inTemplate after = Returned text
                         /\ url = "https://" ++ workerName ++ "." ++ text
                                  ++ ".workers.dev")
                   \/ (Js.truthy after = false
                       /\ url = "Check Cloudflare dashboard: https://dash.cloudflare.com/"
                                ++ Js.orUndefined accountId
                                ++ "/workers/services/view/" ++ workerName))).
Proof.
  intros H. unfold Railway2.deployWorker in H.
  destruct (negb (Node.truthy (Node.CLOUDFLARE_API_TOKEN env))
            || negb (Node.truthy (Node.CLOUDFLARE_ACCOUNT_ID env)));
    run_script2 H; try absurd_case; injection H as <- <- <-;
    cbn zeta;
    first [ exists content | exists EmptyString ];
    (split;
     [ cbn [Node.requests app]; eexists; reflexivity
     | split;
       [ intros first sub Hn Hl Ht; first_lookup2 Hn Hl Ht
       | intros url Hurl; try discriminate Hurl; injection Hurl as <-;
         cbn [Node.exchanges app];
         first
           [ left; eexists _, _, _, _, _;
             split; [reflexivity|]; split; [looked_up; reflexivity|];
             split; [first [eassumption|reflexivity]|];
             split; [eassumption|reflexivity]
           | right; eexists _, _, _, _, _, _;
             split; [reflexivity|]; split; [looked_up; reflexivity|];
             split; [first [eassumption|reflexivity]|];
             split; [looked_up; reflexivity|];
             first [ left; split; [eassumption|]; eexists;
                     split; [eassumption|reflexivity]
                   | right; split; [first [eassumption|reflexivity]|reflexivity] ] ] ] ]).
Qed.

(** X19.  Once the status server is started, [main] of the second
    text always runs to its end and assigns [deploymentStatus] exactly
    once.  A success carries no error and, as its worker URL, the
    [workers.dev] URL or the sentence that begins with
    "Check Cloudflare dashboard:", which is no URL; an error carries a
    message and no URL. *)
Theorem railway2_main_status {W : Type} (world : Node.World W) (w w' : W)
        (engine : Node.Engine) (env : Node.ProcessEnv)
        (ending : Node.Ending unit) (trace : list Node.Event) :
  Node.exec world (Railway2.main engine env) w [] = (ending, trace, w') ->
  let accountId := Node.CLOUDFLARE_ACCOUNT_ID env in
  let workerName := Node.orElse (Node.WORKER_NAME env) "telegram-api-proxy" in
  ending = Node.Finished tt
  /\ exists s,
       Node.statuses trace = [s]
       /\ ((Node.status s = "success"
            /\ Node.error s = None
            /\ ((exists subdomain,
                   Node.workerUrl s
                   = Some ("https://" ++ workerName ++ "." ++ subdomain ++ ".workers.dev"))
                \/ Node.workerUrl s
                   = Some ("Check Cloudflare dashboard: https://dash.cloudflare.com/"
                           ++ Js.orUndefined accountId
                           ++ "/workers/services/view/" ++ workerName)))
           \/ (Node.status s = "error"
               /\ Node.workerUrl s = None
               /\ exists m, Node.error s = Some m)).
Proof.
  intros H. unfold Railway2.main, Railway2.deployWorker in H.
  destruct (negb (Node.truthy (Node.CLOUDFLARE_API_TOKEN env))
            || negb (Node.truthy (Node.CLOUDFLARE_ACCOUNT_ID env)));
    run_script2 H; try absurd_case; injection H as <- <- <-;
    cbn zeta;
    (split; [reflexivity|]); eexists; (split; [reflexivity|]);
    cbn [Node.status Node.workerUrl Node.error];
    first [ right; split; [reflexivity|]; split; [reflexivity|]; eexists; reflexivity
          | left; split; [reflexivity|]; split; [reflexivity|];
            first [ left; eexists; reflexivity | right; reflexivity ] ].
Qed.

(** X20.  Every request [main] of the second text sends carries the
    header [Authorization: Bearer] with the API token, and goes to a
    path under the account's [workers] on the Cloudflare API. *)
Theorem railway2_requests_authorized {W : Type} (world : Node.World W) (w w' : W)
        (engine : Node.Engine) (env : Node.ProcessEnv)
        (ending : Node.Ending unit) (trace : list Node.Event) :
  Node.exec world (Railway2.main engine env) w [] = (ending, trace, w') ->
  Forall
    (fun r =>
       In ("Authorization",
           "Bearer " ++ Js.orUndefined (Node.CLOUDFLARE_API_TOKEN env))
          (Node.headers r)
       /\ exists rest,
            Node.url r
            = "https://api.cloudflare.com/client/v4/accounts/"
              ++ Js.orUndefined (Node.CLOUDFLARE_ACCOUNT_ID env)
              ++ "/workers/" ++ rest)
    (Node.requests trace).
Proof.
  intros H. unfold Railway2.main, Railway2.deployWorker in H.
  destruct (negb (Node.truthy (Node.CLOUDFLARE_API_TOKEN env))
            || negb (Node.truthy (Node.CLOUDFLARE_ACCOUNT_ID env)));
    run_script2 H; try absurd_case; injection H as <- <- <-;
    authorized_requests.
Qed.

(** X21.  The two texts of [railway-deploy.js] begin with the same
    request, or both send none: the second text uploads what the
    first does, whatever the engine. *)
Theorem same_upload_revised {W : Type} (world : Node.World W) (w : W)
        (engine : Node.Engine) (env : Node.ProcessEnv) :
  hd_error (Node.requests
              (snd (fst (Node.exec world (Railway2.main engine env) w []))))
  = hd_error (Node.requests (snd (fst (Node.exec world (Railway.main env) w [])))).
Proof.
  unfold Railway2.main, Railway2.deployWorker, Railway.main, Railway.deployWorker.
  destruct (negb (Node.truthy (Node.CLOUDFLARE_API_TOKEN env))
            || negb (Node.truthy (Node.CLOUDFLARE_ACCOUNT_ID env))).
  - cbn [Node.exec Node.bind Node.try Node.logError Node.now app].
    destruct (Node.onNow world w) as [t w1]. reflexivity.
  - cbn [Node.exec Node.bind Node.try Node.log Node.readWorkerScript app].
    destruct (Node.onRead world w) as [[content|failure] w1];
      cbn [Node.exec Node.bind Node.try Node.lift Node.fetch Node.now
           Node.log Node.logError app].
    + destruct (Node.onFetch world _ w1) as [r w2].
      repeat match goal with
             | |- context [Node.exec ?wd ?p ?x ?tr] =>
                 let more := fresh "more" in
                 let E := fresh "E" in
                 destruct (exec_requests wd p x tr) as [more E];
                 rewrite E; clear E
             end.
      reflexivity.
    + destruct (Node.onNow world w1) as [t w2]. reflexivity.
Qed.
(** A prefix of at most [n] code units. *)
Lemma length_substring (n : nat) (s : string) :
  String.length (substring 0 n s) <= n.
Proof.
  revert s. induction n as [|n IH]; intros [|c s]; cbn; try lia.
  specialize (IH s). lia.
Qed.

(** X22.  When the answer to the upload is a text that [JSON.parse]
    rejects, whatever its status, [deployWorker] of the second text
    throws "Invalid JSON response from worker upload:" followed by the
    first hundred code units of the text, a message of at most 142
    code units however long the text, after writing the first five
    hundred to the error stream; the upload is the only request
    sent. *)
Theorem railway2_invalid_json {W : Type} (world : Node.World W) (w w1 w2 : W)
        (engine : Node.Engine) (env : Node.ProcessEnv) (content body : string)
        (response : Node.ApiResponse) (failure : Error) :
  Node.truthy (Node.CLOUDFLARE_API_TOKEN env) = true ->
  Node.truthy (Node.CLOUDFLARE_ACCOUNT_ID env) = true ->
  Node.onRead world w = (Returned content, w1) ->
  let upload :=
    Cloudflare.upload (Node.CLOUDFLARE_API_TOKEN env) (Node.CLOUDFLARE_ACCOUNT_ID env)
      (Node.orElse (Node.WORKER_NAME env) "telegram-api-proxy")
      (Cloudflare.formData content (Node.orElse (Node.ALLOWED_TOKENS env) EmptyString)) in
  Node.onFetch world upload w1 = (Returned response, w2) ->
  Node.text response = Returned body ->
  Node.jsonParse engine body = Thrown failure ->
  exists trace thrown,
    Node.exec world (Railway2.deployWorker engine env) w []
    = (Node.Failed thrown, trace, w2)
    /\ message thrown
       = "Invalid JSON response from worker upload: " ++ substring 0 100 body
    /\ String.length (message thrown) <= 142
    /\ Node.requests trace = [upload]
    /\ In (Node.Logged Node.Stderr
             ("Failed to parse JSON for worker upload: " ++ substring 0 500 body))
          trace.
Proof.
  intros Ht Ha Hread upload Hfetch Htext Hparse.
  unfold Railway2.deployWorker. rewrite Ht, Ha. cbn [negb orb].
  cbn [Node.exec Node.bind Node.log Node.readWorkerScript app].
  rewrite Hread. cbn [Node.exec Node.bind Node.lift Node.log Node.fetch app].
  fold upload. rewrite Hfetch. unfold Railway2.safeJsonParse.
  cbn [Node.exec Node.bind Node.lift]. rewrite Htext.
  cbn [Node.exec Node.bind Node.try Node.lift]. rewrite Hparse.
  cbn [Node.exec Node.bind Node.try Node.lift Node.logError app].
  eexists. eexists. split; [reflexivity|]. cbn [message].
  split; [reflexivity|]. split; [|split].
  - rewrite length_append. pose proof (length_substring 100 body). cbn. lia.
  - reflexivity.
  - unfold Node.labelled, Js.orUndefined. cbn [In].
    do 5 right. left. now rewrite <- append_assoc.
Qed.

(** X23.  After an accepted upload, answers to the lookup, the
    enabling and the second lookup that are not [ok] are not parsed
    and do not fail the deployment: [deployWorker] of the second text
    sends all four requests and returns the sentence pointing to the
    dashboard. *)
Theorem railway2_survives_refusals {W : Type} (world : Node.World W)
        (w w1 w2 w3 w4 w5 : W) (engine : Node.Engine) (env : Node.ProcessEnv)
        (content body : string) (uploaded looked enabled retried : Node.ApiResponse)
        (result : Js.value) (success : option Js.value) :
  Node.truthy (Node.CLOUDFLARE_API_TOKEN env) = true ->
  Node.truthy (Node.CLOUDFLARE_ACCOUNT_ID env) = true ->
  let apiToken := Node.CLOUDFLARE_API_TOKEN env in
  let accountId := Node.CLOUDFLARE_ACCOUNT_ID env in
  let workerName := Node.orElse (Node.WORKER_NAME env) "telegram-api-proxy" in
  let upload :=
    Cloudflare.upload apiToken accountId workerName
      (Cloudflare.formData content (Node.orElse (Node.ALLOWED_TOKENS env) EmptyString)) in
  let lookup := Cloudflare.getSubdomain apiToken accountId in
  let enable := Cloudflare.enableSubdomain apiToken accountId workerName in
  Node.onRead world w = (Returned content, w1) ->
  Node.onFetch world upload w1 = (Returned uploaded, w2) ->
  Node.text uploaded = Returned body ->
  Node.jsonParse engine body = Returned result ->
  Js.get result "success" = Returned success ->
  Js.truthy success = true ->
  Node.onFetch world lookup w2 = (Returned looked, w3) ->
  Node.ok looked = false ->
  Node.onFetch world enable w3 = (Returned enabled, w4) ->
  Node.ok enabled = false ->
  Node.onFetch world lookup w4 = (Returned retried, w5) ->
  Node.ok retried = false ->
  exists trace,
    Node.exec world (Railway2.deployWorker engine env) w []
    = (Node.Finished
         ("Check Cloudflare dashboard: https://dash.cloudflare.com/"
          ++ Js.orUndefined accountId ++ "/workers/services/view/" ++ workerName),
       trace, w5)
    /\ Node.requests trace = [upload; lookup; enable; lookup].
Proof.
  intros Ht Ha apiToken accountId workerName upload lookup enable
         Hread Hup Htext Hparse Hs Htruthy Hlook Hlok Hen Henok Hre Hreok.
  unfold Railway2.deployWorker. rewrite Ht, Ha. cbn [negb orb].
  cbn [Node.exec Node.bind Node.log Node.readWorkerScript app].
  rewrite Hread. cbn [Node.exec Node.bind Node.lift Node.log Node.fetch app].
  fold apiToken accountId workerName. fold upload. rewrite Hup.
  unfold Railway2.safeJsonParse.
  cbn [Node.exec Node.bind Node.lift]. rewrite Htext.
  cbn [Node.exec Node.bind Node.try Node.lift]. rewrite Hparse.
  cbn [Node.exec Node.bind Node.try Node.lift]. rewrite Hs.
  cbn [Node.exec Node.bind Node.lift]. rewrite Htruthy.
  cbn [negb Node.exec Node.bind Node.lift Node.log Node.fetch app].
  fold lookup. rewrite Hlook.
  cbn [Node.exec Node.bind Node.lift]. rewrite Hlok.
  cbn [Node.exec Node.bind Node.lift Node.log Node.fetch app].
  fold enable. rewrite Hen.
  cbn [Node.exec Node.bind Node.lift]. rewrite Henok.
  cbn [Node.exec Node.bind Node.lift Node.log Node.fetch Js.truthy negb app].
  rewrite Hre.
  cbn [Node.exec Node.bind Node.lift]. rewrite Hreok.
  cbn [Node.exec Node.bind Node.lift Node.log Js.truthy app].
  eexists. split; reflexivity.
Qed.

(** ** The properties of the second text on sample runs *)

Lemma railway2_requests_witness :
  List.length
    (Node.exchanges
       (snd (fst (Node.exec DeploySample.canned
                    (Railway2.deployWorker DeploySample.engine DeploySample.env)
                    DeploySample.unreachable []))))
  = 4
  /\ fst (fst (Node.exec DeploySample.canned
                 (Railway2.deployWorker DeploySample.engine DeploySample.env)
                 DeploySample.unreachable []))
     = Node.Finished
         "Check Cloudflare dashboard: https://dash.cloudflare.com/0123abcd/workers/services/view/telegram-api-proxy".
Proof.
  destruct (railway2_requests DeploySample.canned DeploySample.unreachable
              (snd (Node.exec DeploySample.canned
                      (Railway2.deployWorker DeploySample.engine DeploySample.env)
                      DeploySample.unreachable []))
              DeploySample.engine DeploySample.env
              (fst (fst (Node.exec DeploySample.canned
                           (Railway2.deployWorker DeploySample.engine DeploySample.env)
                           DeploySample.unreachable [])))
              (snd (fst (Node.exec DeploySample.canned
                           (Railway2.deployWorker DeploySample.engine DeploySample.env)
                           DeploySample.unreachable []))))
    as [content [_ [_ Hurl]]].
  - vm_compute. reflexivity.
  - destruct (Hurl "Check Cloudflare dashboard: https://dash.cloudflare.com/0123abcd/workers/services/view/telegram-api-proxy")
      as [(a1 & first & a3 & sub & text & Hx & _)
         |(a1 & first & a3 & second & before & after & Hx & _)].
    + vm_compute. reflexivity.
    + exfalso. vm_compute in Hx. discriminate Hx.
    + split; [now rewrite Hx|vm_compute; reflexivity].
Defined.

Lemma railway2_main_status_witness :
  fst (fst (Node.exec DeploySample.canned
              (Railway2.main DeploySample.engine DeploySample.env)
              DeploySample.garbled []))
  = Node.Finished tt
  /\ exists s,
       Node.statuses
         (snd (fst (Node.exec DeploySample.canned
                      (Railway2.main DeploySample.engine DeploySample.env)
                      DeploySample.garbled [])))
       = [s].
Proof.
  destruct (railway2_main_status DeploySample.canned DeploySample.garbled
              (snd (Node.exec DeploySample.canned
                      (Railway2.main DeploySample.engine DeploySample.env)
                      DeploySample.garbled []))
              DeploySample.engine DeploySample.env
              (fst (fst (Node.exec DeploySample.canned
                           (Railway2.main DeploySample.engine DeploySample.env)
                           DeploySample.garbled [])))
              (snd (fst (Node.exec DeploySample.canned
                           (Railway2.main DeploySample.engine DeploySample.env)
                           DeploySample.garbled []))))
    as [He [s [Hs _]]].
  - vm_compute. reflexivity.
  - split; [exact He|]. exists s. exact Hs.
Defined.

Lemma railway2_requests_authorized_witness :
  Forall
    (fun r => In ("Authorization", "Bearer cf-token") (Node.headers r))
    (Node.requests
       (snd (fst (Node.exec DeploySample.canned
                    (Railway2.main DeploySample.engine DeploySample.env)
                    DeploySample.deployed [])))).
Proof.
  eapply Forall_impl;
    [|apply (railway2_requests_authorized DeploySample.canned DeploySample.deployed
               (snd (Node.exec DeploySample.canned
                       (Railway2.main DeploySample.engine DeploySample.env)
                       DeploySample.deployed []))
               DeploySample.engine DeploySample.env
               (fst (fst (Node.exec DeploySample.canned
                            (Railway2.main DeploySample.engine DeploySample.env)
                            DeploySample.deployed [])))
               (snd (fst (Node.exec DeploySample.canned
                            (Railway2.main DeploySample.engine DeploySample.env)
                            DeploySample.deployed []))));
      vm_compute; reflexivity].
  intros r [H _]. exact H.
Defined.

Lemma railway2_invalid_json_witness :
  exists trace thrown,
    Node.exec DeploySample.canned
      (Railway2.deployWorker DeploySample.engine DeploySample.env)
      DeploySample.garbled []
    = (Node.Failed thrown, trace, [])
    /\ message thrown
       = "Invalid JSON response from worker upload: <html><body>502 Bad Gateway</body></html>".
Proof.
  destruct (railway2_invalid_json DeploySample.canned DeploySample.garbled
              DeploySample.garbled [] DeploySample.engine DeploySample.env
              "export default {}" DeploySample.gatewayPage
              {| Node.ok := true;
                 Node.httpStatus := 200;
                 Node.text := Returned DeploySample.gatewayPage;
                 Node.json :=
                   Thrown {| message := "Unexpected token < in JSON at position 0" |} |}
              {| message := "Unexpected token < in JSON at position 0" |}
              eq_refl eq_refl eq_refl eq_refl eq_refl eq_refl)
    as [trace [thrown [E [Hm _]]]].
  exists trace, thrown. split; [exact E|]. rewrite Hm. reflexivity.
Defined.

Lemma railway2_survives_refusals_witness :
  exists trace,
    Node.exec DeploySample.canned
      (Railway2.deployWorker DeploySample.engine DeploySample.env)
      DeploySample.unreachable []
    = (Node.Finished
         "Check Cloudflare dashboard: https://dash.cloudflare.com/0123abcd/workers/services/view/telegram-api-proxy",
       trace, [])
    /\ List.length (Node.requests trace) = 4.
Proof.
  destruct (railway2_survives_refusals DeploySample.canned
              DeploySample.unreachable DeploySample.unreachable
              (tl DeploySample.unreachable)
              (tl (tl DeploySample.unreachable))
              (tl (tl (tl DeploySample.unreachable)))
              []
              DeploySample.engine DeploySample.env
              "export default {}" (Js.stringify DeploySample.accepted)
              (DeploySample.replyOf DeploySample.accepted)
              {| Node.ok := false;
                 Node.httpStatus := 502;
                 Node.text := Returned DeploySample.gatewayPage;
                 Node.json :=
                   Thrown {| message := "Unexpected token < in JSON at position 0" |} |}
              {| Node.ok := false;
                 Node.httpStatus := 502;
                 Node.text := Returned DeploySample.gatewayPage;
                 Node.json :=
                   Thrown {| message := "Unexpected token < in JSON at position 0" |} |}
              {| Node.ok := false;
                 Node.httpStatus := 502;
                 Node.text := Returned DeploySample.gatewayPage;
                 Node.json :=
                   Thrown {| message := "Unexpected token < in JSON at position 0" |} |}
              DeploySample.accepted (Some (Js.Bool true))
              eq_refl eq_refl eq_refl eq_refl eq_refl eq_refl eq_refl eq_refl
              eq_refl eq_refl eq_refl eq_refl eq_refl eq_refl)
    as [trace [E Hr]].
  exists trace. split; [exact E|]. now rewrite Hr.
Defined.
